(** * MegEngine tensor_wrapper.py : operator dispatch layer

    Shallow embedding of
    [imperative/python/megengine/core/tensor/tensor_wrapper.py].

    The module is glue code: every method normalises its operands and
    hands them to collaborators that live in other modules ([apply],
    [utils.convert_inputs], [Const], [utils.astype], [as_raw_tensor],
    [Tensor]).  Collaborators are a parameter of the development (the
    section variable [ext]); every call to one of them is recorded in a
    trace, together with every store to a wrapper's [__wrapped__] slot,
    so that statements such as "no primitive is invoked" or "the slot is
    written only after the result is computed" can be stated and proved.

    Modelled: [_elwise], [_matmul], [_reshape], the operator factories
    ([_unary_elwise], [_binary_elwise], [_logical_unary_elwise],
    [_logical_binary_elwise], [_reduce], [_inplace], [_todo]), the method
    table of [ArrayMethodMixin] built from them, the conversions, [__len__],
    [size], [item], [astype], [reshape], [flatten], and the two wrapper
    classes with [__init__] and [_reset], [__getitem__] and the iteration
    of [__iter__] run to its end.  Not modelled: [_transpose],
    [_broadcast], [__setitem__], [ndim], [T], [tolist], [__repr__].

    Conventions: [assert] raises [AssertionError] (assertions enabled);
    [np.prod] of a tuple of ints is an int64 product; a primitive tensor
    is an immutable value carrying the identity of its handle. *)

From Stdlib Require Import ZArith Lia Floats.SpecFloat.
From stdpp Require Import base list strings pretty.

Local Open Scope string_scope.
Local Open Scope list_scope.
Local Open Scope Z_scope.

(** ** Python values *)

(** Scalars that [ndarray.item()] can hand back for the element types the
    engine supports: Python [bool], [int] and [float] (IEEE binary64). *)
Inductive scalar :=
| SBool (b : bool)
| SInt (z : Z)
| SFloat (f : spec_float).

(** A numpy array: shape tuple, dtype name and the elements in row-major
    order. *)
Record ndarray := mk_ndarray {
  a_shape : list Z;
  a_dtype : string;
  a_data : list scalar
}.

(** A primitive tensor ([TensorBase] instance).  It is owned by the
    execution engine and immutable from this module's point of view; [t_id]
    stands for the identity of the handle. *)
Record Tensor := mk_Tensor {
  t_id : nat;
  t_device : string;
  t_numpy : ndarray
}.

(** Addresses of wrapper objects in the heap. *)
Abbreviation loc := nat.

#[warnings="-register-all"]
Inductive pyobj :=
| PNone
| PNotImplemented
| PScalar (s : scalar)
| PComplex (re im : spec_float)
| PDtype (name : string)
| PDevice (name : string)
| PTuple (xs : list pyobj)
| PArray (a : ndarray)
| PTensor (t : Tensor)
| PRef (l : loc).

(** Exceptions.  An exception raised inside a collaborator is opaque to
    this layer and travels through unchanged as [CollaboratorError]. *)
Inductive exn :=
| ValueError (msg : string)
| TypeError (msg : string)
| AttributeError (msg : string)
| AssertionError (msg : option string)
| NotImplementedError
| OverflowError (msg : string)
| RecursionError
| SystemError (msg : string)
| CollaboratorError (info : string).

(** Mapping over a successful result. *)
Definition map_ok {A B} (f : A -> B) (r : exn + A) : exn + B :=
  match r with
  | inr a => inr (f a)
  | inl e => inl e
  end.

(** ** Wrapper objects *)

(** The two concrete wrapper classes of the file.  Both derive from
    [TensorWrapperBase] and [ArrayMethodMixin]; [TensorWrapper] derives
    from [GenericTensorWrapper]. *)
Inductive wclass := GenericTensorWrapper | TensorWrapper.

(** A wrapper instance: its class and its [__wrapped__] attribute, which is
    unset between allocation and the assignment in [__init__]. *)
Record wobj := mk_wobj {
  w_class : wclass;
  w_wrapped : option pyobj
}.

(** ** Collaborators *)

(** Operation descriptors built by the file ([builtin.*]). *)
Inductive OpDef :=
| Elemwise (mode : string)
| MatrixMul (transposeA transposeB : bool) (compute_mode format : string)
| Reshape (unspec_axis : option nat)
| Reduce (mode : string) (axis : Z).

(** Calls that leave the file. *)
Inductive call :=
| CApply (op : OpDef) (args : list pyobj)
| CConvertInputs (args : list pyobj)
| CConst (value : list Z) (dtype : string) (device : pyobj)
         (reference : list pyobj)
| CAstype (x : pyobj) (dtype : string)
| CGetitem (x : pyobj) (index : pyobj)
| CAsRawTensor (data dtype device : pyobj)
| CTensor (raw : pyobj).

Inductive event :=
| EvCall (c : call)
| EvNew (l : loc) (cls : wclass)
| EvStore (l : loc) (v : pyobj).

Record state := mk_state {
  heap : list wobj;
  trace : list event
}.

(** ** The state-and-exception monad *)

Definition M (A : Type) : Type := state -> (exn + A) * state.

#[export] Instance M_ret : MRet M := fun A a s => (inr a, s).

#[export] Instance M_bind : MBind M := fun A B k m s =>
  match m s with
  | (inr a, s') => k a s'
  | (inl e, s') => (inl e, s')
  end.

Definition raise {A} (e : exn) : M A := fun s => (inl e, s).

Definition lift {A} (r : exn + A) : M A := fun s => (r, s).

Definition get_heap : M (list wobj) := fun s => (inr (heap s), s).

(** The events a run has appended to the trace. *)
Definition since (s s' : state) : list event :=
  drop (length (trace s)) (trace s').

Definition calls_of (evs : list event) : list call :=
  omap (fun e => match e with EvCall c => Some c | _ => None end) evs.

Definition applied (evs : list event) : list OpDef :=
  omap (fun e => match e with EvCall (CApply op _) => Some op | _ => None end)
       evs.

Definition stores_of (evs : list event) : list (loc * pyobj) :=
  omap (fun e => match e with EvStore l v => Some (l, v) | _ => None end) evs.

(** ** Native conversions of Python scalars

    [bool(v)], [int(v)], [float(v)], [complex(v)] and [v.__index__()] for
    [v] a Python [bool], [int] or [float]. *)

Definition float_of_Z (z : Z) : spec_float := binary_normalize 53 1024 z 0 false.

Definition scalar_bool (v : scalar) : bool :=
  match v with
  | SBool b => b
  | SInt z => negb (z =? 0)
  | SFloat (S754_zero _) => false
  | SFloat _ => true
  end.

Definition scalar_int (v : scalar) : exn + Z :=
  match v with
  | SBool b => inr (Z.b2z b)
  | SInt z => inr z
  | SFloat (S754_zero _) => inr 0
  | SFloat (S754_infinity _) =>
      inl (OverflowError "cannot convert float infinity to integer")
  | SFloat S754_nan => inl (ValueError "cannot convert float NaN to integer")
  | SFloat (S754_finite s m e) =>
      (* truncation towards zero of (-1)^s * m * 2^e *)
      let a := if 0 <=? e then Z.pos m * 2 ^ e else Z.pos m / 2 ^ (- e) in
      inr (if s then - a else a)
  end.

Definition scalar_float (v : scalar) : exn + spec_float :=
  match v with
  | SFloat f => inr f
  | SBool b => inr (float_of_Z (Z.b2z b))
  | SInt z =>
      match float_of_Z z with
      | S754_infinity _ => inl (OverflowError "int too large to convert to float")
      | f => inr f
      end
  end.

Definition scalar_complex (v : scalar) : exn + (spec_float * spec_float) :=
  match scalar_float v with
  | inr f => inr (f, S754_zero false)
  | inl e => inl e
  end.

(** [bool] and [int] implement [__index__]; [float] has no such method. *)
Definition scalar_index (v : scalar) : exn + Z :=
  match v with
  | SBool b => inr (Z.b2z b)
  | SInt z => inr z
  | SFloat _ => inl (AttributeError "'float' object has no attribute '__index__'")
  end.

(** ** numpy helpers *)

Definition wrap_int64 (z : Z) : Z := (z + 2 ^ 63) mod 2 ^ 64 - 2 ^ 63.

Definition shape_product (shape : list Z) : Z := foldr Z.mul 1 shape.

(** [np.prod(shape).item()]: the empty tuple gives the float [1.0]; a tuple
    of ints is multiplied in int64, with wrap-around. *)
Definition np_prod_item (shape : list Z) : scalar :=
  match shape with
  | [] => SFloat (float_of_Z 1)
  | _ => SInt (wrap_int64 (shape_product shape))
  end.

(** [v == 1] for a scalar [v]. *)
Definition scalar_eq_one (v : scalar) : bool :=
  match v with
  | SBool b => b
  | SInt z => z =? 1
  | SFloat f => SFeqb f (float_of_Z 1)
  end.

(** [ndarray.item()] with no argument. *)
Definition ndarray_item (a : ndarray) : exn + scalar :=
  match a_data a with
  | [v] => inr v
  | _ => inl (ValueError "can only convert an array of size 1 to a Python scalar")
  end.

(** ** The validation loop of [_reshape]

    [for i, s in enumerate(shape)] with the loop variable [unspec_axis]. *)

Definition msg_expect (i : nat) (s : Z) : string :=
  "expect shape[" +:+ pretty i +:+ "] >= -1, got " +:+ pretty s.

Definition msg_multiple (j i : nat) : string :=
  "multiple -1 in shape: " +:+ pretty j +:+ " & " +:+ pretty i.

Fixpoint reshape_scan (i : nat) (shape : list Z) (unspec_axis : option nat)
  : exn + option nat :=
  match shape with
  | [] => inr unspec_axis
  | s :: rest =>
      if s <? 0 then
        if negb (s =? -1) then inl (ValueError (msg_expect i s))
        else
          match unspec_axis with
          | Some j => inl (ValueError (msg_multiple j i))
          | None => reshape_scan (S i) rest (Some i)
          end
      else reshape_scan (S i) rest unspec_axis
  end.

(** ** Attribute forwarding

    The properties [dtype], [shape], [device] and the method [numpy] of a
    wrapper forward to [self.__wrapped__].  A wrapper may wrap another
    wrapper ([GenericTensorWrapper.__init__] stores what it is given), so
    the lookup follows the chain; a chain longer than the heap is a cycle
    and ends in Python's recursion limit. *)
Fixpoint fwd_target (fuel : nat) (h : list wobj) (name : string) (v : pyobj)
  : exn + (Tensor + ndarray) :=
  match v with
  | PTensor t => inr (inl t)
  | PArray a => inr (inr a)
  | PRef l =>
      match fuel with
      | O => inl RecursionError
      | S fuel' =>
          match h !! l with
          | None => inl (SystemError "dangling reference")
          | Some o =>
              match w_wrapped o with
              | None => inl (AttributeError "__wrapped__")
              | Some w => fwd_target fuel' h name w
              end
          end
      end
  | _ => inl (AttributeError name)
  end.

Definition np_bool_ : string := "bool".

(** [d != np.bool_] *)
Definition dtype_ne_bool (d : string) : bool := negb (String.eqb d np_bool_).

(** ** A reference engine

    A small executable stand-in for the collaborators, over integer
    tensors, used to run the model on concrete inputs.  [convert_inputs]
    passes its operands through; [Const] builds the rank-1 shape tensor;
    the elementwise modes [ADD], [EQ], [LT], [LEQ] and [NOT] work element by
    element; [astype] to [bool] converts each element; [Reshape] with the
    inferred axis 0 flattens (a tensor that is flat already is handed back
    as it is); [Reduce] with mode [SUM] over axis 0 adds up a flat tensor;
    results come back in fresh [TensorWrapper] instances. *)

Definition underlying (h : list wobj) (v : pyobj) : option Tensor :=
  match fwd_target (S (length h)) h "" v with
  | inr (inl t) => Some t
  | _ => None
  end.

Definition fresh_wrapper (h : list wobj) (dev : string) (a : ndarray)
  : (string + pyobj) * list wobj :=
  let t := {| t_id := length h; t_device := dev; t_numpy := a |} in
  (inr (PTuple [PRef (length h)]),
   h ++ [{| w_class := TensorWrapper; w_wrapped := Some (PTensor t) |}]).

Definition scalar_Z (u : scalar) : Z :=
  match u with
  | SInt z => z
  | SBool b => Z.b2z b
  | SFloat _ => 0
  end.

Definition add_scalar (u v : scalar) : scalar := SInt (scalar_Z u + scalar_Z v).

(** The elementwise kernels of the reference engine; a comparison answers
    with 0 or 1 in the element type of its operands. *)
Definition binary_kernel (mode : string) : option (scalar -> scalar -> scalar) :=
  match mode with
  | "ADD" => Some add_scalar
  | "EQ" => Some (fun u v => SInt (Z.b2z (scalar_Z u =? scalar_Z v)))
  | "LT" => Some (fun u v => SInt (Z.b2z (scalar_Z u <? scalar_Z v)))
  | "LEQ" => Some (fun u v => SInt (Z.b2z (scalar_Z u <=? scalar_Z v)))
  | _ => None
  end.

Definition unary_kernel (mode : string) : option (scalar -> scalar) :=
  match mode with
  | "NOT" => Some (fun u => SBool (negb (scalar_bool u)))
  | _ => None
  end.

Definition retype (a : ndarray) (dtype : string) (f : scalar -> scalar) : ndarray :=
  {| a_shape := a_shape a; a_dtype := dtype; a_data := map f (a_data a) |}.

Definition ref_ext (c : call) (h : list wobj) : (string + pyobj) * list wobj :=
  match c with
  | CConvertInputs args => (inr (PTuple args), h)
  | CConst value dtype (PDevice dev) _ =>
      (inr (PTuple [PTensor {| t_id := 0; t_device := dev;
                               t_numpy := {| a_shape := [Z.of_nat (length value)];
                                             a_dtype := dtype;
                                             a_data := map SInt value |} |}]), h)
  | CApply (Elemwise mode) [x; y] =>
      match binary_kernel mode, underlying h x, underlying h y with
      | Some f, Some t, Some u =>
          fresh_wrapper h (t_device t)
            {| a_shape := a_shape (t_numpy t); a_dtype := a_dtype (t_numpy t);
               a_data := zip_with f (a_data (t_numpy t)) (a_data (t_numpy u)) |}
      | _, _, _ => (inl "unsupported elementwise call", h)
      end
  | CApply (Elemwise mode) [x] =>
      match unary_kernel mode, underlying h x with
      | Some f, Some t =>
          fresh_wrapper h (t_device t) (retype (t_numpy t) (a_dtype (t_numpy t)) f)
      | _, _ => (inl "unsupported elementwise call", h)
      end
  | CAstype x "bool" =>
      match underlying h x with
      | Some t =>
          match fresh_wrapper h (t_device t)
                  (retype (t_numpy t) "bool" (fun u => SBool (scalar_bool u))) with
          | (inr (PTuple [r]), h') => (inr r, h')
          | other => other
          end
      | None => (inl "astype expects a tensor", h)
      end
  | CApply (Reshape (Some O)) [x; _] =>
      match underlying h x with
      | Some t =>
          match a_shape (t_numpy t) with
          | [_] => (inr (PTuple [x]), h)
          | _ =>
              fresh_wrapper h (t_device t)
                {| a_shape := [Z.of_nat (length (a_data (t_numpy t)))];
                   a_dtype := a_dtype (t_numpy t);
                   a_data := a_data (t_numpy t) |}
          end
      | None => (inl "Reshape expects a tensor", h)
      end
  | CApply (Reduce "SUM" 0) [x] =>
      match underlying h x with
      | Some t =>
          fresh_wrapper h (t_device t)
            {| a_shape := []; a_dtype := a_dtype (t_numpy t);
               a_data := [foldr add_scalar (SInt 0) (a_data (t_numpy t))] |}
      | None => (inl "Reduce expects a tensor", h)
      end
  | CAsRawTensor (PScalar v) _ _ =>
      (inr (PArray {| a_shape := []; a_dtype := "int32"; a_data := [v] |}), h)
  | CTensor (PArray a) =>
      (inr (PTensor {| t_id := length h; t_device := "cpu0"; t_numpy := a |}), h)
  | _ => (inl "unsupported by the reference engine", h)
  end.

(** An engine whose [apply] answers every operation with the sentinel
    [NotImplemented]. *)
Definition declining_ext (c : call) (h : list wobj) : (string + pyobj) * list wobj :=
  match c with
  | CConvertInputs args => (inr (PTuple args), h)
  | CApply _ _ => (inr (PTuple [PNotImplemented]), h)
  | _ => (inl "unsupported by the declining engine", h)
  end.

(** Sample data: an int32 tensor of shape (2, 2), a flat one of shape (4,),
    a one-element int tensor holding 5, a one-element float tensor holding
    5.0, a rank-0 tensor, a boolean tensor, and a heap with one
    [TensorWrapper] around each. *)
Definition int_tensor (id : nat) (shape : list Z) (data : list Z) : Tensor :=
  {| t_id := id; t_device := "cpu0";
     t_numpy := {| a_shape := shape; a_dtype := "int32"; a_data := map SInt data |} |}.

Definition t_square : Tensor := int_tensor 0 [2; 2] [1; 2; 3; 4].
Definition t_flat : Tensor := int_tensor 1 [4] [10; 20; 30; 40].
Definition t_five : Tensor := int_tensor 2 [1] [5].
Definition t_five_float : Tensor :=
  {| t_id := 3; t_device := "cpu0";
     t_numpy := {| a_shape := [1]; a_dtype := "float32";
                   a_data := [SFloat (float_of_Z 5)] |} |}.
Definition t_scalar : Tensor := int_tensor 4 [] [7].
Definition t_bool : Tensor :=
  {| t_id := 5; t_device := "cpu0";
     t_numpy := {| a_shape := [2]; a_dtype := "bool";
                   a_data := [SBool true; SBool false] |} |}.
Definition t_pair : Tensor := int_tensor 6 [2] [8; 9].
Definition t_matrix : Tensor := int_tensor 7 [3; 4] [1; 2; 3; 4; 5; 6; 7; 8; 9; 10; 11; 12].

Definition wrap (t : Tensor) : wobj :=
  {| w_class := TensorWrapper; w_wrapped := Some (PTensor t) |}.

Definition sample_heap : list wobj :=
  [wrap t_square; wrap t_flat; wrap t_five; wrap t_five_float; wrap t_scalar;
   wrap t_bool; wrap t_pair; wrap t_matrix].

Definition sample_state : state := {| heap := sample_heap; trace := [] |}.

(** An engine that also indexes: [getitem] with an int (alone or in a
    one-element tuple) on a flat tensor returns a fresh wrapper around the
    rank-0 tensor holding that element; everything else is the reference
    engine's. *)
Definition index_of_arg (index : pyobj) : option Z :=
  match index with
  | PScalar (SInt i) => Some i
  | PTuple [PScalar (SInt i)] => Some i
  | _ => None
  end.

Definition indexing_ext (c : call) (h : list wobj) : (string + pyobj) * list wobj :=
  match c with
  | CGetitem x index =>
      match underlying h x, index_of_arg index with
      | Some t, Some i =>
          match a_shape (t_numpy t), a_data (t_numpy t) !! Z.to_nat i with
          | [_], Some v =>
              match fresh_wrapper h (t_device t)
                      {| a_shape := []; a_dtype := a_dtype (t_numpy t);
                         a_data := [v] |} with
              | (inr (PTuple [r]), h') => (inr r, h')
              | other => other
              end
          | _, _ => (inl "index out of range", h)
          end
      | _, _ => (inl "unsupported index", h)
      end
  | _ => ref_ext c h
  end.

(** An engine whose [apply] returns no output at all. *)
Definition empty_output_ext (c : call) (h : list wobj) : (string + pyobj) * list wobj :=
  match c with
  | CApply _ _ => (inr (PTuple []), h)
  | _ => ref_ext c h
  end.

(** An engine whose [astype] hands its argument back as it is. *)
Definition lax_cast_ext (c : call) (h : list wobj) : (string + pyobj) * list wobj :=
  match c with
  | CAstype x _ => (inr x, h)
  | _ => ref_ext c h
  end.

(** An int32 tensor of shape (2,) holding the reshape target (4, -1), for
    a shape passed as a tensor. *)
Definition t_target : Tensor := int_tensor 8 [2] [4; -1].

(** An engine whose [convert_inputs] keeps the first operand only. *)
Definition single_operand_ext (c : call) (h : list wobj) : (string + pyobj) * list wobj :=
  match c with
  | CConvertInputs args => (inr (PTuple (take 1 args)), h)
  | _ => ref_ext c h
  end.

(** An engine whose [apply] returns a primitive tensor, not a wrapper. *)
Definition bare_ext (c : call) (h : list wobj) : (string + pyobj) * list wobj :=
  match c with
  | CApply _ _ => (inr (PTuple [PTensor t_five]), h)
  | _ => ref_ext c h
  end.

(** The sample heap with three more wrappers: a [TensorWrapper] around the
    target tensor, a [GenericTensorWrapper] around the wrapper at 2 and a
    [GenericTensorWrapper] around [None]. *)
Definition mixed_heap : list wobj :=
  sample_heap ++
  [ wrap t_target;
    {| w_class := GenericTensorWrapper; w_wrapped := Some (PRef 2%nat) |};
    {| w_class := GenericTensorWrapper; w_wrapped := Some PNone |} ].

Definition mixed_state : state := {| heap := mixed_heap; trace := [] |}.

(** What a value holds, whatever handle or wrapper carries it: the numpy
    view of the primitive tensor at the end of the forwarding chain. *)
Definition contents (h : list wobj) (v : pyobj) : option ndarray :=
  t_numpy <$> underlying h v.

(** An engine whose [Reshape] never hands its operand back: flattening
    copies into a fresh wrapper, also when the operand is flat already;
    everything else is the reference engine's. *)
Definition copying_ext (c : call) (h : list wobj) : (string + pyobj) * list wobj :=
  match c with
  | CApply (Reshape (Some O)) [x; _] =>
      match underlying h x with
      | Some t =>
          fresh_wrapper h (t_device t)
            {| a_shape := [Z.of_nat (length (a_data (t_numpy t)))];
               a_dtype := a_dtype (t_numpy t);
               a_data := a_data (t_numpy t) |}
      | None => (inl "Reshape expects a tensor", h)
      end
  | _ => ref_ext c h
  end.

(** The sample heap with one more wrapper, around an int32 tensor of shape
    (2,) holding 8 and 7, to compare with the pair (8, 9) at 6. *)
Definition t_rival : Tensor := int_tensor 8 [2] [8; 7].

Definition rival_heap : list wobj := sample_heap ++ [wrap t_rival].

Definition rival_state : state := {| heap := rival_heap; trace := [] |}.

Section Dispatch.

(** The collaborators: given a call and the heap of wrapper objects, a
    result or the description of an exception, and the heap they leave. *)
Variable ext : call -> list wobj -> (string + pyobj) * list wobj.

Definition call_ext (c : call) : M pyobj := fun s =>
  let '(r, h') := ext c (heap s) in
  let s' := {| heap := h'; trace := trace s ++ [EvCall c] |} in
  match r with
  | inr v => (inr v, s')
  | inl info => (inl (CollaboratorError info), s')
  end.

(** *** Sequences returned by collaborators

    [convert_inputs], [apply] and [Const(...)(...)] hand back sequences,
    which the file unpacks; a sequence is a [PTuple] here, and any other
    answer is treated as a value that cannot be unpacked. *)

(** Splatting [v] into an argument list. *)
Definition as_seq (v : pyobj) : M (list pyobj) :=
  match v with
  | PTuple xs => mret xs
  | _ => raise (TypeError "argument after * must be an iterable")
  end.

(** [(x,) = v] *)
Definition unpack1 (v : pyobj) : M pyobj :=
  match v with
  | PTuple [x] => mret x
  | PTuple [] => raise (ValueError "not enough values to unpack (expected 1, got 0)")
  | PTuple _ => raise (ValueError "too many values to unpack (expected 1)")
  | _ => raise (TypeError "cannot unpack non-iterable object")
  end.

(** [x, y = v] *)
Definition unpack2 (v : pyobj) : M (pyobj * pyobj) :=
  match v with
  | PTuple [x; y] => mret (x, y)
  | PTuple [] => raise (ValueError "not enough values to unpack (expected 2, got 0)")
  | PTuple [_] => raise (ValueError "not enough values to unpack (expected 2, got 1)")
  | PTuple _ => raise (ValueError "too many values to unpack (expected 2)")
  | _ => raise (TypeError "cannot unpack non-iterable object")
  end.

(** *** Objects and attributes *)

Definition obj_at (l : loc) : M wobj := fun s =>
  match heap s !! l with
  | Some o => (inr o, s)
  | None => (inl (SystemError "dangling reference"), s)
  end.

(** [self.__wrapped__] *)
Definition get_wrapped (l : loc) : M pyobj :=
  o ← obj_at l;
  match w_wrapped o with
  | Some v => mret v
  | None => raise (AttributeError "__wrapped__")
  end.

(** [self.__wrapped__ = v] *)
Definition set_wrapped (l : loc) (v : pyobj) : M unit := fun s =>
  match heap s !! l with
  | Some o =>
      (inr tt,
       {| heap := <[l := {| w_class := w_class o; w_wrapped := Some v |}]> (heap s);
          trace := trace s ++ [EvStore l v] |})
  | None => (inl (SystemError "dangling reference"), s)
  end.

Definition target (name : string) (v : pyobj) : M (Tensor + ndarray) := fun s =>
  (fwd_target (S (length (heap s))) (heap s) name v, s).

(** [v.dtype] *)
Definition get_dtype (v : pyobj) : M string :=
  r ← target "dtype" v;
  match r with
  | inl t => mret (a_dtype (t_numpy t))
  | inr a => mret (a_dtype a)
  end.

(** [v.shape] *)
Definition get_shape (v : pyobj) : M (list Z) :=
  r ← target "shape" v;
  match r with
  | inl t => mret (a_shape (t_numpy t))
  | inr a => mret (a_shape a)
  end.

(** [v.device]; a numpy array has none. *)
Definition get_device (v : pyobj) : M string :=
  r ← target "device" v;
  match r with
  | inl t => mret (t_device t)
  | inr _ => raise (AttributeError "device")
  end.

(** [v.numpy()]; a numpy array has no such method. *)
Definition numpy (v : pyobj) : M ndarray :=
  r ← target "numpy" v;
  match r with
  | inl t => mret (t_numpy t)
  | inr _ => raise (AttributeError "numpy")
  end.

(** *** Free functions *)

(** [_elwise], called with the positional operands [args]. *)
Definition _elwise (args : list pyobj) (mode : string) : M pyobj :=
  r ← call_ext (CConvertInputs args);
  args' ← as_seq r;
  r' ← call_ext (CApply (Elemwise mode) args');
  unpack1 r'.

(** [_matmul(inp1, inp2)] *)
Definition _matmul (inp1 inp2 : pyobj) : M pyobj :=
  r ← call_ext (CConvertInputs [inp1; inp2]);
  '(inp1', inp2') ← unpack2 r;
  r' ← call_ext (CApply (MatrixMul false false "DEFAULT" "DEFAULT") [inp1'; inp2']);
  unpack1 r'.

(** [ArrayMethodMixin.size]: [np.prod(self.shape).item()] *)
Definition size (self : loc) : M scalar :=
  shape ← get_shape (PRef self);
  mret (np_prod_item shape).

(** [self.item()]: the branch [not args] of [item]. *)
Definition item_noargs (self : loc) : M scalar :=
  sz ← size self;
  if scalar_eq_one sz then
    a ← numpy (PRef self);
    lift (ndarray_item a)
  else raise (AssertionError None).

(** [ArrayMethodMixin.item], with the positional arguments [args]. *)
Definition item (self : loc) (args : list pyobj) : M scalar :=
  match args with
  | [] => item_noargs self
  | _ =>
      r ← call_ext (CGetitem (PRef self) (PTuple args));
      match r with
      | PRef l => item_noargs l
      | PArray a => lift (ndarray_item a)
      | _ => raise (AttributeError "item")
      end
  end.

(** *** Conversions *)

Definition __index__ (self : loc) : M pyobj :=
  v ← item self [];
  i ← lift (scalar_index v);
  mret (PScalar (SInt i)).

Definition __bool__ (self : loc) : M pyobj :=
  v ← item self [];
  mret (PScalar (SBool (scalar_bool v))).

Definition __int__ (self : loc) : M pyobj :=
  v ← item self [];
  i ← lift (scalar_int v);
  mret (PScalar (SInt i)).

Definition __float__ (self : loc) : M pyobj :=
  v ← item self [];
  f ← lift (scalar_float v);
  mret (PScalar (SFloat f)).

Definition __complex__ (self : loc) : M pyobj :=
  v ← item self [];
  c ← lift (scalar_complex v);
  mret (PComplex c.1 c.2).

(** [ArrayMethodMixin.__len__] *)
Definition __len__ (self : loc) : M pyobj :=
  shape ← get_shape (PRef self);
  match shape with
  | d :: _ => mret (PScalar (SInt d))
  | [] => raise (TypeError "ndim is 0")
  end.

(** *** Reshape *)

(** [int(v)] for an element of the shape argument.  A wrapper answers
    through its [__int__]; a size-1 numpy array converts its element; a
    primitive tensor is not a mixin instance and has no conversion here. *)
Definition py_int (v : pyobj) : M Z :=
  match v with
  | PScalar s => lift (scalar_int s)
  | PRef l =>
      r ← __int__ l;
      match r with
      | PScalar (SInt z) => mret z
      | _ => raise (TypeError "__int__ returned non-int")
      end
  | PArray a =>
      match a_data a with
      | [s] => lift (scalar_int s)
      | _ => raise (TypeError "only size-1 arrays can be converted to Python scalars")
      end
  | PComplex _ _ => raise (TypeError "can't convert complex to int")
  | _ => raise (TypeError "int() argument must be a string, a bytes-like object or a number")
  end.

Fixpoint map_int (xs : list pyobj) : M (list Z) :=
  match xs with
  | [] => mret []
  | x :: rest =>
      z ← py_int x;
      zs ← map_int rest;
      mret (z :: zs)
  end.

(** [tuple(map(int, shape))].  Iterating a numpy array walks its first
    axis: the elements of a rank-1 array, sub-arrays (which convert only
    when they hold one element) for a higher rank; a rank-0 array is not
    iterable. *)
Definition tuple_map_int (shape : pyobj) : M (list Z) :=
  match shape with
  | PTuple xs => map_int xs
  | PArray a =>
      match a_shape a with
      | [] => raise (TypeError "iteration over a 0-d array")
      | n :: rest =>
          if n =? 0 then mret []
          else if shape_product rest =? 1 then
            map_int (map PScalar (a_data a))
          else raise (TypeError "only size-1 arrays can be converted to Python scalars")
      end
  | _ => raise (TypeError "object is not iterable")
  end.

(** The part of [_reshape] after the validation loop. *)
Definition reshape_prim (x : pyobj) (shape : list Z) (unspec_axis : option nat)
  : M pyobj :=
  dev ← get_device x;
  r ← call_ext (CConst shape "int32" (PDevice dev) [x]);
  shape' ← unpack1 r;
  r' ← call_ext (CApply (Reshape unspec_axis) [x; shape']);
  unpack1 r'.

(** [_reshape(x, shape)] *)
Definition _reshape (x : pyobj) (shape : pyobj) : M pyobj :=
  shape ← match shape with
          | PTensor _ | PRef _ => a ← numpy shape; mret (PArray a)
          | _ => mret shape
          end;
  shape ← tuple_map_int shape;
  unspec_axis ← lift (reshape_scan 0 shape None);
  reshape_prim x shape unspec_axis.

(** [ArrayMethodMixin.reshape], with the positional arguments [args]; of the
    values modelled only a tuple is a [collections.Sequence]. *)
Definition reshape (self : loc) (args : list pyobj) : M pyobj :=
  match args with
  | [PTuple xs] => _reshape (PRef self) (PTuple xs)
  | _ => _reshape (PRef self) (PTuple args)
  end.

(** [ArrayMethodMixin.flatten] *)
Definition flatten (self : loc) : M pyobj :=
  reshape self [PScalar (SInt (-1))].

(** *** Reductions *)

(** The part of [_reduce(mode)] after the axis has been settled. *)
Definition reduce_prim (mode : string) (inp : pyobj) (axis : Z) : M pyobj :=
  r ← call_ext (CConvertInputs [inp]);
  result ← unpack1 r;
  r' ← call_ext (CApply (Reduce mode axis) [result]);
  unpack1 r'.

(** [_reduce(mode)], the method [f(self, axis=None)] *)
Definition _reduce (mode : string) (self : loc) (axis : option Z) : M pyobj :=
  match axis with
  | None =>
      inp ← flatten self;
      reduce_prim mode inp 0
  | Some axis => reduce_prim mode (PRef self) axis
  end.

Definition sum := _reduce "SUM".
Definition prod := _reduce "PRODUCT".
Definition min := _reduce "MIN".
Definition max := _reduce "MAX".
Definition mean := _reduce "MEAN".

(** *** Operator factories *)

(** [utils.astype(self, dtype)], the body of [ArrayMethodMixin.astype]. *)
Definition astype (self : loc) (dtype : string) : M pyobj :=
  call_ext (CAstype (PRef self) dtype).

(** [r.astype(dtype)] on the result [r] of an elementwise call.  Wrapper
    instances carry the mixin's method; primitive tensors and plain Python
    values do not. *)
Definition method_astype (r : pyobj) (dtype : string) : M pyobj :=
  match r with
  | PRef l => astype l dtype
  | _ => raise (AttributeError "astype")
  end.

Definition _unary_elwise (mode : string) (self : loc) : M pyobj :=
  _elwise [PRef self] mode.

Definition _binary_elwise (mode : string) (rev : bool) (self : loc)
    (value : pyobj) : M pyobj :=
  if negb rev then _elwise [PRef self; value] mode
  else _elwise [value; PRef self] mode.

Definition _logical_unary_elwise (mode : string) (self : loc) : M pyobj :=
  d ← get_dtype (PRef self);
  if dtype_ne_bool d then
    raise (TypeError (mode +:+ " requires a bool tensor"))
  else _elwise [PRef self] mode.

(** [self.dtype != np.bool_ or value.dtype != np.bool_]: [value.dtype] is
    read only when the left disjunct is false. *)
Definition logical_guard (self : loc) (value : pyobj) : M bool :=
  d ← get_dtype (PRef self);
  if dtype_ne_bool d then mret true
  else d' ← get_dtype value; mret (dtype_ne_bool d').

Definition _logical_binary_elwise (mode : string) (rev : bool) (self : loc)
    (value : pyobj) : M pyobj :=
  if negb rev then
    bad ← logical_guard self value;
    match bad with
    | true => raise (TypeError (mode +:+ " requires 2 bool tensors"))
    | false => _elwise [PRef self; value] mode
    end
  else
    bad ← logical_guard self value;
    match bad with
    | true => raise (TypeError (mode +:+ " requires 2 bool tensors"))
    | false => _elwise [value; PRef self] mode
    end.

(** *** Construction and rebinding *)

(** Allocation of an instance, before [__init__] runs. *)
Definition new_object (cls : wclass) : M loc := fun s =>
  let l := length (heap s) in
  (inr l,
   {| heap := heap s ++ [{| w_class := cls; w_wrapped := None |}];
      trace := trace s ++ [EvNew l cls] |}).

(** [GenericTensorWrapper.__init__] *)
Definition GenericTensorWrapper__init__ (self : loc) (data : pyobj) : M unit :=
  set_wrapped self data.

(** [assert data is not None, "Cannot init a tensor with data as None"] *)
Definition assert_not_None (data : pyobj) : M unit :=
  match data with
  | PNone => raise (AssertionError (Some "Cannot init a tensor with data as None"))
  | _ => mret tt
  end.

(** [TensorWrapper.__init__] *)
Definition TensorWrapper__init__ (self : loc) (data dtype device : pyobj)
  : M unit :=
  data ← match data return M pyobj with
         | PRef l => get_wrapped l
         | PTensor _ => mret data
         | _ =>
             assert_not_None data;;
             raw ← call_ext (CAsRawTensor data dtype device);
             call_ext (CTensor raw)
         end;
  GenericTensorWrapper__init__ self data.

(** The expression [TensorWrapper(data, dtype=dtype, device=device)] *)
Definition TensorWrapper_new (data dtype device : pyobj) : M pyobj :=
  l ← new_object TensorWrapper;
  TensorWrapper__init__ l data dtype device;;
  mret (PRef l).

(** The expression [GenericTensorWrapper(data)] *)
Definition GenericTensorWrapper_new (data : pyobj) : M pyobj :=
  l ← new_object GenericTensorWrapper;
  GenericTensorWrapper__init__ l data;;
  mret (PRef l).

(** Python's name for the type of a value, as [TypeError(type(other))]
    shows it. *)
Definition type_name (v : pyobj) : string :=
  match v with
  | PNone => "NoneType"
  | PNotImplemented => "NotImplementedType"
  | PScalar (SBool _) => "bool"
  | PScalar (SInt _) => "int"
  | PScalar (SFloat _) => "float"
  | PComplex _ _ => "complex"
  | PDtype _ => "numpy.dtype"
  | PDevice _ => "CompNode"
  | PTuple _ => "tuple"
  | PArray _ => "numpy.ndarray"
  | PTensor _ => "Tensor"
  | PRef _ => "TensorWrapperBase"
  end.

(** [GenericTensorWrapper._reset] *)
Definition GenericTensorWrapper__reset (self : loc) (other : pyobj) : M pyobj :=
  match other with
  | PRef l =>
      w ← get_wrapped l;
      set_wrapped self w;;
      mret (PRef self)
  | _ => raise (TypeError (type_name other))
  end.

(** [TensorWrapper._reset].  The last branch calls [self._reset] again, on
    a freshly built wrapper; [fuel] bounds that recursion. *)
Fixpoint TensorWrapper__reset (fuel : nat) (self : loc) (other : pyobj)
  : M pyobj :=
  match other with
  | PRef l =>
      w ← get_wrapped l;
      set_wrapped self w;;
      mret PNone
  | PTensor _ =>
      set_wrapped self other;;
      mret PNone
  | _ =>
      match fuel with
      | O => raise RecursionError
      | S fuel' =>
          dt ← get_dtype (PRef self);
          dev ← get_device (PRef self);
          w ← TensorWrapper_new other (PDtype dt) (PDevice dev);
          TensorWrapper__reset fuel' self w;;
          mret PNone
      end
  end.

(** [self._reset(other)], dispatched on the class of [self]. *)
Definition _reset (self : loc) (other : pyobj) : M pyobj :=
  o ← obj_at self;
  match w_class o with
  | GenericTensorWrapper => GenericTensorWrapper__reset self other
  | TensorWrapper => TensorWrapper__reset 1 self other
  end.

(** [_inplace(f)], the method [g(self, value)] *)
Definition _inplace (f : loc -> pyobj -> M pyobj) (self : loc) (value : pyobj)
  : M pyobj :=
  result ← f self value;
  match result with
  | PNotImplemented => raise NotImplementedError
  | _ =>
      _reset self result;;
      mret (PRef self)
  end.

(** [_todo] *)
Definition _todo {A} : M A := raise NotImplementedError.

(** *** The method table of [ArrayMethodMixin] *)

Definition __lt__ (self : loc) (value : pyobj) : M pyobj :=
  r ← _elwise [PRef self; value] "LT"; method_astype r "bool".
Definition __le__ (self : loc) (value : pyobj) : M pyobj :=
  r ← _elwise [PRef self; value] "LEQ"; method_astype r "bool".
Definition __gt__ (self : loc) (value : pyobj) : M pyobj :=
  r ← _elwise [value; PRef self] "LT"; method_astype r "bool".
Definition __ge__ (self : loc) (value : pyobj) : M pyobj :=
  r ← _elwise [value; PRef self] "LEQ"; method_astype r "bool".
Definition __eq__ (self : loc) (value : pyobj) : M pyobj :=
  r ← _elwise [PRef self; value] "EQ"; method_astype r "bool".
Definition __ne__ (self : loc) (value : pyobj) : M pyobj :=
  r ← _elwise [PRef self; value] "EQ";
  b ← method_astype r "bool";
  _elwise [b] "NOT".

Definition __neg__ := _unary_elwise "NEGATE".
Definition __pos__ (self : loc) : M pyobj := mret (PRef self).
Definition __abs__ := _unary_elwise "ABS".
Definition __invert__ := _logical_unary_elwise "NOT".
Definition __round__ := _unary_elwise "ROUND".
Definition __trunc__ (self : loc) : M pyobj := _todo.
Definition __floor__ := _unary_elwise "FLOOR".
Definition __ceil__ := _unary_elwise "CEIL".

Definition __add__ := _binary_elwise "ADD" false.
Definition __sub__ := _binary_elwise "SUB" false.
Definition __mul__ := _binary_elwise "MUL" false.
Definition __matmul__ (self : loc) (other : pyobj) : M pyobj :=
  _matmul (PRef self) other.
Definition __truediv__ := _binary_elwise "TRUE_DIV" false.
Definition __floordiv__ := _binary_elwise "FLOOR_DIV" false.
Definition __mod__ := _binary_elwise "MOD" false.
Definition __pow__ := _binary_elwise "POW" false.
Definition __lshift__ := _binary_elwise "SHL" false.
Definition __rshift__ := _binary_elwise "SHR" false.
Definition __and__ := _logical_binary_elwise "AND" false.
Definition __or__ := _logical_binary_elwise "OR" false.
Definition __xor__ := _logical_binary_elwise "XOR" false.

Definition __radd__ := _binary_elwise "ADD" true.
Definition __rsub__ := _binary_elwise "SUB" true.
Definition __rmul__ := _binary_elwise "MUL" true.
Definition __rmatmul__ (self : loc) (other : pyobj) : M pyobj :=
  _matmul other (PRef self).
Definition __rtruediv__ := _binary_elwise "TRUE_DIV" true.
Definition __rfloordiv__ := _binary_elwise "FLOOR_DIV" true.
Definition __rmod__ := _binary_elwise "MOD" true.
Definition __rpow__ := _binary_elwise "POW" true.
Definition __rlshift__ := _binary_elwise "SHL" true.
Definition __rrshift__ := _binary_elwise "SHR" true.
Definition __rand__ := _logical_binary_elwise "AND" true.
Definition __ror__ := _logical_binary_elwise "OR" true.
Definition __rxor__ := _logical_binary_elwise "XOR" true.

Definition __iadd__ := _inplace __add__.
Definition __isub__ := _inplace __sub__.
Definition __imul__ := _inplace __mul__.
Definition __imatmul__ := _inplace __matmul__.
Definition __itruediv__ := _inplace __truediv__.
Definition __ifloordiv__ := _inplace __floordiv__.
Definition __imod__ := _inplace __mod__.
Definition __ipow__ := _inplace __pow__.
Definition __ilshift__ := _inplace __lshift__.
Definition __irshift__ := _inplace __rshift__.
Definition __iand__ := _inplace __and__.
Definition __ior__ := _inplace __or__.
Definition __ixor__ := _inplace __xor__.

(** The in-place operators, each paired with the operator it is built
    from. *)
Definition inplace_table
  : list ((loc -> pyobj -> M pyobj) * (loc -> pyobj -> M pyobj)) :=
  [ (__add__, __iadd__); (__sub__, __isub__); (__mul__, __imul__);
    (__matmul__, __imatmul__); (__truediv__, __itruediv__);
    (__floordiv__, __ifloordiv__); (__mod__, __imod__); (__pow__, __ipow__);
    (__lshift__, __ilshift__); (__rshift__, __irshift__);
    (__and__, __iand__); (__or__, __ior__); (__xor__, __ixor__) ].

(** The logical binary operators, reversed variants included. *)
Definition logical_binary_table : list (string * (loc -> pyobj -> M pyobj)) :=
  [ ("AND", __and__); ("OR", __or__); ("XOR", __xor__);
    ("AND", __rand__); ("OR", __ror__); ("XOR", __rxor__) ].

(** The reductions, each with the mode it passes to [builtin.Reduce]. *)
Definition reduce_table : list (string * (loc -> option Z -> M pyobj)) :=
  [ ("SUM", sum); ("PRODUCT", prod); ("MIN", min); ("MAX", max);
    ("MEAN", mean) ].

(** The numeric conversions, each with the native conversion it delegates
    to. *)
Definition conversion_table : list ((loc -> M pyobj) * (scalar -> exn + pyobj)) :=
  [ (__index__, fun v => map_ok (fun i => PScalar (SInt i)) (scalar_index v));
    (__bool__, fun v => inr (PScalar (SBool (scalar_bool v))));
    (__int__, fun v => map_ok (fun i => PScalar (SInt i)) (scalar_int v));
    (__float__, fun v => map_ok (fun f => PScalar (SFloat f)) (scalar_float v));
    (__complex__, fun v => map_ok (fun c => PComplex c.1 c.2) (scalar_complex v)) ].

(** *** Vocabulary of the statements *)

(** The wrapper at [self] is bound to the primitive tensor [t]. *)
Definition bound (s : state) (self : loc) (t : Tensor) : Prop :=
  exists o, heap s !! self = Some o /\ w_wrapped o = Some (PTensor t).

(** The engine's invariant on a primitive tensor: the buffer holds as many
    elements as the shape announces, and their number fits an int64. *)
Definition tensor_wf (t : Tensor) : Prop :=
  shape_product (a_shape (t_numpy t)) = Z.of_nat (length (a_data (t_numpy t)))
  /\ Z.of_nat (length (a_data (t_numpy t))) < 2 ^ 63.

(** The element type an operand carries, if it exposes one. *)
Definition dtype_of (s : state) (v : pyobj) : exn + string := (get_dtype v s).1.

(** The run [out] of a comparison from state [s], when it returns, has
    called [convert_inputs] on [args], applied [Elemwise mode] to what came
    back, passed the primitive's single result to [astype(., "bool")] and
    returned what that call returned. *)
Definition compared_then_cast (args : list pyobj) (mode : string) (s : state)
    (out : (exn + pyobj) * state) : Prop :=
  match out with
  | (inr v, s') =>
      exists args' h1 r h2,
        ext (CConvertInputs args) (heap s) = (inr (PTuple args'), h1)
        /\ ext (CApply (Elemwise mode) args') h1 = (inr (PTuple [r]), h2)
        /\ ext (CAstype r "bool") h2 = (inr v, heap s')
        /\ since s s' = [ EvCall (CConvertInputs args);
                          EvCall (CApply (Elemwise mode) args');
                          EvCall (CAstype r "bool") ]
  | (inl _, _) => True
  end.

(** The state after the collaborator call [c]. *)
Definition call_step (s : state) (c : call) : state :=
  {| heap := (ext c (heap s)).2; trace := trace s ++ [EvCall c] |}.

Definition replay (cs : list call) (s : state) : state := foldl call_step s cs.

(** From any state, [m] changes the state only by calling collaborators,
    and each of these calls satisfies [P]. *)
Definition emits {A} (P : call -> Prop) (m : M A) : Prop :=
  forall s, exists cs, (m s).2 = replay cs s /\ Forall P cs.

(** Every [apply] is given an operation descriptor in [ok]. *)
Definition applies (ok : OpDef -> Prop) (c : call) : Prop :=
  match c with
  | CApply op _ => ok op
  | _ => True
  end.

(** A shape sequence of Python ints. *)
Definition ints (shape : list Z) : pyobj :=
  PTuple (map (fun z => PScalar (SInt z)) shape).


(** Data that is neither a wrapper, nor a primitive tensor, nor [None]. *)
Definition raw_data (data : pyobj) : Prop :=
  match data with
  | PNone | PRef _ | PTensor _ => False
  | _ => True
  end.

(** An instance of [TensorWrapper] whose [__init__] has not run yet. *)
Definition blank : wobj := {| w_class := TensorWrapper; w_wrapped := None |}.

(** [r.sum()], [r.prod()], ... with no axis, on the result [r] of a method
    call: the method exists on wrapper instances. *)
Definition method_reduce (mode : string) (r : pyobj) : M pyobj :=
  match r with
  | PRef l => _reduce mode l None
  | _ => raise (AttributeError "reduction")
  end.

(** *** The rest of the mixin and of its tables *)

(** [ArrayMethodMixin.__getitem__] *)
Definition __getitem__ (self : loc) (index : pyobj) : M pyobj :=
  call_ext (CGetitem (PRef self) index).

(** The builtin [len(self)]: the result of [__len__] has to be an int
    that is not negative and fits an index. *)
Definition builtin_len (self : loc) : M nat :=
  r ← __len__ self;
  match r with
  | PScalar (SInt d) =>
      if d <? 0 then raise (ValueError "__len__() should return >= 0")
      else if 2 ^ 63 <=? d then
        raise (OverflowError "cannot fit 'int' into an index-sized integer")
      else mret (Z.to_nat d)
  | _ => raise (TypeError "object cannot be interpreted as an integer")
  end.

(** The values [self[i]], [self[i+1]], ... that the generator of
    [__iter__] yields for [n] more rounds. *)
Fixpoint yield_from (self : loc) (i n : nat) : M (list pyobj) :=
  match n with
  | O => mret []
  | S n' =>
      v ← __getitem__ self (PScalar (SInt (Z.of_nat i)));
      vs ← yield_from self (S i) n';
      mret (v :: vs)
  end.

(** [list(self)]: the generator of [ArrayMethodMixin.__iter__] run to its
    end, [for i in range(len(self)): yield self[i]]. *)
Definition list_of_iter (self : loc) : M (list pyobj) :=
  n ← builtin_len self;
  yield_from self 0 n.

(** The call [getitem(self, i)], as it shows in the trace. *)
Definition getitem_event (self : loc) (i : nat) : event :=
  EvCall (CGetitem (PRef self) (PScalar (SInt (Z.of_nat i)))).

(** [~r] on the result [r] of a method call. *)
Definition method_invert (r : pyobj) : M pyobj :=
  match r with
  | PRef l => __invert__ l
  | _ => raise (TypeError "bad operand type for unary ~")
  end.

(** The unary arithmetic operators, each with its elementwise mode. *)
Definition unary_table : list (string * (loc -> M pyobj)) :=
  [ ("NEGATE", __neg__); ("ABS", __abs__); ("ROUND", __round__);
    ("FLOOR", __floor__); ("CEIL", __ceil__) ].

(** The binary arithmetic operators, each with its elementwise mode and
    with whether it is the reversed variant. *)
Definition binary_table : list (string * bool * (loc -> pyobj -> M pyobj)) :=
  [ ("ADD", false, __add__); ("SUB", false, __sub__); ("MUL", false, __mul__);
    ("TRUE_DIV", false, __truediv__); ("FLOOR_DIV", false, __floordiv__);
    ("MOD", false, __mod__); ("POW", false, __pow__);
    ("SHL", false, __lshift__); ("SHR", false, __rshift__);
    ("ADD", true, __radd__); ("SUB", true, __rsub__); ("MUL", true, __rmul__);
    ("TRUE_DIV", true, __rtruediv__); ("FLOOR_DIV", true, __rfloordiv__);
    ("MOD", true, __rmod__); ("POW", true, __rpow__);
    ("SHL", true, __rlshift__); ("SHR", true, __rrshift__) ].

(** The logical binary operators, as [binary_table]. *)
Definition logical_rev_table : list (string * bool * (loc -> pyobj -> M pyobj)) :=
  [ ("AND", false, __and__); ("OR", false, __or__); ("XOR", false, __xor__);
    ("AND", true, __rand__); ("OR", true, __ror__); ("XOR", true, __rxor__) ].

(** The in-place logical operators, each with its elementwise mode. *)
Definition inplace_logical_table : list (string * (loc -> pyobj -> M pyobj)) :=
  [ ("AND", __iand__); ("OR", __ior__); ("XOR", __ixor__) ].

(** The operands of an elementwise call, in the order the operator passes
    them. *)
Definition operands (rev : bool) (self : loc) (value : pyobj) : list pyobj :=
  if rev then [value; PRef self] else [PRef self; value].

(** The comparisons that end in [astype("bool")], each with the mode it
    passes to [builtin.Elemwise] and with whether it hands [value] to
    [_elwise] before [self]. *)
Definition comparison_table : list (string * bool * (loc -> pyobj -> M pyobj)) :=
  [ ("LT", false, __lt__); ("LEQ", false, __le__);
    ("LT", true, __gt__); ("LEQ", true, __ge__);
    ("EQ", false, __eq__) ].

(** The events of a comparison that returns: [convert_inputs], [apply],
    [astype]. *)
Definition comparison_events (args args' : list pyobj) (mode : string) (r : loc)
  : list event :=
  [ EvCall (CConvertInputs args);
    EvCall (CApply (Elemwise mode) args');
    EvCall (CAstype (PRef r) "bool") ].

(** A collaborator answers by contents: on operands that hold the same
    contents, in whatever heaps, it returns single results that hold the
    same contents. *)
Definition by_contents (f : pyobj -> call) : Prop :=
  forall h v h' v' r k,
    contents h v = contents h' v' -> contents h v <> None ->
    ext (f v) h = (inr (PTuple [r]), k) ->
    exists r' k',
      ext (f v') h' = (inr (PTuple [r']), k')
      /\ contents k' r' = contents k r
      /\ contents k r <> None.

(** * Properties *)

(** ** Running the monad *)

Lemma bind_run {A B} (m : M A) (k : A -> M B) (s : state) :
  (m ≫= k) s =
  match m s with
  | (inr a, s') => k a s'
  | (inl e, s') => (inl e, s')
  end.
Proof. reflexivity. Qed.

Lemma bind_ok {A B} (m : M A) (k : A -> M B) (s s' : state) (a : A) :
  m s = (inr a, s') -> (m ≫= k) s = k a s'.
Proof. intros H. rewrite bind_run, H. reflexivity. Qed.

Lemma bind_err {A B} (m : M A) (k : A -> M B) (s s' : state) (e : exn) :
  m s = (inl e, s') -> (m ≫= k) s = (inl e, s').
Proof. intros H. rewrite bind_run, H. reflexivity. Qed.

Lemma since_app (s : state) (h : list wobj) (evs : list event) :
  since s {| heap := h; trace := trace s ++ evs |} = evs.
Proof. unfold since. simpl. apply drop_app_length. Qed.

Lemma since_refl (s : state) : since s s = [].
Proof. unfold since. apply drop_all. Qed.

Lemma fwd_target_tensor (fuel : nat) (h : list wobj) (name : string) (t : Tensor) :
  fwd_target fuel h name (PTensor t) = inr (inl t).
Proof. destruct fuel; reflexivity. Qed.

Lemma target_bound (s : state) (self : loc) (t : Tensor) (name : string) :
  bound s self t -> target name (PRef self) s = (inr (inl t), s).
Proof.
  intros (o & Ho & Hw). unfold target. simpl.
  rewrite Ho, Hw, fwd_target_tensor. reflexivity.
Qed.

Lemma target_state (name : string) (v : pyobj) (s : state) :
  (target name v s).2 = s.
Proof. reflexivity. Qed.

Lemma get_shape_bound (s : state) (self : loc) (t : Tensor) :
  bound s self t -> get_shape (PRef self) s = (inr (a_shape (t_numpy t)), s).
Proof.
  intros H. unfold get_shape. erewrite bind_ok by (apply target_bound; eassumption).
  reflexivity.
Qed.

Lemma get_dtype_bound (s : state) (self : loc) (t : Tensor) :
  bound s self t -> get_dtype (PRef self) s = (inr (a_dtype (t_numpy t)), s).
Proof.
  intros H. unfold get_dtype. erewrite bind_ok by (apply target_bound; eassumption).
  reflexivity.
Qed.

Lemma get_device_bound (s : state) (self : loc) (t : Tensor) :
  bound s self t -> get_device (PRef self) s = (inr (t_device t), s).
Proof.
  intros H. unfold get_device. erewrite bind_ok by (apply target_bound; eassumption).
  reflexivity.
Qed.

Lemma numpy_bound (s : state) (self : loc) (t : Tensor) :
  bound s self t -> numpy (PRef self) s = (inr (t_numpy t), s).
Proof.
  intros H. unfold numpy. erewrite bind_ok by (apply target_bound; eassumption).
  reflexivity.
Qed.

Lemma get_dtype_state (v : pyobj) (s : state) : (get_dtype v s).2 = s.
Proof.
  unfold get_dtype. rewrite bind_run. unfold target.
  destruct (fwd_target _ _ _ _) as [e | [t | a]]; reflexivity.
Qed.

(** ** C9: unary plus *)

(** C9.  [+x] returns the wrapper it was called on, the very same
    reference; the heap and the trace are left as they were, so no
    collaborator and in particular no primitive operation is invoked. *)
Theorem pos_returns_self (self : loc) (s : state) :
  __pos__ self s = (inr (PRef self), s)
  /\ calls_of (since s (__pos__ self s).2) = [].
Proof.
  split; [reflexivity |]. simpl. rewrite since_refl. reflexivity.
Qed.

(** ** C7: [len] *)

(** C7.  For a wrapper bound to a tensor, [__len__] returns the extent of
    the first dimension when the shape is not empty, and raises
    [TypeError("ndim is 0")] exactly when the shape is empty. *)
Theorem len_first_extent (self : loc) (s : state) (t : Tensor) :
  bound s self t ->
  (forall d rest, a_shape (t_numpy t) = d :: rest ->
     __len__ self s = (inr (PScalar (SInt d)), s))
  /\ (a_shape (t_numpy t) = [] <->
      __len__ self s = (inl (TypeError "ndim is 0"), s)).
Proof.
  intros Hb. unfold __len__.
  rewrite (bind_ok _ _ _ _ _ (get_shape_bound _ _ _ Hb)).
  split.
  - intros d rest ->. reflexivity.
  - destruct (a_shape (t_numpy t)) as [| d rest]; split; intros H;
      try reflexivity; discriminate.
Qed.

(** ** C6: numeric conversions *)

Lemma wrap_int64_small (z : Z) : 0 <= z < 2 ^ 63 -> wrap_int64 z = z.
Proof. intros H. unfold wrap_int64. rewrite Z.mod_small; lia. Qed.

Lemma size_is_one (t : Tensor) :
  tensor_wf t ->
  scalar_eq_one (np_prod_item (a_shape (t_numpy t))) = true
  <-> length (a_data (t_numpy t)) = 1%nat.
Proof.
  intros [Hp Hlt]. unfold np_prod_item.
  destruct (a_shape (t_numpy t)) as [| d rest] eqn:Hs.
  - simpl in Hp. split; [intros _; lia | intros _; vm_compute; reflexivity].
  - rewrite wrap_int64_small by lia. cbn [scalar_eq_one].
    rewrite Z.eqb_eq. split; intros; lia.
Qed.

Lemma item_bound (self : loc) (s : state) (t : Tensor) :
  bound s self t ->
  item self [] s =
  if scalar_eq_one (np_prod_item (a_shape (t_numpy t)))
  then (ndarray_item (t_numpy t), s)
  else (inl (AssertionError None), s).
Proof.
  intros Hb. unfold item, item_noargs, size.
  rewrite bind_run, bind_run, (get_shape_bound _ _ _ Hb). simpl.
  destruct (scalar_eq_one _); [| reflexivity].
  rewrite bind_run, (numpy_bound _ _ _ Hb). reflexivity.
Qed.

Lemma item_not_scalar (self : loc) (s : state) (t : Tensor) :
  bound s self t -> tensor_wf t -> length (a_data (t_numpy t)) <> 1%nat ->
  item self [] s = (inl (AssertionError None), s).
Proof.
  intros Hb Hwf Hn. rewrite (item_bound _ _ _ Hb).
  destruct (scalar_eq_one _) eqn:E; [| reflexivity].
  apply (size_is_one _ Hwf) in E. contradiction.
Qed.

Lemma item_scalar (self : loc) (s : state) (t : Tensor) (v : scalar) :
  bound s self t -> tensor_wf t -> a_data (t_numpy t) = [v] ->
  item self [] s = (inr v, s).
Proof.
  intros Hb Hwf Hd. rewrite (item_bound _ _ _ Hb).
  destruct (scalar_eq_one _) eqn:E.
  - unfold ndarray_item. rewrite Hd. reflexivity.
  - assert (scalar_eq_one (np_prod_item (a_shape (t_numpy t))) = true) as E'.
    { apply (size_is_one _ Hwf). rewrite Hd. reflexivity. }
    congruence.
Qed.

(** C6 (amended).  For a wrapper bound to a well-formed tensor and each of
    [__index__], [__bool__], [__int__], [__float__], [__complex__]: the
    conversion raises the bare [AssertionError] of [item] whenever the
    tensor does not hold exactly one element, so it can succeed only on a
    one-element tensor; on a tensor holding the single element [v] it
    returns exactly what the native conversion of [v] returns, an error
    included; the state is untouched either way. *)
Theorem conversion_delegates (conv : loc -> M pyobj)
    (native : scalar -> exn + pyobj) (self : loc) (s : state) (t : Tensor) :
  In (conv, native) conversion_table ->
  bound s self t -> tensor_wf t ->
  (length (a_data (t_numpy t)) <> 1%nat ->
     conv self s = (inl (AssertionError None), s))
  /\ (forall v, a_data (t_numpy t) = [v] -> conv self s = (native v, s))
  /\ (forall r s', conv self s = (inr r, s') ->
        length (a_data (t_numpy t)) = 1%nat).
Proof.
  intros Hin Hb Hwf.
  assert (Hfail : length (a_data (t_numpy t)) <> 1%nat ->
                  conv self s = (inl (AssertionError None), s)).
  { intros Hn. pose proof (item_not_scalar _ _ _ Hb Hwf Hn) as Hi.
    simpl in Hin.
    repeat (destruct Hin as [Hin | Hin];
            [inversion Hin; subst; apply (bind_err _ _ _ _ _ Hi) |]).
    contradiction. }
  split; [exact Hfail |]. split.
  - intros v Hd. pose proof (item_scalar _ _ _ _ Hb Hwf Hd) as Hi.
    simpl in Hin.
    repeat (destruct Hin as [Hin | Hin];
            [inversion Hin; subst; clear Hin;
             cbv delta [__index__ __bool__ __int__ __float__ __complex__];
             cbv beta;
             rewrite (bind_ok _ _ _ _ _ Hi); try reflexivity;
             rewrite bind_run; unfold lift, map_ok;
             match goal with |- context [match ?x with _ => _ end] =>
               destruct x; reflexivity end |]).
    contradiction.
  - intros r s' Hrun.
    destruct (decide (length (a_data (t_numpy t)) = 1%nat)) as [| Hn]; [assumption |].
    rewrite (Hfail Hn) in Hrun. discriminate.
Qed.

(** ** The dtype guard of the logical operators *)

Lemma get_dtype_run (v : pyobj) (s : state) :
  get_dtype v s = (dtype_of s v, s).
Proof.
  unfold dtype_of. rewrite <- (get_dtype_state v s) at 3.
  destruct (get_dtype v s); reflexivity.
Qed.

Lemma dtype_ne_bool_true (d : string) : dtype_ne_bool d = true <-> d <> np_bool_.
Proof.
  unfold dtype_ne_bool. rewrite negb_true_iff. apply String.eqb_neq.
Qed.

Lemma dtype_ne_bool_false (d : string) : dtype_ne_bool d = false <-> d = np_bool_.
Proof.
  unfold dtype_ne_bool. rewrite negb_false_iff. apply String.eqb_eq.
Qed.

Lemma logical_guard_run (self : loc) (value : pyobj) (s : state) :
  logical_guard self value s =
  match dtype_of s (PRef self) with
  | inl e => (inl e, s)
  | inr d =>
      if dtype_ne_bool d then (inr true, s)
      else match dtype_of s value with
           | inl e => (inl e, s)
           | inr d' => (inr (dtype_ne_bool d'), s)
           end
  end.
Proof.
  unfold logical_guard. rewrite bind_run, get_dtype_run.
  destruct (dtype_of s (PRef self)) as [e | d]; [reflexivity |].
  destruct (dtype_ne_bool d); [reflexivity |].
  rewrite bind_run, get_dtype_run.
  destruct (dtype_of s value); reflexivity.
Qed.

Lemma logical_binary_run (mode : string) (rev : bool) (self : loc)
    (value : pyobj) (s : state) :
  _logical_binary_elwise mode rev self value s =
  match logical_guard self value s with
  | (inl e, s') => (inl e, s')
  | (inr true, s') => (inl (TypeError (mode +:+ " requires 2 bool tensors")), s')
  | (inr false, s') =>
      (if rev then _elwise [value; PRef self] mode
       else _elwise [PRef self; value] mode) s'
  end.
Proof.
  unfold _logical_binary_elwise.
  destruct rev; simpl; rewrite bind_run;
    destruct (logical_guard self value s) as [[e | []] s']; reflexivity.
Qed.

Lemma logical_table_shape (mode : string) (op : loc -> pyobj -> M pyobj) :
  In (mode, op) logical_binary_table ->
  exists rev, op = _logical_binary_elwise mode rev.
Proof.
  simpl. intros H.
  repeat (destruct H as [H | H];
          [inversion H; subst; first [by exists false | by exists true] |]).
  contradiction.
Qed.

(** X24.  The guard of the logical operators, on operands that expose a
    dtype.  Whenever the two operands of [and], [or], [xor] or of a
    reversed variant do not both carry the dtype [bool], the operator
    raises with the heap and the trace untouched: no collaborator is
    called, nothing is coerced.  The exception is the guard's [TypeError]
    when the receiver is not boolean, and when both operands expose a
    dtype.  Unary invert on a receiver whose dtype is not [bool] raises
    the guard's [TypeError], again with no collaborator called. *)
Theorem logical_ops_reject_non_bool (self : loc) (s : state) :
  (forall mode op value,
     In (mode, op) logical_binary_table ->
     dtype_of s (PRef self) <> inr np_bool_ \/ dtype_of s value <> inr np_bool_ ->
     (exists e, op self value s = (inl e, s))
     /\ (forall d, dtype_of s (PRef self) = inr d -> d <> np_bool_ ->
           op self value s =
           (inl (TypeError (mode +:+ " requires 2 bool tensors")), s))
     /\ (forall d d', dtype_of s (PRef self) = inr d -> dtype_of s value = inr d' ->
           op self value s =
           (inl (TypeError (mode +:+ " requires 2 bool tensors")), s)))
  /\ (forall d, dtype_of s (PRef self) = inr d -> d <> np_bool_ ->
        __invert__ self s = (inl (TypeError "NOT requires a bool tensor"), s)).
Proof.
  split.
  - intros mode op value Hin Hnb.
    destruct (logical_table_shape _ _ Hin) as [rev ->].
    rewrite logical_binary_run, logical_guard_run.
    destruct (dtype_of s (PRef self)) as [e | d] eqn:Hd.
    { split; [eauto |]. repeat split; intros; discriminate. }
    destruct (dtype_ne_bool d) eqn:Hne.
    { apply dtype_ne_bool_true in Hne.
      split; [eauto |]. repeat split; intros; simplify_eq; done. }
    apply dtype_ne_bool_false in Hne. subst d.
    destruct (dtype_of s value) as [e | d'] eqn:Hd'.
    { split; [eauto |]. repeat split; intros; simplify_eq; done. }
    destruct (dtype_ne_bool d') eqn:Hne'.
    { split; [eauto |]. repeat split; intros; simplify_eq; done. }
    apply dtype_ne_bool_false in Hne'. subst d'.
    destruct Hnb as [Hnb | Hnb]; contradiction.
  - intros d Hd Hne. unfold __invert__, _logical_unary_elwise.
    rewrite bind_run, get_dtype_run, Hd.
    apply dtype_ne_bool_true in Hne. rewrite Hne. reflexivity.
Qed.

(** ** Runs that only call collaborators *)

Lemma since_eq (s s' : state) (evs : list event) :
  trace s' = trace s ++ evs -> since s s' = evs.
Proof. intros H. unfold since. rewrite H. apply drop_app_length. Qed.

Lemma call_ext_state (c : call) (s : state) : (call_ext c s).2 = call_step s c.
Proof.
  unfold call_ext, call_step.
  destruct (ext c (heap s)) as [[info | v] h']; reflexivity.
Qed.

Lemma replay_app (cs cs' : list call) (s : state) :
  replay (cs ++ cs') s = replay cs' (replay cs s).
Proof. apply foldl_app. Qed.

Lemma replay_trace (cs : list call) (s : state) :
  trace (replay cs s) = trace s ++ map EvCall cs.
Proof.
  revert s. induction cs as [| c cs IH]; intros s; simpl.
  - by rewrite app_nil_r.
  - rewrite IH. simpl. by rewrite <- app_assoc.
Qed.

(** Collaborators that leave the slot of [l] alone leave it alone over a
    whole replay. *)
Lemma replay_frame (l : loc) (cs : list call) (s : state) :
  (forall c h, (ext c h).2 !! l = h !! l) ->
  heap (replay cs s) !! l = heap s !! l.
Proof.
  intros Hf. revert s. induction cs as [| c cs IH]; intros s; simpl.
  - reflexivity.
  - rewrite IH. simpl. apply Hf.
Qed.

Lemma emits_quiet {A} (P : call -> Prop) (m : M A) :
  (forall s, (m s).2 = s) -> emits P m.
Proof. intros H s. exists []. rewrite H. split; [reflexivity | constructor]. Qed.

Lemma emits_ret {A} (P : call -> Prop) (a : A) : emits P (mret a).
Proof. apply emits_quiet. reflexivity. Qed.

Lemma emits_raise {A} (P : call -> Prop) (e : exn) : emits P (@raise A e).
Proof. apply emits_quiet. reflexivity. Qed.

Lemma emits_lift {A} (P : call -> Prop) (r : exn + A) : emits P (lift r).
Proof. apply emits_quiet. reflexivity. Qed.

Lemma emits_bind {A B} (P : call -> Prop) (m : M A) (k : A -> M B) :
  emits P m -> (forall a, emits P (k a)) -> emits P (m ≫= k).
Proof.
  intros Hm Hk s. rewrite bind_run.
  destruct (Hm s) as (cs & Ht & Hf).
  destruct (m s) as [[e | a] s1]; simpl in Ht.
  - exists cs. auto.
  - destruct (Hk a s1) as (cs' & Ht' & Hf').
    exists (cs ++ cs'). rewrite replay_app, <- Ht, Ht'.
    split; [reflexivity | by apply Forall_app].
Qed.

Lemma emits_call (P : call -> Prop) (c : call) : P c -> emits P (call_ext c).
Proof.
  intros Hc s. exists [c]. rewrite call_ext_state.
  split; [reflexivity | by constructor].
Qed.

Lemma emits_target (P : call -> Prop) (name : string) (v : pyobj) :
  emits P (target name v).
Proof. apply emits_quiet. reflexivity. Qed.

Lemma emits_get_dtype (P : call -> Prop) (v : pyobj) : emits P (get_dtype v).
Proof. apply emits_quiet. apply get_dtype_state. Qed.

Lemma emits_get_device (P : call -> Prop) (v : pyobj) : emits P (get_device v).
Proof.
  apply emits_bind; [apply emits_target |].
  intros [t | a]; [apply emits_ret | apply emits_raise].
Qed.

Lemma emits_as_seq (P : call -> Prop) (v : pyobj) : emits P (as_seq v).
Proof. apply emits_quiet. intros s. destruct v; reflexivity. Qed.

Lemma emits_unpack1 (P : call -> Prop) (v : pyobj) : emits P (unpack1 v).
Proof.
  apply emits_quiet. intros s.
  destruct v as [| | | | | | [| x [| y xs]] | | |]; reflexivity.
Qed.

Lemma emits_unpack2 (P : call -> Prop) (v : pyobj) : emits P (unpack2 v).
Proof.
  apply emits_quiet. intros s.
  destruct v as [| | | | | | [| x [| y [| z xs]]] | | |]; reflexivity.
Qed.

Lemma emits_elwise (ok : OpDef -> Prop) (args : list pyobj) (mode : string) :
  ok (Elemwise mode) -> emits (applies ok) (_elwise args mode).
Proof.
  intros Hok. unfold _elwise.
  apply emits_bind; [by apply emits_call |]. intros r.
  apply emits_bind; [apply emits_as_seq |]. intros args'.
  apply emits_bind; [by apply emits_call |]. intros r'.
  apply emits_unpack1.
Qed.

Lemma emits_matmul (ok : OpDef -> Prop) (inp1 inp2 : pyobj) :
  ok (MatrixMul false false "DEFAULT" "DEFAULT") ->
  emits (applies ok) (_matmul inp1 inp2).
Proof.
  intros Hok. unfold _matmul.
  apply emits_bind; [by apply emits_call |]. intros r.
  apply emits_bind; [apply emits_unpack2 |]. intros [a b].
  apply emits_bind; [by apply emits_call |]. intros r'.
  apply emits_unpack1.
Qed.

Lemma emits_method_astype (ok : OpDef -> Prop) (r : pyobj) (dtype : string) :
  emits (applies ok) (method_astype r dtype).
Proof.
  destruct r; try apply emits_raise. by apply emits_call.
Qed.

Lemma emits_logical_binary (ok : OpDef -> Prop) (mode : string) (rev : bool)
    (self : loc) (value : pyobj) :
  ok (Elemwise mode) ->
  emits (applies ok) (_logical_binary_elwise mode rev self value).
Proof.
  intros Hok. unfold _logical_binary_elwise, logical_guard.
  destruct rev; simpl;
    (apply emits_bind;
     [ apply emits_bind; [apply emits_get_dtype |]; intros d;
       destruct (dtype_ne_bool d); [apply emits_ret |];
       apply emits_bind; [apply emits_get_dtype |]; intros d'; apply emits_ret
     | intros []; [apply emits_raise | by apply emits_elwise] ]).
Qed.

Lemma applied_calls (ok : OpDef -> Prop) (cs : list call) :
  Forall (applies ok) cs -> Forall ok (applied (map EvCall cs)).
Proof.
  induction 1 as [| c cs Hc Hcs IH]; simpl; [constructor |].
  destruct c; simpl; try exact IH. by constructor.
Qed.

Lemma stores_of_calls (cs : list call) : stores_of (map EvCall cs) = [].
Proof. induction cs as [| c cs IH]; [reflexivity | exact IH]. Qed.

(** What [emits] says about one run: the operations applied, no store, no
    allocation, and no slot touched unless a collaborator touches it. *)
Lemma emits_run {A} (ok : OpDef -> Prop) (m : M A) (s : state) :
  emits (applies ok) m ->
  Forall ok (applied (since s (m s).2))
  /\ stores_of (since s (m s).2) = []
  /\ (forall l, (forall c h, (ext c h).2 !! l = h !! l) ->
                heap (m s).2 !! l = heap s !! l).
Proof.
  intros H. destruct (H s) as (cs & Ht & Hf). rewrite Ht.
  rewrite (since_eq _ _ _ (replay_trace cs s)).
  split; [by apply applied_calls |]. split; [apply stores_of_calls |].
  intros l Hl. by apply replay_frame.
Qed.

(** ** Successful runs, step by step *)

Lemma bind_assoc_run {A B C} (m : M A) (k : A -> M B) (k' : B -> M C) (s : state) :
  ((m ≫= k) ≫= k') s = (m ≫= fun a => k a ≫= k') s.
Proof.
  rewrite !bind_run. destruct (m s) as [[e | a] s1]; [reflexivity |].
  rewrite bind_run. reflexivity.
Qed.

Lemma bind_inv_ok {A B} (m : M A) (k : A -> M B) (s s' : state) (b : B) :
  (m ≫= k) s = (inr b, s') ->
  exists a s1, m s = (inr a, s1) /\ k a s1 = (inr b, s').
Proof.
  rewrite bind_run. destruct (m s) as [[e | a] s1]; [discriminate |]. eauto.
Qed.

Lemma call_ext_ok (c : call) (s s' : state) (v : pyobj) :
  call_ext c s = (inr v, s') ->
  ext c (heap s) = (inr v, heap s') /\ trace s' = trace s ++ [EvCall c].
Proof.
  unfold call_ext. destruct (ext c (heap s)) as [[info | v'] h'];
    intros H; inversion H; subst; auto.
Qed.

Lemma call_ext_run (c : call) (s : state) (v : pyobj) (h' : list wobj) :
  ext c (heap s) = (inr v, h') ->
  call_ext c s = (inr v, {| heap := h'; trace := trace s ++ [EvCall c] |}).
Proof. intros H. unfold call_ext. rewrite H. reflexivity. Qed.

Lemma call_ext_err (c : call) (s : state) (info : string) (h' : list wobj) :
  ext c (heap s) = (inl info, h') ->
  call_ext c s =
  (inl (CollaboratorError info), {| heap := h'; trace := trace s ++ [EvCall c] |}).
Proof. intros H. unfold call_ext. rewrite H. reflexivity. Qed.

Lemma as_seq_ok (v : pyobj) (s s' : state) (xs : list pyobj) :
  as_seq v s = (inr xs, s') -> v = PTuple xs /\ s' = s.
Proof. destruct v; intros H; inversion H; subst; auto. Qed.

Lemma unpack1_ok (v : pyobj) (s s' : state) (x : pyobj) :
  unpack1 v s = (inr x, s') -> v = PTuple [x] /\ s' = s.
Proof.
  destruct v as [| | | | | | [| y [| z xs]] | | |];
    intros H; inversion H; subst; auto.
Qed.

Lemma elwise_ok (args : list pyobj) (mode : string) (s s' : state) (r : pyobj) :
  _elwise args mode s = (inr r, s') ->
  exists args' h1,
    ext (CConvertInputs args) (heap s) = (inr (PTuple args'), h1)
    /\ ext (CApply (Elemwise mode) args') h1 = (inr (PTuple [r]), heap s')
    /\ trace s' = trace s ++ [EvCall (CConvertInputs args);
                              EvCall (CApply (Elemwise mode) args')].
Proof.
  unfold _elwise. intros H.
  apply bind_inv_ok in H as (r1 & s1 & H1 & H).
  apply bind_inv_ok in H as (args' & s2 & H2 & H).
  apply bind_inv_ok in H as (r3 & s3 & H3 & H).
  apply call_ext_ok in H1 as [E1 T1]. apply as_seq_ok in H2 as [-> ->].
  apply call_ext_ok in H3 as [E3 T3]. apply unpack1_ok in H as [-> ->].
  exists args', (heap s1). rewrite T3, T1, <- app_assoc. auto.
Qed.

Lemma method_astype_ok (r : pyobj) (dtype : string) (s s' : state) (v : pyobj) :
  method_astype r dtype s = (inr v, s') ->
  ext (CAstype r dtype) (heap s) = (inr v, heap s')
  /\ trace s' = trace s ++ [EvCall (CAstype r dtype)].
Proof.
  destruct r; try discriminate. apply call_ext_ok.
Qed.

(** ** Runs whose collaborators answer *)

Lemma elwise_run (args args' : list pyobj) (mode : string) (s : state)
    (h1 h2 : list wobj) (r : pyobj) :
  ext (CConvertInputs args) (heap s) = (inr (PTuple args'), h1) ->
  ext (CApply (Elemwise mode) args') h1 = (inr (PTuple [r]), h2) ->
  _elwise args mode s =
  (inr r, {| heap := h2;
             trace := trace s ++ [ EvCall (CConvertInputs args);
                                   EvCall (CApply (Elemwise mode) args') ] |}).
Proof.
  intros E1 E2. unfold _elwise.
  rewrite bind_run, (call_ext_run _ _ _ _ E1), bind_run. simpl.
  rewrite bind_run.
  rewrite (call_ext_run _ {| heap := h1; trace := _ |} _ _ E2). cbn [trace].
  rewrite <- app_assoc. reflexivity.
Qed.

Lemma method_astype_inv (x : pyobj) (dtype : string) (s s' : state) (v : pyobj) :
  method_astype x dtype s = (inr v, s') ->
  exists r, x = PRef r
            /\ ext (CAstype (PRef r) dtype) (heap s) = (inr v, heap s')
            /\ trace s' = trace s ++ [EvCall (CAstype (PRef r) dtype)].
Proof.
  destruct x; try discriminate. intros H.
  apply call_ext_ok in H as [E T]. eauto.
Qed.

(** The shape every comparison has: [_elwise] on the operands, then
    [astype("bool")] on its result. *)
Lemma compare_run (args args' : list pyobj) (mode : string) (s : state)
    (h1 h2 h3 : list wobj) (r : loc) (v : pyobj) :
  ext (CConvertInputs args) (heap s) = (inr (PTuple args'), h1) ->
  ext (CApply (Elemwise mode) args') h1 = (inr (PTuple [PRef r]), h2) ->
  ext (CAstype (PRef r) "bool") h2 = (inr v, h3) ->
  (x ← _elwise args mode; method_astype x "bool") s =
  (inr v, {| heap := h3; trace := trace s ++ comparison_events args args' mode r |}).
Proof.
  intros E1 E2 E3.
  rewrite (bind_ok _ _ _ _ _ (elwise_run _ _ _ _ _ _ _ E1 E2)).
  simpl. unfold astype.
  rewrite (call_ext_run _ {| heap := h2; trace := _ |} _ _ E3). cbn [trace].
  rewrite <- app_assoc. reflexivity.
Qed.

(** ** C2: not-equal *)

(** C2.  [a != b] is computed as the elementwise [NOT] of the boolean
    result of the elementwise [EQ].  When the collaborators answer
    ([convert_inputs] on the two operands, [apply(Elemwise EQ)] with a
    wrapper [r], [astype(r, "bool")] with [b], [convert_inputs] on [b],
    [apply(Elemwise NOT)] with [v]), then [a == b] returns [b] and
    [a != b] returns [v], the output of [NOT] on the very [b] that [==]
    returns, after these five calls in this order.  Conversely a run of
    [!=] that returns has made exactly these calls, each fed with the
    answer of the one before.  In every case [a != b] runs as [a == b]
    followed by [_elwise(., mode=NOT)] on its result, and the only
    primitives applied are [Elemwise EQ] and [Elemwise NOT]: there is no
    dedicated not-equal primitive. *)
Theorem ne_is_not_of_eq (self : loc) (value : pyobj) (s : state) :
  (forall args h1 r h2 b h3 args' h4 v h5,
     ext (CConvertInputs [PRef self; value]) (heap s) = (inr (PTuple args), h1) ->
     ext (CApply (Elemwise "EQ") args) h1 = (inr (PTuple [PRef r]), h2) ->
     ext (CAstype (PRef r) "bool") h2 = (inr b, h3) ->
     ext (CConvertInputs [b]) h3 = (inr (PTuple args'), h4) ->
     ext (CApply (Elemwise "NOT") args') h4 = (inr (PTuple [v]), h5) ->
     __eq__ self value s =
     (inr b, {| heap := h3;
                trace := trace s ++ comparison_events [PRef self; value] args "EQ" r |})
     /\ __ne__ self value s =
        (inr v, {| heap := h5;
                   trace := trace s
                            ++ comparison_events [PRef self; value] args "EQ" r
                            ++ [ EvCall (CConvertInputs [b]);
                                 EvCall (CApply (Elemwise "NOT") args') ] |}))
  /\ (forall v s',
        __ne__ self value s = (inr v, s') ->
        exists args h1 r h2 b h3 args' h4,
          ext (CConvertInputs [PRef self; value]) (heap s) = (inr (PTuple args), h1)
          /\ ext (CApply (Elemwise "EQ") args) h1 = (inr (PTuple [PRef r]), h2)
          /\ ext (CAstype (PRef r) "bool") h2 = (inr b, h3)
          /\ ext (CConvertInputs [b]) h3 = (inr (PTuple args'), h4)
          /\ ext (CApply (Elemwise "NOT") args') h4 = (inr (PTuple [v]), heap s')
          /\ since s s' =
             comparison_events [PRef self; value] args "EQ" r
             ++ [ EvCall (CConvertInputs [b]);
                  EvCall (CApply (Elemwise "NOT") args') ])
  /\ __ne__ self value s = (e ← __eq__ self value; _elwise [e] "NOT") s
  /\ Forall (fun op => op = Elemwise "EQ" \/ op = Elemwise "NOT")
            (applied (since s (__ne__ self value s).2)).
Proof.
  assert (Hbind : __ne__ self value s = (e ← __eq__ self value; _elwise [e] "NOT") s).
  { unfold __ne__, __eq__. rewrite bind_assoc_run. reflexivity. }
  split; [| split; [| split; [exact Hbind |]]].
  - intros args h1 r h2 b h3 args' h4 v h5 E1 E2 E3 E4 E5.
    assert (Heq : __eq__ self value s =
                  (inr b, {| heap := h3;
                             trace := trace s
                                      ++ comparison_events [PRef self; value] args "EQ" r |}))
      by exact (compare_run _ _ _ _ _ _ _ _ _ E1 E2 E3).
    split; [exact Heq |].
    rewrite Hbind, (bind_ok _ _ _ _ _ Heq).
    rewrite (elwise_run [b] args' "NOT" {| heap := h3; trace := _ |} h4 h5 v E4 E5).
    cbn [trace]. rewrite <- app_assoc. reflexivity.
  - intros v s' H. unfold __ne__ in H.
    apply bind_inv_ok in H as (e & s1 & H1 & H).
    apply bind_inv_ok in H as (b & s2 & H2 & H).
    apply elwise_ok in H1 as (args & h1 & E1 & E2 & T1).
    apply method_astype_inv in H2 as (r & -> & E3 & T2).
    apply elwise_ok in H as (args' & h4 & E4 & E5 & T3).
    exists args, h1, r, (heap s1), b, (heap s2), args', h4.
    do 5 (split; [assumption |]).
    apply since_eq. rewrite T3, T2, T1, <- !app_assoc. reflexivity.
  - apply emits_run. unfold __ne__.
    apply emits_bind; [apply emits_elwise; auto |]. intros r.
    apply emits_bind; [apply emits_method_astype |]. intros b.
    apply emits_elwise; auto.
Qed.

(** ** C10: greater-than and greater-or-equal *)

Lemma compare_emits (args : list pyobj) (mode : string) :
  emits (applies (fun op => op = Elemwise mode))
        (r ← _elwise args mode; method_astype r "bool").
Proof.
  apply emits_bind; [by apply emits_elwise |]. intros r.
  apply emits_method_astype.
Qed.

Lemma compare_ok (args : list pyobj) (mode : string) (s : state) :
  compared_then_cast args mode s
    ((r ← _elwise args mode; method_astype r "bool") s).
Proof.
  unfold compared_then_cast.
  destruct ((r ← _elwise args mode; method_astype r "bool") s)
    as [[e | v] s'] eqn:H; [exact I |].
  apply bind_inv_ok in H as (r & s1 & H1 & H).
  apply elwise_ok in H1 as (args' & h1 & E1 & E2 & T1).
  apply method_astype_ok in H as [E3 T2].
  exists args', h1, r, (heap s1). repeat split; try assumption.
  apply since_eq. rewrite T2, T1, <- app_assoc. reflexivity.
Qed.

Lemma comparison_table_shape (mode : string) (rev : bool)
    (op : loc -> pyobj -> M pyobj) :
  In (mode, rev, op) comparison_table ->
  op = fun self value =>
         x ← _elwise (operands rev self value) mode; method_astype x "bool".
Proof.
  simpl. intros H.
  repeat (destruct H as [H | H]; [by inversion H |]). contradiction.
Qed.

(** C10.  [>] and [>=] are computed by the [LT] and [LEQ] primitives on
    the operands in swapped order: [a > b] is the run of [b < a] and
    [a >= b] the run of [b <= a].  For each of [<], [<=], [>], [>=], [==],
    with its mode ([LT] for [<] and [>], [LEQ] for [<=] and [>=], [EQ])
    and its operand order (value first for [>] and [>=]): when
    [convert_inputs] answers on the operands in that order, [apply] of
    [Elemwise] with that mode answers with a wrapper [r] and
    [astype(r, "bool")] answers with [v], the comparison returns [v]
    after exactly these three calls; conversely a run that returns has
    made these three calls, each fed with the answer of the one before,
    and returns what [astype] returned; and whatever the collaborators
    answer, no primitive but [Elemwise] with that mode is applied, so
    that there is no dedicated greater-than primitive. *)
Theorem gt_ge_swap_operands (a b : loc) (s : state) :
  __gt__ a (PRef b) s = __lt__ b (PRef a) s
  /\ __ge__ a (PRef b) s = __le__ b (PRef a) s
  /\ (forall mode rev op value,
        In (mode, rev, op) comparison_table ->
        (forall args' h1 r h2 v h3,
           ext (CConvertInputs (operands rev a value)) (heap s)
           = (inr (PTuple args'), h1) ->
           ext (CApply (Elemwise mode) args') h1 = (inr (PTuple [PRef r]), h2) ->
           ext (CAstype (PRef r) "bool") h2 = (inr v, h3) ->
           op a value s =
           (inr v, {| heap := h3;
                      trace := trace s
                               ++ comparison_events (operands rev a value) args' mode r |}))
        /\ compared_then_cast (operands rev a value) mode s (op a value s)
        /\ Forall (fun o => o = Elemwise mode) (applied (since s (op a value s).2))).
Proof.
  split; [reflexivity |]. split; [reflexivity |].
  intros mode rev op value Hin.
  rewrite (comparison_table_shape _ _ _ Hin). clear Hin op.
  split; [| split].
  - intros args' h1 r h2 v h3 E1 E2 E3.
    exact (compare_run _ _ _ _ _ _ _ _ _ E1 E2 E3).
  - apply compare_ok.
  - apply emits_run, compare_emits.
Qed.

(** ** C4: in-place operators *)

Lemma emits_binary_elwise (mode : string) (rev : bool) (self : loc) (value : pyobj) :
  emits (applies (fun _ => True)) (_binary_elwise mode rev self value).
Proof. unfold _binary_elwise. destruct rev; simpl; by apply emits_elwise. Qed.

Lemma inplace_table_shape (f g : loc -> pyobj -> M pyobj) :
  In (f, g) inplace_table ->
  g = _inplace f
  /\ forall self value, emits (applies (fun _ => True)) (f self value).
Proof.
  simpl. intros H.
  repeat (destruct H as [H | H];
          [ inversion H; subst; split; [reflexivity |]; intros self value;
            first [ apply emits_binary_elwise
                  | by apply emits_matmul
                  | by apply emits_logical_binary ] |]).
  contradiction.
Qed.

Lemma inplace_run (f : loc -> pyobj -> M pyobj) (self : loc) (value : pyobj)
    (s : state) :
  _inplace f self value s =
  match f self value s with
  | (inl e, s') => (inl e, s')
  | (inr PNotImplemented, s') => (inl NotImplementedError, s')
  | (inr r, s') => (_reset self r;; mret (PRef self)) s'
  end.
Proof.
  unfold _inplace. rewrite bind_run.
  destruct (f self value s) as [[e | r] s']; [reflexivity |].
  destruct r; reflexivity.
Qed.

Lemma reset_from_wrapper (self r : loc) (s : state) (o o' : wobj) (w : pyobj) :
  heap s !! self = Some o -> heap s !! r = Some o' -> w_wrapped o' = Some w ->
  (_reset self (PRef r);; mret (PRef self)) s =
  (inr (PRef self),
   {| heap := <[self := {| w_class := w_class o; w_wrapped := Some w |}]> (heap s);
      trace := trace s ++ [EvStore self w] |}).
Proof.
  intros Hs Hr Hw.
  assert (Hget : get_wrapped r s = (inr w, s)).
  { unfold get_wrapped, obj_at. rewrite bind_run, Hr, Hw. reflexivity. }
  assert (Hset : set_wrapped self w s =
                 (inr tt,
                  {| heap := <[self := {| w_class := w_class o; w_wrapped := Some w |}]> (heap s);
                     trace := trace s ++ [EvStore self w] |})).
  { unfold set_wrapped. rewrite Hs. reflexivity. }
  unfold _reset, obj_at. rewrite !bind_run, Hs.
  destruct (w_class o); simpl;
    repeat first [rewrite bind_run | rewrite Hget | rewrite Hset]; reflexivity.
Qed.

(** C4.  For each in-place operator [g] and the operator [f] it is built
    from: [f] is run first and, from [s], only calls collaborators (no
    store; the slot of [self] keeps its content unless a collaborator
    rebinds it).  If [f] raises, [g] raises the same exception in the state
    [f] left.  If [f] returns [NotImplemented], [g] raises
    [NotImplementedError] in the state [f] left: nothing was stored.  If
    [f] returns a wrapper [r], [g] stores [r.__wrapped__] into the slot of
    [self], as its only and last effect, and returns [self] itself.  Any
    other result is handed to [_reset]. *)
Theorem inplace_rebinds_after_compute (f g : loc -> pyobj -> M pyobj)
    (self : loc) (value : pyobj) (s : state) :
  In (f, g) inplace_table ->
  stores_of (since s (f self value s).2) = []
  /\ ((forall c h, (ext c h).2 !! self = h !! self) ->
      heap (f self value s).2 !! self = heap s !! self)
  /\ match f self value s with
     | (inl e, s') => g self value s = (inl e, s')
     | (inr PNotImplemented, s') => g self value s = (inl NotImplementedError, s')
     | (inr (PRef r), s') =>
         forall o o' w,
           heap s' !! self = Some o -> heap s' !! r = Some o' ->
           w_wrapped o' = Some w ->
           g self value s =
           (inr (PRef self),
            {| heap := <[self := {| w_class := w_class o; w_wrapped := Some w |}]> (heap s');
               trace := trace s' ++ [EvStore self w] |})
     | (inr v, s') => g self value s = (_reset self v;; mret (PRef self)) s'
     end.
Proof.
  intros Hin. destruct (inplace_table_shape _ _ Hin) as [-> Hem].
  destruct (emits_run _ _ s (Hem self value)) as (_ & Hst & Hfr).
  split; [exact Hst |]. split; [exact (Hfr self) |].
  rewrite inplace_run.
  destruct (f self value s) as [[e | r] s']; [reflexivity |].
  destruct r; try reflexivity.
  intros o o' w Hs Hr Hw. by apply (reset_from_wrapper _ _ _ o o').
Qed.

(** ** C8: construction *)

Lemma new_object_run (cls : wclass) (s : state) :
  new_object cls s =
  (inr (length (heap s)),
   {| heap := heap s ++ [{| w_class := cls; w_wrapped := None |}];
      trace := trace s ++ [EvNew (length (heap s)) cls] |}).
Proof. reflexivity. Qed.

Lemma set_wrapped_last (h : list wobj) (tr : list event) (o : wobj) (v : pyobj) :
  set_wrapped (length h) v {| heap := h ++ [o]; trace := tr |} =
  (inr tt,
   {| heap := h ++ [{| w_class := w_class o; w_wrapped := Some v |}];
      trace := tr ++ [EvStore (length h) v] |}).
Proof.
  unfold set_wrapped. cbn [heap trace]. rewrite list_lookup_middle by reflexivity.
  rewrite insert_app_r_alt by reflexivity. rewrite Nat.sub_diag. reflexivity.
Qed.

Lemma get_wrapped_grown (l : loc) (h : list wobj) (tr : list event) (o o' : wobj)
    (w : pyobj) :
  h !! l = Some o -> w_wrapped o = Some w ->
  get_wrapped l {| heap := h ++ [o']; trace := tr |} =
  (inr w, {| heap := h ++ [o']; trace := tr |}).
Proof.
  intros Hl Hw. unfold get_wrapped, obj_at. rewrite bind_run. cbn [heap].
  rewrite lookup_app_l by (by eapply lookup_lt_Some).
  rewrite Hl, Hw. reflexivity.
Qed.

Lemma init_raw (l : loc) (data dtype device : pyobj) (s : state) :
  raw_data data ->
  TensorWrapper__init__ l data dtype device s =
  (raw ← call_ext (CAsRawTensor data dtype device);
   t ← call_ext (CTensor raw);
   set_wrapped l t) s.
Proof.
  intros H. rewrite <- bind_assoc_run.
  destruct data; try contradiction; reflexivity.
Qed.

(** C8.  The expression [TensorWrapper(data, dtype, device)], from a heap
    of [n] objects.  With [data] [None] it raises the [AssertionError]
    "Cannot init a tensor with data as None": the instance just allocated
    is never bound and no collaborator is called.  With [data] another
    wrapper it binds the new instance to that wrapper's own
    [__wrapped__] value, calling no collaborator, so nothing is copied.
    With any other [data] that is not a primitive tensor it calls
    [as_raw_tensor(data, dtype, device)], then [Tensor] on the result, and
    binds the new instance to what [Tensor] returned; a failure of either
    collaborator is the failure of the construction. *)
Theorem construct_from_data (dtype device : pyobj) (s : state) :
  TensorWrapper_new PNone dtype device s =
  (inl (AssertionError (Some "Cannot init a tensor with data as None")),
   {| heap := heap s ++ [blank];
      trace := trace s ++ [EvNew (length (heap s)) TensorWrapper] |})
  /\ (forall l o w,
        heap s !! l = Some o -> w_wrapped o = Some w ->
        TensorWrapper_new (PRef l) dtype device s =
        (inr (PRef (length (heap s))),
         {| heap := heap s ++ [{| w_class := TensorWrapper; w_wrapped := Some w |}];
            trace := trace s ++ [EvNew (length (heap s)) TensorWrapper;
                                 EvStore (length (heap s)) w] |}))
  /\ (forall data,
        raw_data data ->
        let n := length (heap s) in
        let c1 := CAsRawTensor data dtype device in
        match ext c1 (heap s ++ [blank]) with
        | (inl info, h1) =>
            TensorWrapper_new data dtype device s =
            (inl (CollaboratorError info),
             {| heap := h1;
                trace := trace s ++ [EvNew n TensorWrapper; EvCall c1] |})
        | (inr raw, h1) =>
            match ext (CTensor raw) h1 with
            | (inl info, h2) =>
                TensorWrapper_new data dtype device s =
                (inl (CollaboratorError info),
                 {| heap := h2;
                    trace := trace s ++ [EvNew n TensorWrapper; EvCall c1;
                                         EvCall (CTensor raw)] |})
            | (inr t, h2) =>
                forall o, h2 !! n = Some o ->
                  TensorWrapper_new data dtype device s =
                  (inr (PRef n),
                   {| heap := <[n := {| w_class := w_class o; w_wrapped := Some t |}]> h2;
                      trace := trace s ++ [EvNew n TensorWrapper; EvCall c1;
                                           EvCall (CTensor raw); EvStore n t] |})
            end
        end).
Proof.
  split; [reflexivity |]. split.
  - intros l o w Hl Hw.
    unfold TensorWrapper_new, TensorWrapper__init__, GenericTensorWrapper__init__.
    rewrite bind_run, new_object_run, !bind_run.
    rewrite (get_wrapped_grown _ _ _ _ _ _ Hl Hw), set_wrapped_last.
    simpl. rewrite <- app_assoc. reflexivity.
  - intros data Hraw n c1. subst n c1. unfold blank.
    set (n := length (heap s)).
    set (b := {| w_class := TensorWrapper; w_wrapped := None |}).
    assert (Hrun : TensorWrapper_new data dtype device s =
              (raw ← call_ext (CAsRawTensor data dtype device);
               t ← call_ext (CTensor raw);
               set_wrapped n t;; mret (PRef n))
              {| heap := heap s ++ [b]; trace := trace s ++ [EvNew n TensorWrapper] |}).
    { unfold TensorWrapper_new. rewrite bind_run, new_object_run. fold n b.
      rewrite bind_run. rewrite (init_raw _ _ _ _ _ Hraw). rewrite !bind_run.
      destruct (call_ext (CAsRawTensor data dtype device) _) as [[e | raw] s1];
        [reflexivity |].
      rewrite !bind_run.
      destruct (call_ext (CTensor raw) s1) as [[e | t] s2]; reflexivity. }
    destruct (ext (CAsRawTensor data dtype device) (heap s ++ [b]))
      as [[info | raw] h1] eqn:E1.
    { rewrite Hrun. erewrite bind_err by (by apply call_ext_err).
      cbn [trace]. rewrite <- app_assoc. reflexivity. }
    destruct (ext (CTensor raw) h1) as [[info | t] h2] eqn:E2.
    { rewrite Hrun. erewrite bind_ok by (by apply call_ext_run).
      erewrite bind_err by (by apply call_ext_err).
      cbn [trace]. rewrite <- !app_assoc. reflexivity. }
    intros o Ho. rewrite Hrun. erewrite bind_ok by (by apply call_ext_run).
    erewrite bind_ok by (by apply call_ext_run).
    rewrite bind_run. unfold set_wrapped. cbn [heap trace]. rewrite Ho.
    rewrite <- !app_assoc. reflexivity.
Qed.

(** ** C1: validation of the reshape target *)






Lemma map_int_ints (shape : list Z) (s : state) :
  map_int (map (fun z => PScalar (SInt z)) shape) s = (inr shape, s).
Proof.
  induction shape as [| z l IH]; [reflexivity |]. simpl.
  rewrite bind_run. simpl. rewrite bind_run, IH. reflexivity.
Qed.

Lemma reshape_ints (x : pyobj) (shape : list Z) (s : state) :
  _reshape x (ints shape) s =
  match reshape_scan 0 shape None with
  | inl e => (inl e, s)
  | inr ua => reshape_prim x shape ua s
  end.
Proof.
  unfold _reshape, ints. rewrite bind_run. simpl.
  rewrite bind_run, map_int_ints, bind_run. unfold lift.
  destruct (reshape_scan 0 shape None); reflexivity.
Qed.

Lemma get_device_state (v : pyobj) (s : state) : (get_device v s).2 = s.
Proof.
  unfold get_device. rewrite bind_run. unfold target.
  destruct (fwd_target _ _ _ _) as [e | [t | a]]; reflexivity.
Qed.



(** ** C3: reductions without an axis *)

Lemma emits_ext {A} (P : call -> Prop) (m m' : M A) :
  (forall s, m s = m' s) -> emits P m' -> emits P m.
Proof. intros He H s. rewrite He. apply H. Qed.

Lemma emits_reshape_prim (ok : OpDef -> Prop) (x : pyobj) (shape : list Z)
    (ua : option nat) :
  ok (Reshape ua) -> emits (applies ok) (reshape_prim x shape ua).
Proof.
  intros Hok. unfold reshape_prim.
  apply emits_bind; [apply emits_get_device |]. intros dev.
  apply emits_bind; [by apply emits_call |]. intros r.
  apply emits_bind; [apply emits_unpack1 |]. intros sh.
  apply emits_bind; [by apply emits_call |]. intros r'.
  apply emits_unpack1.
Qed.

Lemma emits_reduce_prim (ok : OpDef -> Prop) (mode : string) (inp : pyobj) (axis : Z) :
  ok (Reduce mode axis) -> emits (applies ok) (reduce_prim mode inp axis).
Proof.
  intros Hok. unfold reduce_prim.
  apply emits_bind; [by apply emits_call |]. intros r.
  apply emits_bind; [apply emits_unpack1 |]. intros x.
  apply emits_bind; [by apply emits_call |]. intros r'.
  apply emits_unpack1.
Qed.

Lemma flatten_run (self : loc) (s : state) :
  flatten self s = reshape_prim (PRef self) [-1] (Some 0%nat) s.
Proof. unfold flatten, reshape. apply (reshape_ints (PRef self) [-1] s). Qed.

Lemma reshape_prim_ok (x : pyobj) (shape : list Z) (ua : option nat)
    (s s' : state) (r : pyobj) :
  reshape_prim x shape ua s = (inr r, s') ->
  exists dev sh,
    trace s' = trace s ++ [ EvCall (CConst shape "int32" (PDevice dev) [x]);
                            EvCall (CApply (Reshape ua) [x; sh]) ].
Proof.
  unfold reshape_prim. intros H.
  apply bind_inv_ok in H as (dev & s0 & H0 & H).
  pose proof (get_device_state x s) as Hd. rewrite H0 in Hd. simpl in Hd. subst s0.
  apply bind_inv_ok in H as (r1 & s1 & H1 & H).
  apply bind_inv_ok in H as (sh & s2 & H2 & H).
  apply bind_inv_ok in H as (r3 & s3 & H3 & H).
  apply call_ext_ok in H1 as [_ T1]. apply unpack1_ok in H2 as [_ ->].
  apply call_ext_ok in H3 as [_ T3]. apply unpack1_ok in H as [_ ->].
  exists dev, sh. rewrite T3, T1, <- app_assoc. reflexivity.
Qed.

Lemma reduce_prim_ok (mode : string) (inp : pyobj) (axis : Z) (s s' : state)
    (r : pyobj) :
  reduce_prim mode inp axis s = (inr r, s') ->
  exists inp',
    trace s' = trace s ++ [ EvCall (CConvertInputs [inp]);
                            EvCall (CApply (Reduce mode axis) [inp']) ].
Proof.
  unfold reduce_prim. intros H.
  apply bind_inv_ok in H as (r1 & s1 & H1 & H).
  apply bind_inv_ok in H as (x & s2 & H2 & H).
  apply bind_inv_ok in H as (r3 & s3 & H3 & H).
  apply call_ext_ok in H1 as [_ T1]. apply unpack1_ok in H2 as [_ ->].
  apply call_ext_ok in H3 as [_ T3]. apply unpack1_ok in H as [_ ->].
  exists x. rewrite T3, T1, <- app_assoc. reflexivity.
Qed.

Lemma reduce_table_shape (mode : string) (red : loc -> option Z -> M pyobj) :
  In (mode, red) reduce_table -> red = _reduce mode.
Proof.
  simpl. intros H.
  repeat (destruct H as [H | H]; [by inversion H |]). contradiction.
Qed.

Lemma reshape_prim_run (x : pyobj) (shape : list Z) (ua : option nat) (s : state)
    (dev : string) (sh r : pyobj) (h1 h2 : list wobj) :
  get_device x s = (inr dev, s) ->
  ext (CConst shape "int32" (PDevice dev) [x]) (heap s) = (inr (PTuple [sh]), h1) ->
  ext (CApply (Reshape ua) [x; sh]) h1 = (inr (PTuple [r]), h2) ->
  reshape_prim x shape ua s =
  (inr r, {| heap := h2;
             trace := trace s ++ [ EvCall (CConst shape "int32" (PDevice dev) [x]);
                                   EvCall (CApply (Reshape ua) [x; sh]) ] |}).
Proof.
  intros Hd E1 E2. unfold reshape_prim.
  rewrite (bind_ok _ _ _ _ _ Hd).
  rewrite bind_run, (call_ext_run _ _ _ _ E1), bind_run. simpl.
  rewrite bind_run.
  rewrite (call_ext_run _ {| heap := h1; trace := _ |} _ _ E2). cbn [trace].
  rewrite <- app_assoc. reflexivity.
Qed.

Lemma reduce_prim_run (mode : string) (inp inp' r : pyobj) (axis : Z) (s : state)
    (h1 h2 : list wobj) :
  ext (CConvertInputs [inp]) (heap s) = (inr (PTuple [inp']), h1) ->
  ext (CApply (Reduce mode axis) [inp']) h1 = (inr (PTuple [r]), h2) ->
  reduce_prim mode inp axis s =
  (inr r, {| heap := h2;
             trace := trace s ++ [ EvCall (CConvertInputs [inp]);
                                   EvCall (CApply (Reduce mode axis) [inp']) ] |}).
Proof.
  intros E1 E2. unfold reduce_prim.
  rewrite bind_run, (call_ext_run _ _ _ _ E1), bind_run. simpl.
  rewrite bind_run.
  rewrite (call_ext_run _ {| heap := h1; trace := _ |} _ _ E2). cbn [trace].
  rewrite <- app_assoc. reflexivity.
Qed.

Lemma reduce_prim_inv (mode : string) (inp : pyobj) (axis : Z) (s s' : state)
    (r : pyobj) :
  reduce_prim mode inp axis s = (inr r, s') ->
  exists inp' h1,
    ext (CConvertInputs [inp]) (heap s) = (inr (PTuple [inp']), h1)
    /\ ext (CApply (Reduce mode axis) [inp']) h1 = (inr (PTuple [r]), heap s').
Proof.
  unfold reduce_prim. intros H.
  apply bind_inv_ok in H as (r1 & s1 & H1 & H).
  apply bind_inv_ok in H as (x & s2 & H2 & H).
  apply bind_inv_ok in H as (r3 & s3 & H3 & H).
  apply call_ext_ok in H1 as [E1 _]. apply unpack1_ok in H2 as [-> ->].
  apply call_ext_ok in H3 as [E3 _]. apply unpack1_ok in H as [-> ->].
  exists x, (heap s1). auto.
Qed.

(** When [convert_inputs] and [Reduce] answer by contents, so does the
    primitive reduction built from them. *)
Lemma reduce_prim_by_contents (mode : string) (v v' : pyobj) (s s' k : state)
    (r : pyobj) :
  by_contents (fun x => CConvertInputs [x]) ->
  by_contents (fun x => CApply (Reduce mode 0) [x]) ->
  contents (heap s) v = contents (heap s') v' ->
  contents (heap s) v <> None ->
  reduce_prim mode v 0 s = (inr r, k) ->
  exists r' k',
    reduce_prim mode v' 0 s' = (inr r', k')
    /\ contents (heap k') r' = contents (heap k) r
    /\ contents (heap k) r <> None.
Proof.
  intros Hc Hr Heq Hsome H.
  apply reduce_prim_inv in H as (x & h1 & E1 & E2).
  destruct (Hc _ _ _ _ _ _ Heq Hsome E1) as (x' & h1' & E1' & Hx & Hxs).
  destruct (Hr h1 x h1' x' r (heap k) (eq_sym Hx) Hxs E2)
    as (r' & h2' & E2' & Hr' & Hrs).
  eexists r', _. split; [exact (reduce_prim_run _ _ _ _ _ _ _ _ E1' E2') |].
  simpl. auto.
Qed.

(** C3.  For each of [sum], [prod], [min], [max], [mean] called without an
    axis: the run is that of [self.flatten()] followed by the primitive
    reduction of the flattened value over axis 0; [flatten] is
    [reshape(-1)], whose validation passes with inferred axis 0; the only
    primitives applied are [Reshape] with inferred axis 0 and [Reduce] with
    the method's mode and axis 0.  When the collaborators answer ([Const]
    on the target (-1,), [apply(Reshape)] with [flat], [convert_inputs] on
    [flat], [apply(Reduce)] with [r]) the reduction returns [r] after these
    four calls, and a run that returns has made these four calls, in this
    order.  Consequently [x.flatten().sum()] and [x.sum()] hold the same
    contents (likewise for the other four reductions): when flattening the
    flat value [y] that [x.flatten()] returned gives a wrapper of the
    contents of [y], whether it is [y] itself or a fresh copy, and
    [convert_inputs] and [Reduce] answer by contents, each of the two
    expressions returns when the other does, and the two results hold the
    same contents. *)
Theorem reduce_without_axis_flattens (mode : string)
    (red : loc -> option Z -> M pyobj) (self : loc) (s : state) :
  In (mode, red) reduce_table ->
  red self None s = (inp ← flatten self; reduce_prim mode inp 0) s
  /\ flatten self s = reshape_prim (PRef self) [-1] (Some 0%nat) s
  /\ Forall (fun op => op = Reshape (Some 0%nat) \/ op = Reduce mode 0)
            (applied (since s (red self None s).2))
  /\ match red self None s with
     | (inr r, s') =>
         exists dev sh flat inp',
           since s s' =
           [ EvCall (CConst [-1] "int32" (PDevice dev) [PRef self]);
             EvCall (CApply (Reshape (Some 0%nat)) [PRef self; sh]);
             EvCall (CConvertInputs [flat]);
             EvCall (CApply (Reduce mode 0) [inp']) ]
     | (inl _, _) => True
     end
  /\ (forall t sh h1 flat h2 inp' h3 r h4,
        bound s self t ->
        ext (CConst [-1] "int32" (PDevice (t_device t)) [PRef self]) (heap s)
        = (inr (PTuple [sh]), h1) ->
        ext (CApply (Reshape (Some 0%nat)) [PRef self; sh]) h1
        = (inr (PTuple [flat]), h2) ->
        ext (CConvertInputs [flat]) h2 = (inr (PTuple [inp']), h3) ->
        ext (CApply (Reduce mode 0) [inp']) h3 = (inr (PTuple [r]), h4) ->
        red self None s =
        (inr r,
         {| heap := h4;
            trace := trace s
                     ++ [ EvCall (CConst [-1] "int32" (PDevice (t_device t)) [PRef self]);
                          EvCall (CApply (Reshape (Some 0%nat)) [PRef self; sh]);
                          EvCall (CConvertInputs [flat]);
                          EvCall (CApply (Reduce mode 0) [inp']) ] |}))
  /\ (forall y s1 y' s2,
        flatten self s = (inr (PRef y), s1) ->
        flatten y s1 = (inr (PRef y'), s2) ->
        contents (heap s2) (PRef y') = contents (heap s1) (PRef y) ->
        contents (heap s1) (PRef y) <> None ->
        by_contents (fun v => CConvertInputs [v]) ->
        by_contents (fun v => CApply (Reduce mode 0) [v]) ->
        (forall r s',
           red self None s = (inr r, s') ->
           exists r' s'',
             (v ← flatten self; method_reduce mode v) s = (inr r', s'')
             /\ contents (heap s'') r' = contents (heap s') r
             /\ contents (heap s') r <> None)
        /\ (forall r' s'',
              (v ← flatten self; method_reduce mode v) s = (inr r', s'') ->
              exists r s',
                red self None s = (inr r, s')
                /\ contents (heap s') r = contents (heap s'') r'
                /\ contents (heap s'') r' <> None)).
Proof.
  intros Hin. rewrite (reduce_table_shape _ _ Hin). clear Hin red.
  split; [reflexivity |]. split; [apply flatten_run |].
  split; [| split; [| split]].
  - apply emits_run. unfold _reduce.
    apply emits_bind.
    + apply (emits_ext _ _ _ (flatten_run self)). apply emits_reshape_prim. auto.
    + intros inp. apply emits_reduce_prim. auto.
  - destruct (_reduce mode self None s) as [[e | r] s'] eqn:H; [exact I |].
    unfold _reduce in H. apply bind_inv_ok in H as (flat & s1 & H1 & H).
    rewrite flatten_run in H1.
    apply reshape_prim_ok in H1 as (dev & sh & T1).
    apply reduce_prim_ok in H as (inp' & T2).
    exists dev, sh, flat, inp'. apply since_eq.
    rewrite T2, T1, <- app_assoc. reflexivity.
  - intros t sh h1 flat h2 inp' h3 r h4 Hb E1 E2 E3 E4. unfold _reduce.
    assert (Hflat : flatten self s =
                    (inr flat,
                     {| heap := h2;
                        trace := trace s
                                 ++ [ EvCall (CConst [-1] "int32" (PDevice (t_device t))
                                                [PRef self]);
                                      EvCall (CApply (Reshape (Some 0%nat))
                                                [PRef self; sh]) ] |})).
    { rewrite flatten_run.
      exact (reshape_prim_run _ _ _ _ _ _ _ _ _ (get_device_bound _ _ _ Hb) E1 E2). }
    rewrite (bind_ok _ _ _ _ _ Hflat).
    rewrite (reduce_prim_run mode flat inp' r 0 {| heap := h2; trace := _ |} h3 h4 E3 E4).
    cbn [trace]. rewrite <- app_assoc. reflexivity.
  - intros y s1 y' s2 Hflat Hre Hsame Hsome Hc Hr. split.
    + intros r s' H. unfold _reduce in H. rewrite (bind_ok _ _ _ _ _ Hflat) in H.
      destruct (reduce_prim_by_contents mode (PRef y) (PRef y') s1 s2 s' r
                  Hc Hr (eq_sym Hsame) Hsome H) as (r' & k' & H' & Heq & Hn).
      exists r', k'. split; [| auto].
      rewrite (bind_ok _ _ _ _ _ Hflat).
      change (method_reduce mode (PRef y)) with (_reduce mode y None).
      unfold _reduce. rewrite (bind_ok _ _ _ _ _ Hre). exact H'.
    + intros r' s'' H. rewrite (bind_ok _ _ _ _ _ Hflat) in H.
      change (method_reduce mode (PRef y)) with (_reduce mode y None) in H.
      unfold _reduce in H. rewrite (bind_ok _ _ _ _ _ Hre) in H.
      assert (Hsome' : contents (heap s2) (PRef y') <> None)
        by (rewrite Hsame; exact Hsome).
      destruct (reduce_prim_by_contents mode (PRef y') (PRef y) s2 s1 s'' r'
                  Hc Hr Hsame Hsome' H) as (r & k & H' & Heq & Hn).
      exists r, k. split; [| auto].
      unfold _reduce. rewrite (bind_ok _ _ _ _ _ Hflat). exact H'.
Qed.

(** * Further properties of the dispatch layer *)

(** ** Arithmetic operators *)

Lemma binary_table_shape (mode : string) (rev : bool)
    (op : loc -> pyobj -> M pyobj) :
  In (mode, rev, op) binary_table -> op = _binary_elwise mode rev.
Proof.
  simpl. intros H.
  repeat (destruct H as [H | H]; [by inversion H |]). contradiction.
Qed.

Lemma binary_elwise_run (mode : string) (rev : bool) (self : loc) (value : pyobj)
    (s : state) :
  _binary_elwise mode rev self value s = _elwise (operands rev self value) mode s.
Proof. destruct rev; reflexivity. Qed.

Lemma elwise_returns (args : list pyobj) (mode : string) (s : state) :
  match _elwise args mode s with
  | (inr r, s') =>
      exists args' h1,
        ext (CConvertInputs args) (heap s) = (inr (PTuple args'), h1)
        /\ ext (CApply (Elemwise mode) args') h1 = (inr (PTuple [r]), heap s')
        /\ since s s' = [ EvCall (CConvertInputs args);
                          EvCall (CApply (Elemwise mode) args') ]
  | (inl _, _) => True
  end.
Proof.
  destruct (_elwise args mode s) as [[e | r] s'] eqn:H; [exact I |].
  apply elwise_ok in H as (args' & h1 & E1 & E2 & T).
  exists args', h1. repeat split; try assumption. by apply since_eq.
Qed.

(** X1.  Each binary arithmetic operator, reversed variants included, is
    one elementwise primitive: whatever the collaborators answer, nothing
    but [Elemwise] with the operator's mode is applied and no wrapper slot
    is written; a run that returns has called [convert_inputs] on the two
    operands (value first for a reversed variant), then [apply] once on
    what came back, and returns the single output of that [apply]. *)
Theorem binary_operator_is_one_primitive (mode : string) (rev : bool)
    (op : loc -> pyobj -> M pyobj) (self : loc) (value : pyobj) (s : state) :
  In (mode, rev, op) binary_table ->
  Forall (fun o => o = Elemwise mode) (applied (since s (op self value s).2))
  /\ stores_of (since s (op self value s).2) = []
  /\ match op self value s with
     | (inr r, s') =>
         exists args' h1,
           ext (CConvertInputs (operands rev self value)) (heap s)
           = (inr (PTuple args'), h1)
           /\ ext (CApply (Elemwise mode) args') h1 = (inr (PTuple [r]), heap s')
           /\ since s s' = [ EvCall (CConvertInputs (operands rev self value));
                             EvCall (CApply (Elemwise mode) args') ]
     | (inl _, _) => True
     end.
Proof.
  intros Hin. rewrite (binary_table_shape _ _ _ Hin). clear Hin op.
  rewrite binary_elwise_run.
  destruct (emits_run (fun o => o = Elemwise mode)
              (_elwise (operands rev self value) mode) s) as (Ha & Hs & _).
  { by apply emits_elwise. }
  split; [exact Ha |]. split; [exact Hs |]. apply elwise_returns.
Qed.

(** X2.  A reversed operator is the plain operator with the operands
    exchanged: for two wrappers, [b.__rsub__(a)] is the very run of
    [a.__sub__(b)], and so for every binary arithmetic operator. *)
Theorem reversed_operator_swaps (mode : string)
    (op rop : loc -> pyobj -> M pyobj) (a b : loc) (s : state) :
  In (mode, false, op) binary_table -> In (mode, true, rop) binary_table ->
  rop b (PRef a) s = op a (PRef b) s.
Proof.
  intros Hop Hrop.
  rewrite (binary_table_shape _ _ _ Hop), (binary_table_shape _ _ _ Hrop).
  reflexivity.
Qed.

Lemma unary_table_shape (mode : string) (op : loc -> M pyobj) :
  In (mode, op) unary_table -> op = _unary_elwise mode.
Proof.
  simpl. intros H.
  repeat (destruct H as [H | H]; [by inversion H |]). contradiction.
Qed.

(** X3.  Each of [neg], [abs], [round], [floor], [ceil] is one elementwise
    primitive on the receiver alone: nothing but [Elemwise] with the
    operator's mode is applied, no slot is written, and a run that returns
    has called [convert_inputs(self)] and then [apply] once, whose single
    output it returns. *)
Theorem unary_operator_is_one_primitive (mode : string) (op : loc -> M pyobj)
    (self : loc) (s : state) :
  In (mode, op) unary_table ->
  Forall (fun o => o = Elemwise mode) (applied (since s (op self s).2))
  /\ stores_of (since s (op self s).2) = []
  /\ match op self s with
     | (inr r, s') =>
         exists args' h1,
           ext (CConvertInputs [PRef self]) (heap s) = (inr (PTuple args'), h1)
           /\ ext (CApply (Elemwise mode) args') h1 = (inr (PTuple [r]), heap s')
           /\ since s s' = [ EvCall (CConvertInputs [PRef self]);
                             EvCall (CApply (Elemwise mode) args') ]
     | (inl _, _) => True
     end.
Proof.
  intros Hin. rewrite (unary_table_shape _ _ Hin). clear Hin op.
  unfold _unary_elwise.
  destruct (emits_run (fun o => o = Elemwise mode) (_elwise [PRef self] mode) s)
    as (Ha & Hs & _).
  { by apply emits_elwise. }
  split; [exact Ha |]. split; [exact Hs |]. apply elwise_returns.
Qed.

(** ** Matrix multiplication *)

Lemma unpack2_ok (v : pyobj) (s s' : state) (x y : pyobj) :
  unpack2 v s = (inr (x, y), s') -> v = PTuple [x; y] /\ s' = s.
Proof.
  destruct v as [| | | | | | [| a [| b [| c xs]]] | | |];
    intros H; inversion H; subst; auto.
Qed.

Lemma unpack2_wrong_length (xs : list pyobj) (s : state) :
  length xs <> 2%nat -> exists msg, unpack2 (PTuple xs) s = (inl (ValueError msg), s).
Proof.
  intros H. destruct xs as [| a [| b [| c xs]]]; simpl in *;
    try (eexists; reflexivity). contradiction.
Qed.

(** X4.  [@] applies nothing but [MatrixMul] with both transpose flags
    false and default compute mode and format, and writes no slot; a run
    that returns has converted the two operands and applied the primitive
    once to the two converted operands; the reflected form is the plain
    form with the operands exchanged; and when [convert_inputs] does not
    return exactly two values the operator raises [ValueError] with no
    primitive applied. *)
Theorem matmul_dispatch (a b : loc) (other : pyobj) (s : state) :
  Forall (fun o => o = MatrixMul false false "DEFAULT" "DEFAULT")
         (applied (since s (__matmul__ a other s).2))
  /\ stores_of (since s (__matmul__ a other s).2) = []
  /\ match __matmul__ a other s with
     | (inr r, s') =>
         exists x y h1,
           ext (CConvertInputs [PRef a; other]) (heap s) = (inr (PTuple [x; y]), h1)
           /\ ext (CApply (MatrixMul false false "DEFAULT" "DEFAULT") [x; y]) h1
              = (inr (PTuple [r]), heap s')
           /\ since s s' =
              [ EvCall (CConvertInputs [PRef a; other]);
                EvCall (CApply (MatrixMul false false "DEFAULT" "DEFAULT") [x; y]) ]
     | (inl _, _) => True
     end
  /\ __rmatmul__ b (PRef a) s = __matmul__ a (PRef b) s
  /\ (forall xs h1,
        ext (CConvertInputs [PRef a; other]) (heap s) = (inr (PTuple xs), h1) ->
        length xs <> 2%nat ->
        (exists msg, (__matmul__ a other s).1 = inl (ValueError msg))
        /\ applied (since s (__matmul__ a other s).2) = []).
Proof.
  destruct (emits_run (fun o => o = MatrixMul false false "DEFAULT" "DEFAULT")
              (_matmul (PRef a) other) s) as (Ha & Hs & _).
  { by apply emits_matmul. }
  split; [exact Ha |]. split; [exact Hs |]. split; [| split; [reflexivity |]].
  - unfold __matmul__.
    destruct (_matmul (PRef a) other s) as [[e | r] s'] eqn:H; [exact I |].
    unfold _matmul in H.
    apply bind_inv_ok in H as (r1 & s1 & H1 & H).
    apply bind_inv_ok in H as ([x y] & s2 & H2 & H).
    apply bind_inv_ok in H as (r3 & s3 & H3 & H).
    apply call_ext_ok in H1 as [E1 T1]. apply unpack2_ok in H2 as [-> ->].
    apply call_ext_ok in H3 as [E3 T3]. apply unpack1_ok in H as [-> ->].
    exists x, y, (heap s1). repeat split; try assumption.
    apply since_eq. rewrite T3, T1, <- app_assoc. reflexivity.
  - intros xs h1 E Hlen. unfold __matmul__, _matmul.
    rewrite bind_run, (call_ext_run _ _ _ _ E), bind_run.
    destruct (unpack2_wrong_length xs
                {| heap := h1;
                   trace := trace s ++ [EvCall (CConvertInputs [PRef a; other])] |}
                Hlen) as (msg & ->).
    split; [by exists msg |]. simpl.
    rewrite (since_eq _ _ [EvCall (CConvertInputs [PRef a; other])]) by reflexivity.
    reflexivity.
Qed.

(** ** The single-output postcondition of [_elwise] *)

Lemma unpack1_wrong_length (xs : list pyobj) (s : state) :
  length xs <> 1%nat -> exists msg, unpack1 (PTuple xs) s = (inl (ValueError msg), s).
Proof.
  intros H. destruct xs as [| a [| b xs]]; simpl in *;
    try (eexists; reflexivity). contradiction.
Qed.

(** X5.  [_elwise] insists on a single output: when [apply] returns a
    sequence that does not hold exactly one value, [_elwise] raises
    [ValueError] from the unpacking, after the primitive has been applied;
    and whenever [_elwise] returns, [apply] returned exactly the one value
    it returns. *)
Theorem elwise_requires_single_output (args : list pyobj) (mode : string)
    (s : state) :
  (forall args' h1 outs h2,
     ext (CConvertInputs args) (heap s) = (inr (PTuple args'), h1) ->
     ext (CApply (Elemwise mode) args') h1 = (inr (PTuple outs), h2) ->
     length outs <> 1%nat ->
     exists msg,
       _elwise args mode s =
       (inl (ValueError msg),
        {| heap := h2;
           trace := trace s ++ [ EvCall (CConvertInputs args);
                                 EvCall (CApply (Elemwise mode) args') ] |}))
  /\ (forall r s',
        _elwise args mode s = (inr r, s') ->
        exists args' h1,
          ext (CConvertInputs args) (heap s) = (inr (PTuple args'), h1)
          /\ ext (CApply (Elemwise mode) args') h1 = (inr (PTuple [r]), heap s')).
Proof.
  split.
  - intros args' h1 outs h2 E1 E2 Hlen. unfold _elwise.
    rewrite bind_run, (call_ext_run _ _ _ _ E1), bind_run. simpl.
    rewrite bind_run.
    rewrite (call_ext_run _ {| heap := h1; trace := _ |} _ _ E2). cbn [trace].
    rewrite <- app_assoc. simpl.
    apply unpack1_wrong_length. exact Hlen.
  - intros r s' H. apply elwise_ok in H as (args' & h1 & E1 & E2 & _). eauto.
Qed.

(** ** Logical operators on boolean operands *)

Lemma logical_rev_table_shape (mode : string) (rev : bool)
    (op : loc -> pyobj -> M pyobj) :
  In (mode, rev, op) logical_rev_table -> op = _logical_binary_elwise mode rev.
Proof.
  simpl. intros H.
  repeat (destruct H as [H | H]; [by inversion H |]). contradiction.
Qed.

(** X6.  When both operands carry the dtype [bool] the guard of a logical
    operator lets the call through unchanged: [and], [or], [xor] run as
    [_elwise] on the two operands with the operator's mode (value first
    for a reversed variant), and invert runs as [_elwise(self, mode=NOT)]. *)
Theorem logical_ops_pass_bool (self : loc) (s : state) :
  dtype_of s (PRef self) = inr np_bool_ ->
  (forall mode rev op value,
     In (mode, rev, op) logical_rev_table ->
     dtype_of s value = inr np_bool_ ->
     op self value s = _elwise (operands rev self value) mode s)
  /\ __invert__ self s = _elwise [PRef self] "NOT" s.
Proof.
  intros Hself. split.
  - intros mode rev op value Hin Hvalue.
    rewrite (logical_rev_table_shape _ _ _ Hin).
    rewrite logical_binary_run, logical_guard_run, Hself, Hvalue.
    destruct rev; reflexivity.
  - unfold __invert__, _logical_unary_elwise.
    rewrite bind_run, get_dtype_run, Hself. reflexivity.
Qed.

(** ** [!=] against [~] of [==] *)

(** X7.  [a != b] and [~(a == b)] differ only by the guard of [~]: when
    [a == b] returns a wrapper whose dtype is [bool] the two are the same
    run; when it returns a wrapper of another dtype, [~(a == b)] raises the
    guard's [TypeError] in the state [==] left, while [a != b] goes on to
    [_elwise(., mode=NOT)] without any check. *)
Theorem ne_versus_invert_of_eq (self : loc) (value : pyobj) (s s1 : state)
    (e : loc) :
  __eq__ self value s = (inr (PRef e), s1) ->
  __ne__ self value s = _elwise [PRef e] "NOT" s1
  /\ (dtype_of s1 (PRef e) = inr np_bool_ ->
      (r ← __eq__ self value; method_invert r) s = __ne__ self value s)
  /\ (forall d, dtype_of s1 (PRef e) = inr d -> d <> np_bool_ ->
        (r ← __eq__ self value; method_invert r) s =
        (inl (TypeError "NOT requires a bool tensor"), s1)).
Proof.
  intros Heq.
  assert (Hne : __ne__ self value s = _elwise [PRef e] "NOT" s1).
  { unfold __ne__.
    rewrite <- (bind_assoc_run (_elwise [PRef self; value] "EQ")
                  (fun r => method_astype r "bool")
                  (fun b => _elwise [b] "NOT") s).
    exact (bind_ok (__eq__ self value) (fun b => _elwise [b] "NOT") _ _ _ Heq). }
  split; [exact Hne |]. split.
  - intros Hd. rewrite (bind_ok _ _ _ _ _ Heq), Hne. simpl.
    unfold __invert__, _logical_unary_elwise.
    rewrite bind_run, get_dtype_run, Hd. reflexivity.
  - intros d Hd Hn. rewrite (bind_ok _ _ _ _ _ Heq). simpl.
    unfold __invert__, _logical_unary_elwise.
    rewrite bind_run, get_dtype_run, Hd.
    apply dtype_ne_bool_true in Hn. rewrite Hn. reflexivity.
Qed.

(** ** Reductions over a given axis *)

(** X8.  A reduction called with an axis does not flatten: whatever the
    collaborators answer, the only primitive applied is [Reduce] with the
    method's mode and the axis as given, no slot is written, and a run
    that returns has called [convert_inputs(self)] and then [apply] once
    on the converted receiver, whose single output it returns. *)
Theorem reduce_with_axis_is_direct (mode : string)
    (red : loc -> option Z -> M pyobj) (self : loc) (axis : Z) (s : state) :
  In (mode, red) reduce_table ->
  Forall (fun o => o = Reduce mode axis) (applied (since s (red self (Some axis) s).2))
  /\ stores_of (since s (red self (Some axis) s).2) = []
  /\ match red self (Some axis) s with
     | (inr r, s') =>
         exists inp' h1,
           ext (CConvertInputs [PRef self]) (heap s) = (inr (PTuple [inp']), h1)
           /\ ext (CApply (Reduce mode axis) [inp']) h1 = (inr (PTuple [r]), heap s')
           /\ since s s' = [ EvCall (CConvertInputs [PRef self]);
                             EvCall (CApply (Reduce mode axis) [inp']) ]
     | (inl _, _) => True
     end.
Proof.
  intros Hin. rewrite (reduce_table_shape _ _ Hin). clear Hin red.
  unfold _reduce.
  destruct (emits_run (fun o => o = Reduce mode axis)
              (reduce_prim mode (PRef self) axis) s) as (Ha & Hs & _).
  { by apply emits_reduce_prim. }
  split; [exact Ha |]. split; [exact Hs |].
  destruct (reduce_prim mode (PRef self) axis s) as [[e | r] s'] eqn:H; [exact I |].
  unfold reduce_prim in H.
  apply bind_inv_ok in H as (r1 & s1 & H1 & H).
  apply bind_inv_ok in H as (x & s2 & H2 & H).
  apply bind_inv_ok in H as (r3 & s3 & H3 & H).
  apply call_ext_ok in H1 as [E1 T1]. apply unpack1_ok in H2 as [-> ->].
  apply call_ext_ok in H3 as [E3 T3]. apply unpack1_ok in H as [-> ->].
  exists x, (heap s1). repeat split; try assumption.
  apply since_eq. rewrite T3, T1, <- app_assoc. reflexivity.
Qed.

(** ** The forms of the reshape target *)

(** X9.  [x.reshape((d1, ..., dn))] and [x.reshape(d1, ..., dn)] are the
    same run, for every sequence of ints, the empty one included: a single
    sequence argument is unpacked. *)
Theorem reshape_unpacks_single_sequence (self : loc) (shape : list Z) (s : state) :
  reshape self [ints shape] s
  = reshape self (map (fun z => PScalar (SInt z)) shape) s.
Proof.
  unfold reshape, ints. destruct shape as [| z [| z' l]]; reflexivity.
Qed.

Lemma map_int_scalars (vs : list scalar) (zs : list Z) (s : state) :
  Forall2 (fun v z => scalar_int v = inr z) vs zs ->
  map_int (map PScalar vs) s = (inr zs, s).
Proof.
  induction 1 as [| v z vs zs Hv Hvs IH]; [reflexivity |]. simpl.
  rewrite bind_run. unfold lift. rewrite Hv, bind_run, IH. reflexivity.
Qed.

Lemma reshape_after_conversion (x shape : pyobj) (zs : list Z) (s : state) :
  (match shape with PTensor _ | PRef _ => False | _ => True end) ->
  tuple_map_int shape s = (inr zs, s) ->
  _reshape x shape s = _reshape x (ints zs) s.
Proof.
  intros Hshape Hconv. rewrite reshape_ints. unfold _reshape.
  rewrite bind_run.
  assert (Hfirst : (match shape with
                    | PTensor _ | PRef _ => a ← numpy shape; mret (PArray a)
                    | _ => mret shape
                    end) s = (inr shape, s)).
  { destruct shape; try contradiction; reflexivity. }
  rewrite Hfirst, bind_run, Hconv, bind_run. unfold lift.
  destruct (reshape_scan 0 zs None); reflexivity.
Qed.

(** X10.  The entries of the target go through [int()] before they are
    validated: a target of Python bools, ints and floats whose conversions
    give the ints [zs] is reshaped exactly as the target [zs]; so a float
    is truncated towards zero, and -1.5 acts as the marker -1. *)
Theorem reshape_converts_entries (x : pyobj) (vs : list scalar) (zs : list Z)
    (s : state) :
  Forall2 (fun v z => scalar_int v = inr z) vs zs ->
  _reshape x (PTuple (map PScalar vs)) s = _reshape x (ints zs) s.
Proof.
  intros H. apply reshape_after_conversion; [exact I |].
  apply (map_int_scalars _ _ _ H).
Qed.

Lemma map_int_SInt (zs : list Z) (s : state) :
  map_int (map PScalar (map SInt zs)) s = (inr zs, s).
Proof.
  apply map_int_scalars. induction zs; constructor; auto.
Qed.

(** X11.  A target passed as a tensor is read through [numpy()]: for a
    wrapper bound to a flat tensor that holds the ints [zs], and for that
    primitive tensor itself, [_reshape] runs exactly as for the tuple
    [zs]. *)
Theorem reshape_reads_tensor_target (x : pyobj) (l : loc) (t : Tensor)
    (zs : list Z) (s : state) :
  bound s l t ->
  a_shape (t_numpy t) = [Z.of_nat (length zs)] ->
  a_data (t_numpy t) = map SInt zs ->
  _reshape x (PRef l) s = _reshape x (ints zs) s
  /\ _reshape x (PTensor t) s = _reshape x (ints zs) s.
Proof.
  intros Hb Hshape Hdata.
  assert (Hiter : tuple_map_int (PArray (t_numpy t)) s = (inr zs, s)).
  { unfold tuple_map_int. rewrite Hshape, Hdata.
    destruct zs as [| z zs']; [reflexivity |].
    assert ((Z.of_nat (length (z :: zs')) =? 0) = false) as ->
      by (apply Z.eqb_neq; simpl; lia).
    simpl shape_product. simpl Z.eqb. cbv iota. apply map_int_SInt. }
  assert (Hnp : numpy (PTensor t) s = (inr (t_numpy t), s)).
  { unfold numpy, target. rewrite bind_run, fwd_target_tensor. reflexivity. }
  assert (Hrun : forall v,
            (a ← numpy v; mret (PArray a)) s = (inr (PArray (t_numpy t)), s) ->
            (shape ← (a ← numpy v; mret (PArray a));
             shape ← tuple_map_int shape;
             unspec_axis ← lift (reshape_scan 0 shape None);
             reshape_prim x shape unspec_axis) s
            = _reshape x (ints zs) s).
  { intros v Hv. rewrite (reshape_ints x zs s).
    rewrite (bind_ok _ _ _ _ _ Hv), (bind_ok _ _ _ _ _ Hiter), bind_run.
    unfold lift. destruct (reshape_scan 0 zs None); reflexivity. }
  split.
  - apply (Hrun (PRef l)). rewrite bind_run, (numpy_bound _ _ _ Hb). reflexivity.
  - apply (Hrun (PTensor t)). rewrite bind_run, Hnp. reflexivity.
Qed.

(** ** Rebinding: [_reset] *)

Lemma obj_at_run (l : loc) (o : wobj) (s : state) :
  heap s !! l = Some o -> obj_at l s = (inr o, s).
Proof. intros H. unfold obj_at. rewrite H. reflexivity. Qed.

Lemma get_wrapped_run (l : loc) (o : wobj) (w : pyobj) (s : state) :
  heap s !! l = Some o -> w_wrapped o = Some w -> get_wrapped l s = (inr w, s).
Proof.
  intros Hl Hw. unfold get_wrapped. rewrite bind_run, (obj_at_run _ _ _ Hl), Hw.
  reflexivity.
Qed.

Lemma set_wrapped_run (l : loc) (o : wobj) (v : pyobj) (s : state) :
  heap s !! l = Some o ->
  set_wrapped l v s =
  (inr tt,
   {| heap := <[l := {| w_class := w_class o; w_wrapped := Some v |}]> (heap s);
      trace := trace s ++ [EvStore l v] |}).
Proof. intros H. unfold set_wrapped. rewrite H. reflexivity. Qed.

Lemma reset_adopts_tensor (self : loc) (o : wobj) (t : Tensor) (s : state) :
  heap s !! self = Some o -> w_class o = TensorWrapper ->
  _reset self (PTensor t) s =
  (inr PNone,
   {| heap := <[self := {| w_class := TensorWrapper;
                           w_wrapped := Some (PTensor t) |}]> (heap s);
      trace := trace s ++ [EvStore self (PTensor t)] |}).
Proof.
  intros Hs Hc. unfold _reset. rewrite bind_run, (obj_at_run _ _ _ Hs), Hc.
  simpl. rewrite bind_run, (set_wrapped_run _ _ _ _ Hs), Hc. reflexivity.
Qed.

Lemma reset_generic_rejects (self : loc) (o : wobj) (other : pyobj) (s : state) :
  heap s !! self = Some o -> w_class o = GenericTensorWrapper ->
  (match other with PRef _ => False | _ => True end) ->
  _reset self other s = (inl (TypeError (type_name other)), s).
Proof.
  intros Hs Hc Hother. unfold _reset.
  rewrite bind_run, (obj_at_run _ _ _ Hs), Hc.
  destruct other; try contradiction; reflexivity.
Qed.

(** X12.  Rebinding to a primitive tensor depends on the class of the
    receiver: a [TensorWrapper] adopts the tensor itself, by one store; a
    [GenericTensorWrapper] accepts wrappers only and raises [TypeError],
    naming the type of what it was given, with heap and trace untouched. *)
Theorem reset_by_class (self : loc) (o : wobj) (s : state) :
  heap s !! self = Some o ->
  (w_class o = TensorWrapper ->
   forall t,
     _reset self (PTensor t) s =
     (inr PNone,
      {| heap := <[self := {| w_class := TensorWrapper;
                              w_wrapped := Some (PTensor t) |}]> (heap s);
         trace := trace s ++ [EvStore self (PTensor t)] |}))
  /\ (w_class o = GenericTensorWrapper ->
      forall other,
        (match other with PRef _ => False | _ => True end) ->
        _reset self other s = (inl (TypeError (type_name other)), s)).
Proof.
  intros Hs. split; intros Hc.
  - intros t. by apply (reset_adopts_tensor _ o).
  - intros other Hother. by apply (reset_generic_rejects _ o).
Qed.

Lemma reset_wrapper_run (self r : loc) (o o' : wobj) (w : pyobj) (s : state) :
  heap s !! self = Some o -> heap s !! r = Some o' -> w_wrapped o' = Some w ->
  exists v,
    _reset self (PRef r) s =
    (inr v,
     {| heap := <[self := {| w_class := w_class o; w_wrapped := Some w |}]> (heap s);
        trace := trace s ++ [EvStore self w] |}).
Proof.
  intros Hs Hr Hw. unfold _reset. rewrite bind_run, (obj_at_run _ _ _ Hs).
  destruct (w_class o) eqn:Hc; simpl;
    rewrite bind_run, (get_wrapped_run _ _ _ _ Hr Hw), bind_run,
      (set_wrapped_run _ _ _ _ Hs), Hc;
    eexists; reflexivity.
Qed.

(** X13.  Rebinding to another wrapper changes the slot of the receiver
    and nothing else: the call returns, the receiver is then bound to the
    tensor the other wrapper is bound to (so its shape, dtype and device
    are that tensor's), the other wrapper keeps its binding, the receiver
    keeps its class, no object is added and every other slot is as
    before. *)
Theorem reset_rebinds_only_self (self r : loc) (o : wobj) (t : Tensor) (s : state) :
  heap s !! self = Some o -> bound s r t ->
  exists v s',
    _reset self (PRef r) s = (inr v, s')
    /\ bound s' self t /\ bound s' r t
    /\ get_shape (PRef self) s' = (inr (a_shape (t_numpy t)), s')
    /\ get_dtype (PRef self) s' = (inr (a_dtype (t_numpy t)), s')
    /\ get_device (PRef self) s' = (inr (t_device t), s')
    /\ length (heap s') = length (heap s)
    /\ (forall l, l <> self -> heap s' !! l = heap s !! l)
    /\ w_class <$> heap s' !! self = Some (w_class o).
Proof.
  intros Hs (o' & Hr & Hw).
  destruct (reset_wrapper_run _ _ _ _ _ _ Hs Hr Hw) as (v & Hrun).
  eexists v, _. split; [exact Hrun |].
  assert (Hlt : (self < length (heap s))%nat) by (by eapply lookup_lt_Some).
  assert (Hself : bound {| heap := <[self := {| w_class := w_class o;
                                                 w_wrapped := Some (PTensor t) |}]> (heap s);
                           trace := trace s ++ [EvStore self (PTensor t)] |} self t).
  { eexists. cbn [heap]. rewrite list_lookup_insert_eq by exact Hlt.
    split; reflexivity. }
  split; [exact Hself |]. split.
  { destruct (decide (r = self)) as [-> | Hne]; [exact Hself |].
    exists o'. cbn [heap]. rewrite list_lookup_insert_ne by congruence. auto. }
  split; [by apply get_shape_bound |]. split; [by apply get_dtype_bound |].
  split; [by apply get_device_bound |]. cbn [heap].
  split; [apply length_insert |]. split.
  - intros l Hl. apply list_lookup_insert_ne. congruence.
  - rewrite list_lookup_insert_eq by exact Hlt. reflexivity.
Qed.

Lemma new_returns_ref (data dtype device : pyobj) (s s' : state) (w : pyobj) :
  TensorWrapper_new data dtype device s = (inr w, s') -> exists l, w = PRef l.
Proof.
  unfold TensorWrapper_new. intros H.
  apply bind_inv_ok in H as (l & s1 & _ & H).
  apply bind_inv_ok in H as (u & s2 & _ & H).
  inversion H. eauto.
Qed.

(** X14.  The recursion of [TensorWrapper._reset] is one call deep: the
    nested call is always made on a freshly built wrapper and takes the
    first branch, so one unit of fuel is enough and any larger amount
    gives the same run. *)
Theorem reset_recursion_depth_one (fuel : nat) (self : loc) (other : pyobj)
    (s : state) :
  TensorWrapper__reset (S fuel) self other s = TensorWrapper__reset 1 self other s.
Proof.
  assert (Hnested : forall w s1,
            (exists l, w = PRef l) ->
            (TensorWrapper__reset fuel self w;; mret PNone) s1
            = (TensorWrapper__reset 0 self w;; mret PNone) s1).
  { intros w s1 (l & ->). destruct fuel; reflexivity. }
  destruct other; try reflexivity; simpl; rewrite !bind_run;
    (destruct (get_dtype (PRef self) s) as [[e | dt] s1]; [reflexivity |]);
    rewrite !bind_run;
    (destruct (get_device (PRef self) s1) as [[e | dev] s2]; [reflexivity |]);
    rewrite !bind_run;
    match goal with
    | |- context [TensorWrapper_new ?d ?a ?b s2] =>
        destruct (TensorWrapper_new d a b s2) as [[e | w] s3] eqn:Hnew;
        [reflexivity | apply Hnested; by eapply new_returns_ref]
    end.
Qed.

Lemma new_from_raw (data dtype device : pyobj) (s : state) (raw tn : pyobj)
    (h1 h2 : list wobj) (o1 : wobj) :
  raw_data data ->
  ext (CAsRawTensor data dtype device) (heap s ++ [blank]) = (inr raw, h1) ->
  ext (CTensor raw) h1 = (inr tn, h2) ->
  h2 !! length (heap s) = Some o1 ->
  TensorWrapper_new data dtype device s =
  (inr (PRef (length (heap s))),
   {| heap := <[length (heap s) := {| w_class := w_class o1; w_wrapped := Some tn |}]> h2;
      trace := trace s ++ [ EvNew (length (heap s)) TensorWrapper;
                            EvCall (CAsRawTensor data dtype device);
                            EvCall (CTensor raw);
                            EvStore (length (heap s)) tn ] |}).
Proof.
  intros Hraw E1 E2 Ho. unfold TensorWrapper_new.
  rewrite bind_run, new_object_run, bind_run.
  rewrite (init_raw _ _ _ _ _ Hraw).
  erewrite bind_ok by (apply call_ext_run; exact E1).
  erewrite bind_ok by (apply call_ext_run; exact E2).
  unfold set_wrapped. cbn [heap trace]. rewrite Ho.
  cbn. rewrite <- !app_assoc. reflexivity.
Qed.

(** X15.  Rebinding a [TensorWrapper] to raw data materialises it with the
    receiver's own dtype and device: [as_raw_tensor] is called with the
    data and the dtype and device of the tensor the receiver is bound to,
    [Tensor] on its result, a fresh [TensorWrapper] is bound to what
    [Tensor] returned, and the receiver is then rebound to the same
    value. *)
Theorem reset_with_raw_data (self : loc) (o : wobj) (t : Tensor) (other : pyobj)
    (s : state) (raw tn : pyobj) (h1 h2 : list wobj) (o1 o2 : wobj) :
  heap s !! self = Some o -> w_class o = TensorWrapper ->
  w_wrapped o = Some (PTensor t) ->
  raw_data other ->
  let n := length (heap s) in
  let c1 := CAsRawTensor other (PDtype (a_dtype (t_numpy t))) (PDevice (t_device t)) in
  ext c1 (heap s ++ [blank]) = (inr raw, h1) ->
  ext (CTensor raw) h1 = (inr tn, h2) ->
  h2 !! n = Some o1 -> h2 !! self = Some o2 ->
  _reset self other s =
  (inr PNone,
   {| heap := <[self := {| w_class := w_class o2; w_wrapped := Some tn |}]>
                (<[n := {| w_class := w_class o1; w_wrapped := Some tn |}]> h2);
      trace := trace s ++ [ EvNew n TensorWrapper; EvCall c1; EvCall (CTensor raw);
                            EvStore n tn; EvStore self tn ] |}).
Proof.
  intros Hs Hc Hw Hraw n c1 E1 E2 Hn Hself. subst n c1.
  assert (Hb : bound s self t) by (exists o; auto).
  assert (Hlt : (self < length (heap s))%nat) by (by eapply lookup_lt_Some).
  assert (Hn2 : (length (heap s) < length h2)%nat) by (by eapply lookup_lt_Some).
  unfold _reset. rewrite bind_run, (obj_at_run _ _ _ Hs), Hc.
  assert (Hbody : forall k : pyobj -> M pyobj,
            (dt ← get_dtype (PRef self); dev ← get_device (PRef self);
             w ← TensorWrapper_new other (PDtype dt) (PDevice dev); k w) s
            = (w ← TensorWrapper_new other (PDtype (a_dtype (t_numpy t)))
                     (PDevice (t_device t)); k w) s).
  { intros k. rewrite (bind_ok _ _ _ _ _ (get_dtype_bound _ _ _ Hb)).
    rewrite (bind_ok _ _ _ _ _ (get_device_bound _ _ _ Hb)). reflexivity. }
  transitivity
    ((w ← TensorWrapper_new other (PDtype (a_dtype (t_numpy t))) (PDevice (t_device t));
      TensorWrapper__reset 0 self w;; mret PNone) s).
  { destruct other; try contradiction; exact (Hbody _). }
  rewrite (bind_ok _ _ _ _ _ (new_from_raw _ _ _ _ _ _ _ _ _ Hraw E1 E2 Hn)).
  simpl TensorWrapper__reset.
  set (h3 := <[length (heap s) := {| w_class := w_class o1; w_wrapped := Some tn |}]> h2).
  assert (Hn3 : h3 !! length (heap s)
                = Some {| w_class := w_class o1; w_wrapped := Some tn |})
    by (apply list_lookup_insert_eq; exact Hn2).
  assert (Hs3 : h3 !! self = Some o2)
    by (unfold h3; rewrite list_lookup_insert_ne by lia; exact Hself).
  rewrite bind_run, bind_run.
  rewrite (get_wrapped_run _ _ tn {| heap := h3; trace := _ |} Hn3 eq_refl), bind_run.
  rewrite (set_wrapped_run _ _ _ {| heap := h3; trace := _ |} Hs3).
  cbn. rewrite <- !app_assoc. reflexivity.
Qed.

(** X16.  Rebinding a [TensorWrapper] to [None] fails with the
    constructor's [AssertionError] and leaves every existing wrapper as it
    was: the only change to the heap is the instance that was allocated
    and never bound, and no collaborator is called. *)
Theorem reset_with_None_keeps_binding (self : loc) (o : wobj) (t : Tensor)
    (s : state) :
  heap s !! self = Some o -> w_class o = TensorWrapper ->
  w_wrapped o = Some (PTensor t) ->
  _reset self PNone s =
  (inl (AssertionError (Some "Cannot init a tensor with data as None")),
   {| heap := heap s ++ [blank];
      trace := trace s ++ [EvNew (length (heap s)) TensorWrapper] |})
  /\ (forall l, (l < length (heap s))%nat ->
        heap (_reset self PNone s).2 !! l = heap s !! l).
Proof.
  intros Hs Hc Hw.
  assert (Hb : bound s self t) by (exists o; auto).
  assert (Hrun : _reset self PNone s =
                 (inl (AssertionError (Some "Cannot init a tensor with data as None")),
                  {| heap := heap s ++ [blank];
                     trace := trace s ++ [EvNew (length (heap s)) TensorWrapper] |})).
  { unfold _reset. rewrite bind_run, (obj_at_run _ _ _ Hs), Hc. simpl.
    rewrite (bind_ok _ _ _ _ _ (get_dtype_bound _ _ _ Hb)).
    rewrite (bind_ok _ _ _ _ _ (get_device_bound _ _ _ Hb)). reflexivity. }
  split; [exact Hrun |]. intros l Hl. rewrite Hrun. cbn [snd heap].
  by apply lookup_app_l.
Qed.

(** ** Construction from tensors *)

(** X17.  A [TensorWrapper] built from a primitive tensor adopts it as it
    is: the new instance is bound to that very tensor and no collaborator
    is called; and for a primitive tensor or a wrapper as data the [dtype]
    and [device] arguments are ignored. *)
Theorem construct_adopts_tensor (t : Tensor) (dtype device dtype' device' : pyobj)
    (s : state) :
  TensorWrapper_new (PTensor t) dtype device s =
  (inr (PRef (length (heap s))),
   {| heap := heap s ++ [wrap t];
      trace := trace s ++ [ EvNew (length (heap s)) TensorWrapper;
                            EvStore (length (heap s)) (PTensor t) ] |})
  /\ TensorWrapper_new (PTensor t) dtype device s
     = TensorWrapper_new (PTensor t) dtype' device' s
  /\ (forall l, TensorWrapper_new (PRef l) dtype device s
                = TensorWrapper_new (PRef l) dtype' device' s).
Proof.
  split; [| split; [reflexivity | intros l; reflexivity]].
  unfold TensorWrapper_new, TensorWrapper__init__, GenericTensorWrapper__init__.
  rewrite bind_run, new_object_run, !bind_run. unfold mret at 1, M_ret at 1.
  rewrite set_wrapped_last. simpl. rewrite <- app_assoc. reflexivity.
Qed.

(** ** Attribute forwarding through nested wrappers *)

(** X18.  A [GenericTensorWrapper] stores what it is given, so it may wrap
    another wrapper; its [shape], [dtype], [device] and [numpy()] are then
    those of the tensor at the end of the chain.  When it wraps [None]
    instead, each of them raises [AttributeError]. *)
Theorem nested_wrapper_forwards (g : loc) (og : wobj) (s : state) :
  heap s !! g = Some og ->
  (forall w t,
     w_wrapped og = Some (PRef w) -> bound s w t ->
     get_shape (PRef g) s = (inr (a_shape (t_numpy t)), s)
     /\ get_dtype (PRef g) s = (inr (a_dtype (t_numpy t)), s)
     /\ get_device (PRef g) s = (inr (t_device t), s)
     /\ numpy (PRef g) s = (inr (t_numpy t), s))
  /\ (w_wrapped og = Some PNone ->
      get_shape (PRef g) s = (inl (AttributeError "shape"), s)
      /\ get_dtype (PRef g) s = (inl (AttributeError "dtype"), s)
      /\ get_device (PRef g) s = (inl (AttributeError "device"), s)
      /\ numpy (PRef g) s = (inl (AttributeError "numpy"), s)).
Proof.
  intros Hg.
  assert (Hlen : exists k, length (heap s) = S k).
  { apply lookup_lt_Some in Hg. destruct (length (heap s)); [lia | eauto]. }
  destruct Hlen as (k & Hk). split.
  - intros w t Hw (o' & Ho' & Hw').
    assert (Ht : forall name, target name (PRef g) s = (inr (inl t), s)).
    { intros name. unfold target. rewrite Hk. simpl.
      rewrite Hg, Hw, Ho', Hw', fwd_target_tensor. reflexivity. }
    unfold get_shape, get_dtype, get_device, numpy.
    rewrite !bind_run, !Ht. auto.
  - intros Hw.
    assert (Ht : forall name, target name (PRef g) s = (inl (AttributeError name), s)).
    { intros name. unfold target. rewrite Hk. simpl. rewrite Hg, Hw. reflexivity. }
    unfold get_shape, get_dtype, get_device, numpy.
    rewrite !bind_run, !Ht. auto.
Qed.

(** ** [size] *)

(** X19.  For a wrapper bound to a well-formed tensor, [size] is the
    number of elements the tensor holds: the int product of the extents
    for a shape that is not empty, and the float 1.0 for the empty shape
    of a rank-0 tensor, which holds one element. *)
Theorem size_counts_elements (self : loc) (t : Tensor) (s : state) :
  bound s self t -> tensor_wf t ->
  (a_shape (t_numpy t) <> [] ->
   size self s = (inr (SInt (Z.of_nat (length (a_data (t_numpy t))))), s))
  /\ (a_shape (t_numpy t) = [] ->
      size self s = (inr (SFloat (float_of_Z 1)), s)
      /\ length (a_data (t_numpy t)) = 1%nat).
Proof.
  intros Hb [Hp Hlt]. unfold size.
  rewrite (bind_ok _ _ _ _ _ (get_shape_bound _ _ _ Hb)).
  split; intros Hshape.
  - destruct (a_shape (t_numpy t)) as [| d rest] eqn:E; [contradiction |].
    unfold np_prod_item. rewrite wrap_int64_small by lia. rewrite Hp. reflexivity.
  - rewrite Hshape in *. simpl in Hp. split; [reflexivity | lia].
Qed.

(** ** Iteration *)

Lemma builtin_len_bound (self : loc) (t : Tensor) (s : state) :
  bound s self t ->
  builtin_len self s =
  match a_shape (t_numpy t) with
  | [] => (inl (TypeError "ndim is 0"), s)
  | d :: _ =>
      if d <? 0 then (inl (ValueError "__len__() should return >= 0"), s)
      else if 2 ^ 63 <=? d
           then (inl (OverflowError "cannot fit 'int' into an index-sized integer"), s)
           else (inr (Z.to_nat d), s)
  end.
Proof.
  intros Hb. unfold builtin_len, __len__.
  rewrite bind_run, bind_run, (get_shape_bound _ _ _ Hb).
  destruct (a_shape (t_numpy t)) as [| d rest]; [reflexivity |]. simpl.
  destruct (d <? 0); [reflexivity |]. destruct (2 ^ 63 <=? d); reflexivity.
Qed.

Lemma yield_from_trace (self : loc) (n : nat) :
  forall i s,
    exists k,
      (k <= n)%nat
      /\ trace (yield_from self i n s).2
         = trace s ++ map (getitem_event self) (seq i k)
      /\ (forall vs, (yield_from self i n s).1 = inr vs ->
            k = n /\ length vs = n).
Proof.
  induction n as [| n IH]; intros i s.
  - exists 0%nat. simpl. rewrite app_nil_r.
    split; [lia |]. split; [reflexivity |]. intros vs [= <-]. auto.
  - simpl. unfold __getitem__. rewrite bind_run.
    set (c := CGetitem (PRef self) (PScalar (SInt (Z.of_nat i)))).
    pose proof (call_ext_state c s) as Hst.
    destruct (call_ext c s) as [[e | v] s1]; simpl in Hst; subst s1.
    + exists 1%nat. simpl. split; [lia |]. split; [reflexivity |].
      intros vs H. discriminate.
    + destruct (IH (S i) (call_step s c)) as (k & Hk & Ht & Hok).
      exists (S k). rewrite bind_run.
      destruct (yield_from self (S i) n (call_step s c)) as [[e | vs] s2];
        simpl in *.
      * split; [lia |]. split; [| intros ? H; discriminate].
        rewrite Ht, <- app_assoc. reflexivity.
      * destruct (Hok vs eq_refl) as [-> Hl].
        split; [lia |]. split.
        -- rewrite Ht, <- app_assoc. reflexivity.
        -- intros ws [= <-]. simpl. auto.
Qed.

(** X20.  Running the iterator of a wrapper to its end: for a rank-0
    tensor it raises [TypeError("ndim is 0")] before any call; for a
    tensor whose first extent is [d] the only effect is a run of calls
    [getitem(self, 0)], [getitem(self, 1)], ... in this order, which stops
    at the first call that fails; when the iteration returns it has made
    exactly [d] such calls and yields [d] values. *)
Theorem iteration_indexes_in_order (self : loc) (t : Tensor) (s : state) :
  bound s self t ->
  (a_shape (t_numpy t) = [] ->
   list_of_iter self s = (inl (TypeError "ndim is 0"), s))
  /\ (forall d rest,
        a_shape (t_numpy t) = d :: rest -> 0 <= d < 2 ^ 63 ->
        (exists k,
           (k <= Z.to_nat d)%nat
           /\ since s (list_of_iter self s).2
              = map (getitem_event self) (seq 0 k))
        /\ (forall vs s',
              list_of_iter self s = (inr vs, s') ->
              length vs = Z.to_nat d
              /\ since s s' = map (getitem_event self) (seq 0 (Z.to_nat d)))).
Proof.
  intros Hb. unfold list_of_iter. split.
  - intros Hshape. rewrite bind_run, (builtin_len_bound _ _ _ Hb), Hshape.
    reflexivity.
  - intros d rest Hshape Hd.
    assert (Hlen : builtin_len self s = (inr (Z.to_nat d), s)).
    { rewrite (builtin_len_bound _ _ _ Hb), Hshape.
      assert ((d <? 0) = false) as -> by (apply Z.ltb_ge; lia).
      assert ((2 ^ 63 <=? d) = false) as -> by (apply Z.leb_gt; lia).
      reflexivity. }
    rewrite (bind_ok _ _ _ _ _ Hlen).
    destruct (yield_from_trace self (Z.to_nat d) 0 s) as (k & Hk & Ht & Hok).
    split.
    + exists k. split; [exact Hk |]. by apply since_eq.
    + intros vs s' Hrun. rewrite Hrun in Ht, Hok. simpl in Ht.
      destruct (Hok vs eq_refl) as [-> Hl].
      split; [exact Hl |]. by apply since_eq.
Qed.

(** ** [item] with an index *)

(** X21.  [x.item(i, ...)] indexes first and converts afterwards: it
    calls [getitem(x, (i, ...))] with the arguments as one tuple, and the
    one-element check is made on the wrapper that call returns, not on
    [x]: the call returns that wrapper's single element, and raises the
    bare [AssertionError] when it does not hold exactly one element; a
    failure of [getitem] is the failure of [item]. *)
Theorem item_with_index (self : loc) (args : list pyobj) (s : state) :
  args <> [] ->
  let c := CGetitem (PRef self) (PTuple args) in
  (forall l h1 t,
     ext c (heap s) = (inr (PRef l), h1) ->
     let s1 := {| heap := h1; trace := trace s ++ [EvCall c] |} in
     bound s1 l t -> tensor_wf t ->
     (forall v, a_data (t_numpy t) = [v] -> item self args s = (inr v, s1))
     /\ (length (a_data (t_numpy t)) <> 1%nat ->
         item self args s = (inl (AssertionError None), s1)))
  /\ (forall info h1,
        ext c (heap s) = (inl info, h1) ->
        item self args s =
        (inl (CollaboratorError info),
         {| heap := h1; trace := trace s ++ [EvCall c] |})).
Proof.
  intros Hargs c. subst c.
  assert (Hitem : item self args s =
            (r ← call_ext (CGetitem (PRef self) (PTuple args));
             match r with
             | PRef l => item_noargs l
             | PArray a => lift (ndarray_item a)
             | _ => raise (AttributeError "item")
             end) s).
  { destruct args; [contradiction | reflexivity]. }
  split.
  - intros l h1 t E s1 Hb Hwf. rewrite Hitem.
    rewrite (bind_ok _ _ _ _ _ (call_ext_run _ _ _ _ E)). fold s1.
    split.
    + intros v Hd. exact (item_scalar l s1 t v Hb Hwf Hd).
    + intros Hn. exact (item_not_scalar l s1 t Hb Hwf Hn).
  - intros info h1 E. rewrite Hitem.
    apply bind_err. by apply call_ext_err.
Qed.

(** ** In-place operators: the other outcomes *)

Lemma inplace_logical_table_shape (mode : string) (op : loc -> pyobj -> M pyobj) :
  In (mode, op) inplace_logical_table ->
  op = _inplace (_logical_binary_elwise mode false).
Proof.
  simpl. intros H.
  repeat (destruct H as [H | H]; [by inversion H |]). contradiction.
Qed.

(** X22.  [&=], [|=] and [^=] inherit the guard of the operator they are
    built from: when the receiver is not boolean, or the other operand
    exposes a dtype that is not boolean, the in-place operator raises the
    guard's [TypeError] and the whole state, the binding of the receiver
    included, is as before. *)
Theorem inplace_logical_rejects_non_bool (mode : string)
    (op : loc -> pyobj -> M pyobj) (self : loc) (value : pyobj) (s : state)
    (d : string) :
  In (mode, op) inplace_logical_table ->
  dtype_of s (PRef self) = inr d ->
  d <> np_bool_ \/ (exists d', dtype_of s value = inr d' /\ d' <> np_bool_) ->
  op self value s = (inl (TypeError (mode +:+ " requires 2 bool tensors")), s).
Proof.
  intros Hin Hd Hbad. rewrite (inplace_logical_table_shape _ _ Hin).
  rewrite inplace_run, logical_binary_run, logical_guard_run, Hd.
  destruct (dtype_ne_bool d) eqn:E; [reflexivity |].
  apply dtype_ne_bool_false in E. subst d.
  destruct Hbad as [Hbad | (d' & Hd' & Hbad)]; [contradiction |].
  rewrite Hd'. apply dtype_ne_bool_true in Hbad. rewrite Hbad. reflexivity.
Qed.

(** X23.  When the operator an in-place operator is built from returns a
    primitive tensor instead of a wrapper, the outcome depends on the
    class of the receiver: a [TensorWrapper] is rebound to that tensor and
    returned; a [GenericTensorWrapper] raises [TypeError] and keeps its
    binding, the state being the one the base operator left. *)
Theorem inplace_with_tensor_result (f g : loc -> pyobj -> M pyobj) (self : loc)
    (value : pyobj) (s s' : state) (t : Tensor) (o : wobj) :
  In (f, g) inplace_table ->
  f self value s = (inr (PTensor t), s') ->
  heap s' !! self = Some o ->
  (w_class o = TensorWrapper ->
   g self value s =
   (inr (PRef self),
    {| heap := <[self := {| w_class := TensorWrapper;
                            w_wrapped := Some (PTensor t) |}]> (heap s');
       trace := trace s' ++ [EvStore self (PTensor t)] |}))
  /\ (w_class o = GenericTensorWrapper ->
      g self value s = (inl (TypeError (type_name (PTensor t))), s')).
Proof.
  intros Hin Hf Hs. destruct (inplace_table_shape _ _ Hin) as [-> _].
  rewrite inplace_run, Hf.
  split; intros Hc.
  - rewrite bind_run, (reset_adopts_tensor _ _ t _ Hs Hc). reflexivity.
  - rewrite bind_run, (reset_generic_rejects _ _ (PTensor t) _ Hs Hc I). reflexivity.
Qed.

End Dispatch.

(** * Concrete runs on the reference engine *)

Lemma sample_bound (l : nat) (t : Tensor) :
  sample_heap !! l = Some (wrap t) -> bound sample_state l t.
Proof. intros H. exists (wrap t). split; [exact H | reflexivity]. Qed.

Example scalar_probe :
  float_of_Z 1 = S754_finite false 4503599627370496 (-52)
  /\ scalar_eq_one (np_prod_item []) = true
  /\ scalar_int (SFloat (float_of_Z (-7))) = inr (-7)
  /\ reshape_scan 0 [2; -1; 3] None = inr (Some 1%nat)
  /\ reshape_scan 0 [-1; -1; -5] None = inl (ValueError "multiple -1 in shape: 0 & 1")
  /\ reshape_scan 0 [4; -5] None = inl (ValueError "expect shape[1] >= -1, got -5").
Proof. repeat split; vm_compute; reflexivity. Qed.



(** [a != b] on the reference engine: the pair (8, 9) against itself. *)
Example ne_on_equal_tensors :
  (__ne__ ref_ext 6%nat (PRef 6%nat) sample_state).1 = inr (PRef 10%nat)
  /\ underlying (heap (__ne__ ref_ext 6%nat (PRef 6%nat) sample_state).2) (PRef 10%nat)
     = Some {| t_id := 10; t_device := "cpu0";
               t_numpy := {| a_shape := [2]; a_dtype := "bool";
                             a_data := [SBool false; SBool false] |} |}
  /\ applied (since sample_state (__ne__ ref_ext 6%nat (PRef 6%nat) sample_state).2)
     = [Elemwise "EQ"; Elemwise "NOT"].
Proof. repeat split; vm_compute; reflexivity. Qed.

(** [a > b] and [a >= b] on the reference engine. *)
Example gt_on_reference_engine :
  applied (since sample_state (__gt__ ref_ext 1%nat (PRef 6%nat) sample_state).2)
  = [Elemwise "LT"]
  /\ calls_of (since sample_state (__ge__ ref_ext 1%nat (PRef 6%nat) sample_state).2)
     = [ CConvertInputs [PRef 6%nat; PRef 1%nat];
         CApply (Elemwise "LEQ") [PRef 6%nat; PRef 1%nat];
         CAstype (PRef 8%nat) "bool" ].
Proof. split; vm_compute; reflexivity. Qed.

(** Witness of C2: the pair (8, 9) against the pair (8, 7).  [==] holds
    (True, False) and [!=] holds (False, True), the [NOT] of the wrapper
    at 10 that [astype] returned. *)
Lemma ne_is_not_of_eq_witness :
  (__eq__ ref_ext 6%nat (PRef 8%nat) rival_state).1 = inr (PRef 10%nat)
  /\ (__ne__ ref_ext 6%nat (PRef 8%nat) rival_state).1 = inr (PRef 11%nat)
  /\ contents (heap (__ne__ ref_ext 6%nat (PRef 8%nat) rival_state).2) (PRef 10%nat)
     = Some {| a_shape := [2]; a_dtype := "bool";
               a_data := [SBool true; SBool false] |}
  /\ contents (heap (__ne__ ref_ext 6%nat (PRef 8%nat) rival_state).2) (PRef 11%nat)
     = Some {| a_shape := [2]; a_dtype := "bool";
               a_data := [SBool false; SBool true] |}
  /\ calls_of (since rival_state (__ne__ ref_ext 6%nat (PRef 8%nat) rival_state).2)
     = [ CConvertInputs [PRef 6%nat; PRef 8%nat];
         CApply (Elemwise "EQ") [PRef 6%nat; PRef 8%nat];
         CAstype (PRef 9%nat) "bool";
         CConvertInputs [PRef 10%nat];
         CApply (Elemwise "NOT") [PRef 10%nat] ].
Proof.
  destruct (ne_is_not_of_eq ref_ext 6%nat (PRef 8%nat) rival_state) as (Hrun & _).
  edestruct Hrun as [Heq Hne]; [reflexivity .. |].
  rewrite Heq, Hne. repeat split; vm_compute; reflexivity.
Defined.

(** Witness of C10: the pair (8, 9) against the pair (8, 7).  [a > b]
    applies [LT] to (b, a) and holds (False, True); [a >= b] applies [LEQ]
    to (b, a) and holds (True, True). *)
Lemma gt_ge_swap_operands_witness :
  In ("LT", true, __gt__ ref_ext) (comparison_table ref_ext)
  /\ In ("LEQ", true, __ge__ ref_ext) (comparison_table ref_ext)
  /\ (__gt__ ref_ext 6%nat (PRef 8%nat) rival_state).1 = inr (PRef 10%nat)
  /\ contents (heap (__gt__ ref_ext 6%nat (PRef 8%nat) rival_state).2) (PRef 10%nat)
     = Some {| a_shape := [2]; a_dtype := "bool";
               a_data := [SBool false; SBool true] |}
  /\ calls_of (since rival_state (__gt__ ref_ext 6%nat (PRef 8%nat) rival_state).2)
     = [ CConvertInputs [PRef 8%nat; PRef 6%nat];
         CApply (Elemwise "LT") [PRef 8%nat; PRef 6%nat];
         CAstype (PRef 9%nat) "bool" ]
  /\ contents (heap (__ge__ ref_ext 6%nat (PRef 8%nat) rival_state).2) (PRef 10%nat)
     = Some {| a_shape := [2]; a_dtype := "bool";
               a_data := [SBool true; SBool true] |}
  /\ calls_of (since rival_state (__ge__ ref_ext 6%nat (PRef 8%nat) rival_state).2)
     = [ CConvertInputs [PRef 8%nat; PRef 6%nat];
         CApply (Elemwise "LEQ") [PRef 8%nat; PRef 6%nat];
         CAstype (PRef 9%nat) "bool" ].
Proof.
  assert (Hgt : In ("LT", true, __gt__ ref_ext) (comparison_table ref_ext))
    by (do 2 right; left; reflexivity).
  assert (Hge : In ("LEQ", true, __ge__ ref_ext) (comparison_table ref_ext))
    by (do 3 right; left; reflexivity).
  split; [exact Hgt |]. split; [exact Hge |].
  destruct (gt_ge_swap_operands ref_ext 6%nat 8%nat rival_state) as (_ & _ & Hcmp).
  destruct (Hcmp _ _ _ (PRef 8%nat) Hgt) as (Hrun & _).
  destruct (Hcmp _ _ _ (PRef 8%nat) Hge) as (Hrun' & _).
  erewrite Hrun by reflexivity. erewrite Hrun' by reflexivity.
  repeat split; vm_compute; reflexivity.
Defined.

(** The copying engine answers by contents. *)
Lemma underlying_fresh (h : list wobj) (t : Tensor) :
  underlying (h ++ [{| w_class := TensorWrapper; w_wrapped := Some (PTensor t) |}])
             (PRef (length h)) = Some t.
Proof.
  unfold underlying. cbn [fwd_target].
  rewrite (list_lookup_middle h [] _ (length h) eq_refl). cbn [w_wrapped].
  rewrite fwd_target_tensor. reflexivity.
Qed.

Lemma copying_convert_by_contents :
  by_contents copying_ext (fun v => CConvertInputs [v]).
Proof.
  intros h v h' v' r k Heq Hsome E. inversion E; subst r k.
  exists v', h'. split; [reflexivity |]. split; [symmetry; exact Heq | exact Hsome].
Qed.

Lemma copying_sum_by_contents :
  by_contents copying_ext (fun v => CApply (Reduce "SUM" 0) [v]).
Proof.
  intros h v h' v' r k Heq Hsome E.
  change (match underlying h v with
          | Some t =>
              fresh_wrapper h (t_device t)
                {| a_shape := []; a_dtype := a_dtype (t_numpy t);
                   a_data := [foldr add_scalar (SInt 0) (a_data (t_numpy t))] |}
          | None => (inl "Reduce expects a tensor", h)
          end = (inr (PTuple [r]), k)) in E.
  unfold contents in Heq, Hsome.
  destruct (underlying h v) as [t |] eqn:Ht; [| discriminate].
  destruct (underlying h' v') as [t' |] eqn:Ht'; [| discriminate].
  injection Heq as Heq. unfold fresh_wrapper in E. inversion E; subst r k.
  eexists (PRef (length h')), _. split.
  { change (copying_ext (CApply (Reduce "SUM" 0) [v']) h')
      with (match underlying h' v' with
            | Some t =>
                fresh_wrapper h' (t_device t)
                  {| a_shape := []; a_dtype := a_dtype (t_numpy t);
                     a_data := [foldr add_scalar (SInt 0) (a_data (t_numpy t))] |}
            | None => (inl "Reduce expects a tensor", h')
            end).
    rewrite Ht'. reflexivity. }
  unfold contents. rewrite !underlying_fresh. cbn [fmap option_fmap option_map t_numpy].
  rewrite Heq. split; [reflexivity | discriminate].
Qed.

(** Witness of C3: [x.sum()] and [x.flatten().sum()] on the (2, 2) tensor
    holding 1, 2, 3, 4, on the engine whose [Reshape] always copies.  The
    two results are different wrappers, at 9 and at 10, and both hold the
    rank-0 value 10. *)
Lemma reduce_without_axis_flattens_witness :
  In ("SUM", sum copying_ext) (reduce_table copying_ext)
  /\ (sum copying_ext 0%nat None sample_state).1 = inr (PRef 9%nat)
  /\ ((y ← flatten copying_ext 0%nat; method_reduce copying_ext "SUM" y)
        sample_state).1 = inr (PRef 10%nat)
  /\ contents (heap (sum copying_ext 0%nat None sample_state).2) (PRef 9%nat)
     = Some {| a_shape := []; a_dtype := "int32"; a_data := [SInt 10] |}
  /\ contents
       (heap ((y ← flatten copying_ext 0%nat; method_reduce copying_ext "SUM" y)
                sample_state).2) (PRef 10%nat)
     = Some {| a_shape := []; a_dtype := "int32"; a_data := [SInt 10] |}.
Proof.
  assert (Hin : In ("SUM", sum copying_ext) (reduce_table copying_ext))
    by (left; reflexivity).
  split; [exact Hin |].
  destruct (reduce_without_axis_flattens copying_ext "SUM" (sum copying_ext) 0%nat
              sample_state Hin) as (_ & _ & _ & _ & Hrun & Hsame).
  assert (Hsum : exists st,
             sum copying_ext 0%nat None sample_state = (inr (PRef 9%nat), st)
             /\ contents (heap st) (PRef 9%nat)
                = Some {| a_shape := []; a_dtype := "int32"; a_data := [SInt 10] |}).
  { eexists. split.
    - eapply (Hrun t_square); [apply sample_bound; reflexivity | reflexivity ..].
    - vm_compute. reflexivity. }
  destruct Hsum as (st & Hsum & Hten).
  destruct (Hsame 8%nat (flatten copying_ext 0%nat sample_state).2
              9%nat (flatten copying_ext 8%nat
                       (flatten copying_ext 0%nat sample_state).2).2)
    as [Hto _];
    [ vm_compute; reflexivity | vm_compute; reflexivity | vm_compute; reflexivity
    | vm_compute; discriminate
    | apply copying_convert_by_contents | apply copying_sum_by_contents | ].
  destruct (Hto _ _ Hsum) as (r' & st' & Hrun' & Heq & _).
  rewrite Hsum, Hrun'. cbn [fst snd].
  split; [reflexivity |].
  assert (Hr : r' = PRef 10%nat).
  { vm_compute in Hrun'. by inversion Hrun'. }
  subst r'. split; [reflexivity |]. split; [exact Hten |].
  rewrite Heq. exact Hten.
Defined.

(** Witness of C4: [x += x] on the flat tensor holding 10, 20, 30, 40. *)
Lemma inplace_rebinds_after_compute_witness :
  In (__add__ ref_ext, __iadd__ ref_ext) (inplace_table ref_ext)
  /\ (__iadd__ ref_ext 1%nat (PRef 1%nat) sample_state).1 = inr (PRef 1%nat)
  /\ (a_data ∘ t_numpy <$>
        underlying (heap (__iadd__ ref_ext 1%nat (PRef 1%nat) sample_state).2)
                   (PRef 1%nat))
     = Some [SInt 20; SInt 40; SInt 60; SInt 80]
  /\ stores_of (since sample_state
                  (__iadd__ ref_ext 1%nat (PRef 1%nat) sample_state).2)
     = [(1%nat, PTensor {| t_id := 8; t_device := "cpu0";
                           t_numpy := {| a_shape := [4]; a_dtype := "int32";
                                         a_data := [SInt 20; SInt 40; SInt 60; SInt 80] |} |})].
Proof.
  assert (Hin : In (__add__ ref_ext, __iadd__ ref_ext) (inplace_table ref_ext))
    by (left; reflexivity).
  split; [exact Hin |].
  destruct (inplace_rebinds_after_compute ref_ext _ _ 1%nat (PRef 1%nat)
              sample_state Hin) as (_ & _ & Hrun).
  destruct (__add__ ref_ext 1%nat (PRef 1%nat) sample_state) as [[e | r] s'] eqn:E;
    vm_compute in E; inversion E; subst r s'; clear E.
  rewrite (Hrun (wrap t_flat)
             {| w_class := TensorWrapper;
                w_wrapped := Some (PTensor {| t_id := 8; t_device := "cpu0";
                  t_numpy := {| a_shape := [4]; a_dtype := "int32";
                                a_data := [SInt 20; SInt 40; SInt 60; SInt 80] |} |}) |}
             _ eq_refl eq_refl eq_refl).
  repeat split; vm_compute; reflexivity.
Defined.

(** An in-place operator whose base operator is not supported by the
    engine fails, and the slot keeps its tensor. *)
Example inplace_failure_keeps_slot :
  (__imod__ ref_ext 1%nat (PRef 1%nat) sample_state).1
  = inl (CollaboratorError "unsupported elementwise call")
  /\ heap (__imod__ ref_ext 1%nat (PRef 1%nat) sample_state).2 = sample_heap.
Proof. split; vm_compute; reflexivity. Qed.

(** Witness of X24: an int32 receiver with a boolean operand, through
    [__and__] and through [__invert__], and a boolean receiver with an
    int32 operand through [__rxor__]. *)
Lemma logical_ops_reject_non_bool_witness :
  __and__ ref_ext 2%nat (PRef 5%nat) sample_state =
  (inl (TypeError "AND requires 2 bool tensors"), sample_state)
  /\ __rxor__ ref_ext 5%nat (PRef 2%nat) sample_state =
     (inl (TypeError "XOR requires 2 bool tensors"), sample_state)
  /\ __invert__ ref_ext 2%nat sample_state =
     (inl (TypeError "NOT requires a bool tensor"), sample_state).
Proof.
  destruct (logical_ops_reject_non_bool ref_ext 2%nat sample_state) as [Hbin Hinv].
  destruct (logical_ops_reject_non_bool ref_ext 5%nat sample_state) as [Hbin' _].
  split; [| split].
  - destruct (Hbin "AND" (__and__ ref_ext) (PRef 5%nat)) as (_ & H & _).
    + left. reflexivity.
    + left. vm_compute. discriminate.
    + apply (H "int32"); [reflexivity | discriminate].
  - destruct (Hbin' "XOR" (__rxor__ ref_ext) (PRef 2%nat)) as (_ & _ & H).
    + do 5 right. left. reflexivity.
    + right. vm_compute. discriminate.
    + apply (H "bool" "int32"); reflexivity.
  - apply (Hinv "int32"); [reflexivity | discriminate].
Defined.

(** C5.  The guard of the logical operators at an operand that exposes
    no dtype: for the boolean receiver at 5 and the Python int 1, which
    carries no boolean element type, [x & 1] does not raise the guard's
    [TypeError("AND requires 2 bool tensors")]; reading [value.dtype]
    raises [AttributeError] before the guard can answer, and so for [|],
    [^] and the reversed variants.  Nothing is called and the state is
    left as it was.  Against the int32 tensor at 2 the same guard does
    raise its [TypeError]. *)
Lemma logical_and_with_python_int :
  dtype_of sample_state (PRef 5%nat) = inr np_bool_
  /\ dtype_of sample_state (PScalar (SInt 1)) <> inr np_bool_
  /\ __and__ ref_ext 5%nat (PScalar (SInt 1)) sample_state =
     (inl (AttributeError "dtype"), sample_state)
  /\ (forall msg, AttributeError "dtype" <> TypeError msg)
  /\ __or__ ref_ext 5%nat (PScalar (SInt 1)) sample_state =
     (inl (AttributeError "dtype"), sample_state)
  /\ __xor__ ref_ext 5%nat (PScalar (SInt 1)) sample_state =
     (inl (AttributeError "dtype"), sample_state)
  /\ __rand__ ref_ext 5%nat (PScalar (SInt 1)) sample_state =
     (inl (AttributeError "dtype"), sample_state)
  /\ __ror__ ref_ext 5%nat (PScalar (SInt 1)) sample_state =
     (inl (AttributeError "dtype"), sample_state)
  /\ __rxor__ ref_ext 5%nat (PScalar (SInt 1)) sample_state =
     (inl (AttributeError "dtype"), sample_state)
  /\ __and__ ref_ext 5%nat (PRef 2%nat) sample_state =
     (inl (TypeError "AND requires 2 bool tensors"), sample_state).
Proof.
  split; [reflexivity |]. split; [vm_compute; discriminate |].
  split; [reflexivity |]. split; [discriminate |].
  repeat split; reflexivity.
Qed.

(** The sentinel branch of the in-place operators: [NotImplementedError],
    and the state is the one the base operator left, without any store. *)
Example inplace_not_implemented :
  __iadd__ declining_ext 1%nat (PRef 1%nat) sample_state =
  (inl NotImplementedError, (__add__ declining_ext 1%nat (PRef 1%nat) sample_state).2)
  /\ heap (__iadd__ declining_ext 1%nat (PRef 1%nat) sample_state).2 = sample_heap
  /\ stores_of (since sample_state
                  (__iadd__ declining_ext 1%nat (PRef 1%nat) sample_state).2) = [].
Proof. repeat split; vm_compute; reflexivity. Qed.

(** Witness of C6: [int(x)] for the tensor holding [5] with shape (1,),
    and for a tensor of shape (2,). *)
Lemma conversion_delegates_witness :
  __int__ ref_ext 2%nat sample_state = (inr (PScalar (SInt 5)), sample_state)
  /\ __int__ ref_ext 6%nat sample_state = (inl (AssertionError None), sample_state).
Proof.
  assert (Hin : In (__int__ ref_ext,
                    fun v => map_ok (fun i => PScalar (SInt i)) (scalar_int v))
                   (conversion_table ref_ext))
    by (do 2 right; left; reflexivity).
  split.
  - destruct (conversion_delegates ref_ext _ _ 2%nat sample_state t_five Hin)
      as (_ & Hone & _).
    + apply sample_bound. reflexivity.
    + split; vm_compute; reflexivity.
    + apply (Hone (SInt 5)). reflexivity.
  - destruct (conversion_delegates ref_ext _ _ 6%nat sample_state t_pair Hin)
      as (Hmany & _ & _).
    + apply sample_bound. reflexivity.
    + split; vm_compute; reflexivity.
    + apply Hmany. vm_compute. discriminate.
Defined.

(** Counterexample to C6 as stated: the float32 tensor of shape (1,)
    holding 5.0 holds exactly one element, yet [index] fails on it, through
    the native conversion and not through the scalar check. *)
Lemma index_fails_on_float_scalar :
  bound sample_state 3%nat t_five_float
  /\ tensor_wf t_five_float
  /\ length (a_data (t_numpy t_five_float)) = 1%nat
  /\ item ref_ext 3%nat [] sample_state = (inr (SFloat (float_of_Z 5)), sample_state)
  /\ __index__ ref_ext 3%nat sample_state =
     (inl (AttributeError "'float' object has no attribute '__index__'"), sample_state).
Proof.
  split; [apply sample_bound; reflexivity |].
  split; [split; vm_compute; reflexivity |].
  repeat split; vm_compute; reflexivity.
Qed.

(** The other conversions of that element succeed; [int] of a NaN does
    not. *)
Example conversions_of_float_scalar :
  (__bool__ ref_ext 3%nat sample_state).1 = inr (PScalar (SBool true))
  /\ (__int__ ref_ext 3%nat sample_state).1 = inr (PScalar (SInt 5))
  /\ (__float__ ref_ext 3%nat sample_state).1 = inr (PScalar (SFloat (float_of_Z 5)))
  /\ (__complex__ ref_ext 3%nat sample_state).1
     = inr (PComplex (float_of_Z 5) (S754_zero false))
  /\ scalar_int (SFloat S754_nan) = inl (ValueError "cannot convert float NaN to integer").
Proof. repeat split; vm_compute; reflexivity. Qed.

(** Witness of C7: [len] on shape (3, 4) and on shape (). *)
Lemma len_first_extent_witness :
  __len__ 7%nat sample_state = (inr (PScalar (SInt 3)), sample_state)
  /\ __len__ 4%nat sample_state = (inl (TypeError "ndim is 0"), sample_state).
Proof.
  split.
  - destruct (len_first_extent 7%nat sample_state t_matrix) as [Hd _].
    + apply sample_bound. reflexivity.
    + apply (Hd 3 [4]). reflexivity.
  - destruct (len_first_extent 4%nat sample_state t_scalar) as [_ Hz].
    + apply sample_bound. reflexivity.
    + apply Hz. reflexivity.
Defined.

(** Witness of C8: construction from a wrapper and from the Python int 3
    (from [None] the theorem has no premise). *)
Lemma construct_from_data_witness :
  TensorWrapper_new ref_ext (PRef 2%nat) PNone PNone sample_state =
  (inr (PRef 8%nat),
   {| heap := sample_heap ++ [wrap t_five];
      trace := [EvNew 8%nat TensorWrapper; EvStore 8%nat (PTensor t_five)] |})
  /\ (TensorWrapper_new ref_ext (PScalar (SInt 3)) PNone PNone sample_state).1
     = inr (PRef 8%nat)
  /\ calls_of (since sample_state
                 (TensorWrapper_new ref_ext (PScalar (SInt 3)) PNone PNone sample_state).2)
     = [ CAsRawTensor (PScalar (SInt 3)) PNone PNone;
         CTensor (PArray {| a_shape := []; a_dtype := "int32"; a_data := [SInt 3] |}) ]
  /\ (TensorWrapper_new ref_ext PNone PNone PNone sample_state).1
     = inl (AssertionError (Some "Cannot init a tensor with data as None")).
Proof.
  destruct (construct_from_data ref_ext PNone PNone sample_state)
    as (Hnone & Hwrapper & Hraw).
  split; [| split; [| split]].
  - apply (Hwrapper 2%nat (wrap t_five) (PTensor t_five)); reflexivity.
  - specialize (Hraw (PScalar (SInt 3)) I). vm_compute in Hraw.
    exact (f_equal fst (Hraw blank eq_refl)).
  - specialize (Hraw (PScalar (SInt 3)) I). vm_compute in Hraw.
    exact (f_equal (fun r => calls_of (since sample_state r.2))
                   (Hraw blank eq_refl)).
  - rewrite Hnone. reflexivity.
Defined.

(** * Concrete runs for the further properties *)

(** Witness of X1: [__radd__] on two wrappers of the sample heap. *)
Lemma binary_operator_is_one_primitive_witness :
  In ("ADD", true, __radd__ ref_ext) (binary_table ref_ext)
  /\ calls_of (since sample_state (__radd__ ref_ext 1%nat (PRef 6%nat) sample_state).2)
     = [ CConvertInputs [PRef 6%nat; PRef 1%nat];
         CApply (Elemwise "ADD") [PRef 6%nat; PRef 1%nat] ]
  /\ stores_of (since sample_state (__radd__ ref_ext 1%nat (PRef 6%nat) sample_state).2)
     = [].
Proof.
  assert (Hin : In ("ADD", true, __radd__ ref_ext) (binary_table ref_ext))
    by (do 9 right; left; reflexivity).
  split; [exact Hin |].
  destruct (binary_operator_is_one_primitive ref_ext _ _ _ 1%nat (PRef 6%nat)
              sample_state Hin) as (_ & Hstores & Hrun).
  split; [| exact Hstores].
  destruct (__radd__ ref_ext 1%nat (PRef 6%nat) sample_state) as [[e | r] s'] eqn:E;
    [vm_compute in E; discriminate |].
  destruct Hrun as (args' & h1 & E1 & _ & Hsince). cbn [snd]. rewrite Hsince.
  vm_compute in E1. inversion E1; subst. reflexivity.
Defined.

(** Witness of X2: [__rsub__] against [__sub__]. *)
Lemma reversed_operator_swaps_witness :
  __rsub__ ref_ext 6%nat (PRef 1%nat) sample_state
  = __sub__ ref_ext 1%nat (PRef 6%nat) sample_state.
Proof.
  apply (reversed_operator_swaps ref_ext "SUB").
  - do 1 right; left; reflexivity.
  - do 10 right; left; reflexivity.
Defined.

(** Witness of X3: [abs]. *)
Lemma unary_operator_is_one_primitive_witness :
  Forall (fun o => o = Elemwise "ABS")
         (applied (since sample_state (__abs__ ref_ext 1%nat sample_state).2))
  /\ stores_of (since sample_state (__abs__ ref_ext 1%nat sample_state).2) = [].
Proof.
  destruct (unary_operator_is_one_primitive ref_ext "ABS" (__abs__ ref_ext) 1%nat
              sample_state) as (Ha & Hs & _).
  - right; left; reflexivity.
  - split; assumption.
Defined.

(** Witness of X4: a [convert_inputs] that returns one value. *)
Lemma matmul_dispatch_witness :
  (exists msg, (__matmul__ single_operand_ext 0%nat (PRef 0%nat) sample_state).1
               = inl (ValueError msg))
  /\ applied (since sample_state
                (__matmul__ single_operand_ext 0%nat (PRef 0%nat) sample_state).2) = [].
Proof.
  destruct (matmul_dispatch single_operand_ext 0%nat 0%nat (PRef 0%nat) sample_state)
    as (_ & _ & _ & _ & Hshort).
  apply (Hshort [PRef 0%nat] sample_heap); [reflexivity | simpl; lia].
Defined.

(** Witness of X5: an [apply] that returns no output. *)
Lemma elwise_requires_single_output_witness :
  exists msg,
    _elwise empty_output_ext [PRef 1%nat; PRef 1%nat] "ADD" sample_state =
    (inl (ValueError msg),
     {| heap := sample_heap;
        trace := [ EvCall (CConvertInputs [PRef 1%nat; PRef 1%nat]);
                   EvCall (CApply (Elemwise "ADD") [PRef 1%nat; PRef 1%nat]) ] |}).
Proof.
  destruct (elwise_requires_single_output empty_output_ext
              [PRef 1%nat; PRef 1%nat] "ADD" sample_state) as [Hbad _].
  apply (Hbad [PRef 1%nat; PRef 1%nat] sample_heap [] sample_heap);
    [reflexivity | reflexivity | simpl; lia].
Defined.

(** Witness of X6: boolean operands. *)
Lemma logical_ops_pass_bool_witness :
  __ror__ ref_ext 5%nat (PRef 5%nat) sample_state
  = _elwise ref_ext [PRef 5%nat; PRef 5%nat] "OR" sample_state
  /\ (a_data ∘ t_numpy <$>
        underlying (heap (__invert__ ref_ext 5%nat sample_state).2) (PRef 8%nat))
     = Some [SBool false; SBool true].
Proof.
  destruct (logical_ops_pass_bool ref_ext 5%nat sample_state eq_refl) as [Hbin Hinv].
  split.
  - apply (Hbin "OR" true (__ror__ ref_ext) (PRef 5%nat));
      [do 4 right; left; reflexivity | reflexivity].
  - rewrite Hinv. vm_compute. reflexivity.
Defined.

(** Witness of X7: on the reference engine [==] returns a boolean wrapper;
    on the engine with the lax [astype] it does not. *)
Lemma ne_versus_invert_of_eq_witness :
  (r ← __eq__ ref_ext 6%nat (PRef 6%nat); method_invert ref_ext r) sample_state
  = __ne__ ref_ext 6%nat (PRef 6%nat) sample_state
  /\ ((r ← __eq__ lax_cast_ext 6%nat (PRef 6%nat); method_invert lax_cast_ext r)
        sample_state).1
     = inl (TypeError "NOT requires a bool tensor")
  /\ applied (since sample_state (__ne__ lax_cast_ext 6%nat (PRef 6%nat) sample_state).2)
     = [Elemwise "EQ"; Elemwise "NOT"].
Proof.
  split; [| split].
  - destruct (ne_versus_invert_of_eq ref_ext 6%nat (PRef 6%nat) sample_state
                (__eq__ ref_ext 6%nat (PRef 6%nat) sample_state).2 9%nat)
      as (_ & Hsame & _); [vm_compute; reflexivity |].
    apply Hsame. vm_compute. reflexivity.
  - destruct (ne_versus_invert_of_eq lax_cast_ext 6%nat (PRef 6%nat) sample_state
                (__eq__ lax_cast_ext 6%nat (PRef 6%nat) sample_state).2 8%nat)
      as (_ & _ & Hdiff); [vm_compute; reflexivity |].
    rewrite (Hdiff "int32"); [reflexivity | vm_compute; reflexivity | discriminate].
  - vm_compute. reflexivity.
Defined.

(** Witness of X8: [sum(axis=0)] on the flat tensor holding 10, 20, 30,
    40. *)
Lemma reduce_with_axis_is_direct_witness :
  calls_of (since sample_state (sum ref_ext 1%nat (Some 0) sample_state).2)
  = [ CConvertInputs [PRef 1%nat]; CApply (Reduce "SUM" 0) [PRef 1%nat] ]
  /\ (a_data ∘ t_numpy <$>
        underlying (heap (sum ref_ext 1%nat (Some 0) sample_state).2) (PRef 8%nat))
     = Some [SInt 100].
Proof.
  destruct (reduce_with_axis_is_direct ref_ext "SUM" (sum ref_ext) 1%nat 0
              sample_state) as (_ & _ & Hrun); [left; reflexivity |].
  split; [| vm_compute; reflexivity].
  destruct (sum ref_ext 1%nat (Some 0) sample_state) as [[e | r] s'] eqn:E;
    [vm_compute in E; discriminate |].
  destruct Hrun as (inp' & h1 & E1 & _ & Hsince). cbn [snd]. rewrite Hsince.
  vm_compute in E1. inversion E1; subst. reflexivity.
Defined.

(** Witness of X10: the target (2, -1.5, True) is the target (2, -1, 1). *)
Lemma reshape_converts_entries_witness :
  _reshape ref_ext (PRef 0%nat)
    (PTuple (map PScalar [SInt 2; SFloat (S754_finite true 6755399441055744 (-52));
                          SBool true]))
    sample_state
  = _reshape ref_ext (PRef 0%nat) (ints [2; -1; 1]) sample_state.
Proof.
  apply (reshape_converts_entries ref_ext).
  repeat constructor.
Defined.

(** Witness of X11: the target (4, -1) passed as a tensor. *)
Lemma reshape_reads_tensor_target_witness :
  _reshape ref_ext (PRef 0%nat) (PRef 8%nat) mixed_state
  = _reshape ref_ext (PRef 0%nat) (ints [4; -1]) mixed_state
  /\ _reshape ref_ext (PRef 0%nat) (PTensor t_target) mixed_state
     = _reshape ref_ext (PRef 0%nat) (ints [4; -1]) mixed_state.
Proof.
  apply (reshape_reads_tensor_target ref_ext (PRef 0%nat) 8%nat t_target [4; -1]
           mixed_state); try reflexivity.
  exists (wrap t_target). split; reflexivity.
Defined.

(** Witness of X12: rebinding the [TensorWrapper] at 0 and the
    [GenericTensorWrapper] at 9 to a primitive tensor. *)
Lemma reset_by_class_witness :
  (_reset ref_ext 0%nat (PTensor t_five) mixed_state).1 = inr PNone
  /\ heap (_reset ref_ext 0%nat (PTensor t_five) mixed_state).2 !! 0%nat
     = Some (wrap t_five)
  /\ _reset ref_ext 9%nat (PTensor t_five) mixed_state
     = (inl (TypeError "Tensor"), mixed_state).
Proof.
  destruct (reset_by_class ref_ext 0%nat (wrap t_square) mixed_state eq_refl)
    as [Htw _].
  destruct (reset_by_class ref_ext 9%nat
              {| w_class := GenericTensorWrapper; w_wrapped := Some (PRef 2%nat) |}
              mixed_state eq_refl) as [_ Hgen].
  rewrite (Htw eq_refl t_five).
  split; [reflexivity |]. split; [reflexivity |].
  apply (Hgen eq_refl (PTensor t_five) I).
Defined.

(** Witness of X13: rebinding the wrapper at 0 to the wrapper at 1. *)
Lemma reset_rebinds_only_self_witness :
  exists s',
    (_reset ref_ext 0%nat (PRef 1%nat) sample_state).2 = s'
    /\ bound s' 0%nat t_flat /\ bound s' 1%nat t_flat
    /\ length (heap s') = 8%nat
    /\ heap s' !! 7%nat = Some (wrap t_matrix).
Proof.
  destruct (reset_rebinds_only_self ref_ext 0%nat 1%nat (wrap t_square) t_flat
              sample_state eq_refl)
    as (v & s' & Hrun & Hself & Hother & _ & _ & _ & Hlen & Hframe & _).
  { apply sample_bound. reflexivity. }
  exists s'. rewrite Hrun. split; [reflexivity |].
  split; [exact Hself |]. split; [exact Hother |]. split; [exact Hlen |].
  rewrite Hframe by discriminate. reflexivity.
Defined.

(** [TensorWrapper._reset] with ample fuel, on raw data. *)
Example reset_with_ample_fuel :
  TensorWrapper__reset ref_ext 5 2%nat (PScalar (SInt 3)) sample_state
  = _reset ref_ext 2%nat (PScalar (SInt 3)) sample_state.
Proof. vm_compute. reflexivity. Qed.

(** Witness of X15: rebinding the wrapper at 2 to the Python int 3. *)
Lemma reset_with_raw_data_witness :
  _reset ref_ext 2%nat (PScalar (SInt 3)) sample_state =
  (inr PNone,
   {| heap := <[2%nat := wrap {| t_id := 9; t_device := "cpu0";
                                  t_numpy := {| a_shape := []; a_dtype := "int32";
                                                a_data := [SInt 3] |} |}]>
                (sample_heap ++
                 [wrap {| t_id := 9; t_device := "cpu0";
                          t_numpy := {| a_shape := []; a_dtype := "int32";
                                        a_data := [SInt 3] |} |}]);
      trace := [ EvNew 8%nat TensorWrapper;
                 EvCall (CAsRawTensor (PScalar (SInt 3)) (PDtype "int32") (PDevice "cpu0"));
                 EvCall (CTensor (PArray {| a_shape := []; a_dtype := "int32";
                                            a_data := [SInt 3] |}));
                 EvStore 8%nat (PTensor {| t_id := 9; t_device := "cpu0";
                   t_numpy := {| a_shape := []; a_dtype := "int32";
                                 a_data := [SInt 3] |} |});
                 EvStore 2%nat (PTensor {| t_id := 9; t_device := "cpu0";
                   t_numpy := {| a_shape := []; a_dtype := "int32";
                                 a_data := [SInt 3] |} |}) ] |}).
Proof.
  rewrite (reset_with_raw_data ref_ext 2%nat (wrap t_five) t_five (PScalar (SInt 3))
             sample_state
             (PArray {| a_shape := []; a_dtype := "int32"; a_data := [SInt 3] |})
             (PTensor {| t_id := 9; t_device := "cpu0";
                         t_numpy := {| a_shape := []; a_dtype := "int32";
                                       a_data := [SInt 3] |} |})
             (sample_heap ++ [blank]) (sample_heap ++ [blank]) blank (wrap t_five)
             eq_refl eq_refl eq_refl I eq_refl eq_refl eq_refl eq_refl).
  reflexivity.
Defined.

(** Witness of X16: rebinding the wrapper at 2 to [None]. *)
Lemma reset_with_None_keeps_binding_witness :
  (_reset ref_ext 2%nat PNone sample_state).1
  = inl (AssertionError (Some "Cannot init a tensor with data as None"))
  /\ heap (_reset ref_ext 2%nat PNone sample_state).2 !! 2%nat = Some (wrap t_five).
Proof.
  destruct (reset_with_None_keeps_binding ref_ext 2%nat (wrap t_five) t_five
              sample_state eq_refl eq_refl eq_refl) as [Hrun Hframe].
  split; [rewrite Hrun; reflexivity |].
  rewrite (Hframe 2%nat) by (simpl; lia). reflexivity.
Defined.

(** Witness of X18: the wrapper at 9 wraps the wrapper at 2; the wrapper
    at 10 wraps [None]. *)
Lemma nested_wrapper_forwards_witness :
  get_shape (PRef 9%nat) mixed_state = (inr [1], mixed_state)
  /\ get_dtype (PRef 9%nat) mixed_state = (inr "int32", mixed_state)
  /\ get_shape (PRef 10%nat) mixed_state = (inl (AttributeError "shape"), mixed_state).
Proof.
  destruct (nested_wrapper_forwards 9%nat
              {| w_class := GenericTensorWrapper; w_wrapped := Some (PRef 2%nat) |}
              mixed_state eq_refl) as [Hchain _].
  destruct (nested_wrapper_forwards 10%nat
              {| w_class := GenericTensorWrapper; w_wrapped := Some PNone |}
              mixed_state eq_refl) as [_ Hnone].
  destruct (Hchain 2%nat t_five eq_refl) as (Hshape & Hdtype & _).
  { exists (wrap t_five). split; reflexivity. }
  destruct (Hnone eq_refl) as (Hshape' & _).
  split; [exact Hshape |]. split; [exact Hdtype | exact Hshape'].
Defined.

(** Witness of X19: the sizes of the (3, 4) tensor and of the rank-0
    tensor. *)
Lemma size_counts_elements_witness :
  size 7%nat sample_state = (inr (SInt 12), sample_state)
  /\ size 4%nat sample_state = (inr (SFloat (float_of_Z 1)), sample_state).
Proof.
  split.
  - destruct (size_counts_elements 7%nat t_matrix sample_state) as [Hn _].
    + apply sample_bound. reflexivity.
    + split; vm_compute; reflexivity.
    + apply Hn. discriminate.
  - destruct (size_counts_elements 4%nat t_scalar sample_state) as [_ Hz].
    + apply sample_bound. reflexivity.
    + split; vm_compute; reflexivity.
    + apply (Hz eq_refl).
Defined.

(** Witness of X20: iterating the flat tensor holding 10, 20, 30, 40 on
    the indexing engine, and the rank-0 tensor. *)
Lemma iteration_indexes_in_order_witness :
  (list_of_iter indexing_ext 1%nat sample_state).1
  = inr [PRef 8%nat; PRef 9%nat; PRef 10%nat; PRef 11%nat]
  /\ calls_of (since sample_state (list_of_iter indexing_ext 1%nat sample_state).2)
     = [ CGetitem (PRef 1%nat) (PScalar (SInt 0));
         CGetitem (PRef 1%nat) (PScalar (SInt 1));
         CGetitem (PRef 1%nat) (PScalar (SInt 2));
         CGetitem (PRef 1%nat) (PScalar (SInt 3)) ]
  /\ list_of_iter indexing_ext 4%nat sample_state
     = (inl (TypeError "ndim is 0"), sample_state).
Proof.
  destruct (iteration_indexes_in_order indexing_ext 1%nat t_flat sample_state)
    as [_ Hflat]; [apply sample_bound; reflexivity |].
  destruct (iteration_indexes_in_order indexing_ext 4%nat t_scalar sample_state)
    as [Hzero _]; [apply sample_bound; reflexivity |].
  destruct (Hflat 4 [] eq_refl) as [_ Hok]; [lia |].
  split; [vm_compute; reflexivity |]. split; [| exact (Hzero eq_refl)].
  destruct (list_of_iter indexing_ext 1%nat sample_state) as [[e | vs] s'] eqn:E;
    [vm_compute in E; discriminate |].
  destruct (Hok vs s' eq_refl) as [_ Hsince]. cbn [snd]. rewrite Hsince.
  reflexivity.
Defined.

(** Witness of X21: [x.item(2)] on the flat tensor holding 10, 20, 30,
    40. *)
Lemma item_with_index_witness :
  (item indexing_ext 1%nat [PScalar (SInt 2)] sample_state).1 = inr (SInt 30).
Proof.
  destruct (item_with_index indexing_ext 1%nat [PScalar (SInt 2)] sample_state)
    as [Hok _]; [discriminate |].
  destruct (Hok 8%nat
              (sample_heap ++
               [wrap {| t_id := 8; t_device := "cpu0";
                        t_numpy := {| a_shape := []; a_dtype := "int32";
                                      a_data := [SInt 30] |} |}])
              {| t_id := 8; t_device := "cpu0";
                 t_numpy := {| a_shape := []; a_dtype := "int32";
                               a_data := [SInt 30] |} |})
    as [Hone _].
  - reflexivity.
  - eexists. split; reflexivity.
  - split; vm_compute; reflexivity.
  - rewrite (Hone (SInt 30) eq_refl). reflexivity.
Defined.

(** Witness of X22: [&=] on an int32 receiver, [^=] on a boolean receiver
    with an int32 operand. *)
Lemma inplace_logical_rejects_non_bool_witness :
  __iand__ ref_ext 2%nat (PRef 5%nat) sample_state
  = (inl (TypeError "AND requires 2 bool tensors"), sample_state)
  /\ __ixor__ ref_ext 5%nat (PRef 2%nat) sample_state
     = (inl (TypeError "XOR requires 2 bool tensors"), sample_state).
Proof.
  split.
  - apply (inplace_logical_rejects_non_bool ref_ext "AND" (__iand__ ref_ext) 2%nat
             (PRef 5%nat) sample_state "int32");
      [left; reflexivity | reflexivity | left; discriminate].
  - apply (inplace_logical_rejects_non_bool ref_ext "XOR" (__ixor__ ref_ext) 5%nat
             (PRef 2%nat) sample_state "bool");
      [do 2 right; left; reflexivity | reflexivity |].
    right. exists "int32". split; [reflexivity | discriminate].
Defined.

(** Witness of X23: [+=] on an engine whose [apply] returns a primitive
    tensor, for the [TensorWrapper] at 1 and the [GenericTensorWrapper] at
    9. *)
Lemma inplace_with_tensor_result_witness :
  (__iadd__ bare_ext 1%nat (PRef 1%nat) mixed_state).1 = inr (PRef 1%nat)
  /\ heap (__iadd__ bare_ext 1%nat (PRef 1%nat) mixed_state).2 !! 1%nat
     = Some (wrap t_five)
  /\ (__iadd__ bare_ext 9%nat (PRef 1%nat) mixed_state).1 = inl (TypeError "Tensor")
  /\ heap (__iadd__ bare_ext 9%nat (PRef 1%nat) mixed_state).2 = mixed_heap.
Proof.
  assert (Hin : In (__add__ bare_ext, __iadd__ bare_ext) (inplace_table bare_ext))
    by (left; reflexivity).
  destruct (inplace_with_tensor_result bare_ext _ _ 1%nat (PRef 1%nat) mixed_state
              (__add__ bare_ext 1%nat (PRef 1%nat) mixed_state).2 t_five
              (wrap t_flat) Hin) as [Htw _];
    [vm_compute; reflexivity | reflexivity |].
  destruct (inplace_with_tensor_result bare_ext _ _ 9%nat (PRef 1%nat) mixed_state
              (__add__ bare_ext 9%nat (PRef 1%nat) mixed_state).2 t_five
              {| w_class := GenericTensorWrapper; w_wrapped := Some (PRef 2%nat) |}
              Hin) as [_ Hgen];
    [vm_compute; reflexivity | reflexivity |].
  rewrite (Htw eq_refl), (Hgen eq_refl).
  repeat split; reflexivity.
Defined.
